(** * Water-Bill-Bot: the ledger store and the billing engine of main.py

A shallow embedding of [DataManager] and of the billing part of
[WaterBillBot], with the properties of the specification proved over it.

Conventions of the embedding:
- a Python [float] is an IEEE 754 binary64 number ([PyFloat.t], the
  [spec_float] of the Standard Library at precision 53): every operation of
  the source rounds as the interpreter does, and infinities and NaN are
  values like the others;
- a Python [dict] is an association list in insertion order with pairwise
  distinct keys ([PyDict]);
- [self.data], the files the manager touches and the records handed to
  [logger] make up the [World]; code that reads or writes them lives in the
  monad [M], whose failures are the Python exceptions the code can meet;
- [datetime.datetime.now()] is the [Clock] argument of an operation: one
  operation reads the clock at one instant. *)

From Stdlib Require Import List String Ascii Bool Arith NArith ZArith QArith Lia.
From Stdlib Require Import Qround Permutation Sorted OrderedTypeEx DecimalString.
From Stdlib Require Import Floats.SpecFloat.
Import ListNotations.

Set Implicit Arguments.
Local Open Scope string_scope.

(** ** Python strings *)

Module PyStr.

(** [s.startswith(p)] *)
Definition startswith (s p : string) : bool := String.prefix p s.

(** [sub in s] *)
Fixpoint contains (sub s : string) : bool :=
  String.prefix sub s ||
  match s with
  | EmptyString => false
  | String _ s' => contains sub s'
  end.

(** [s.endswith(p)] *)
Definition endswith (s p : string) : bool :=
  (String.length p <=? String.length s)%nat &&
  String.eqb (substring (String.length s - String.length p) (String.length p) s) p.

(** [a < b] on [str]: the order of the code points, which is the order of
    the bytes of the UTF-8 text. *)
Definition lt (a b : string) : bool := String.ltb a b.

(** One decimal digit. *)
Definition digit (n : nat) : ascii := ascii_of_nat (48 + n mod 10).

(** Zero-padded decimal renderings, as [%m], [%Y] and [%f] print them. *)
Definition pad2 (n : nat) : string :=
  String (digit (n / 10)) (String (digit n) EmptyString).
Definition pad4 (n : nat) : string := pad2 (n / 100) ++ pad2 (n mod 100).
Definition pad6 (n : nat) : string :=
  pad2 (n / 100 / 100) ++ pad4 (n mod (100 * 100)).

(** [str(n)] for a natural number. *)
Definition of_nat (n : nat) : string := NilEmpty.string_of_uint (Nat.to_uint n).

End PyStr.

(** ** Python slices [l[:stop]] *)

(** A stop that is not negative counts from the start, a negative one from
    the end. *)
Definition slice_to (A : Type) (stop : Z) (l : list A) : list A :=
  if (0 <=? stop)%Z then firstn (Z.to_nat stop) l
  else firstn (List.length l - Z.to_nat (- stop)) l.

(** ** Python dictionaries: insertion-ordered, keyed by strings *)

Module PyDict.

Definition dict (V : Type) : Type := list (string * V).

Definition empty (V : Type) : dict V := [].

Definition keys (V : Type) (d : dict V) : list string := map fst d.
Definition values (V : Type) (d : dict V) : list V := map snd d.
Definition items (V : Type) (d : dict V) : list (string * V) := d.

(** [d.get(k)] *)
Fixpoint get (V : Type) (k : string) (d : dict V) : option V :=
  match d with
  | [] => None
  | (k', v) :: d' => if String.eqb k k' then Some v else get k d'
  end.

(** [k in d] *)
Definition mem (V : Type) (k : string) (d : dict V) : bool :=
  match get k d with Some _ => true | None => false end.

(** [d[k] = v]: an existing key keeps its place, a new key goes last. *)
Fixpoint set (V : Type) (k : string) (v : V) (d : dict V) : dict V :=
  match d with
  | [] => [(k, v)]
  | (k', v') :: d' =>
      if String.eqb k k' then (k, v) :: d' else (k', v') :: set k v d'
  end.

(** [del d[k]] *)
Definition remove (V : Type) (k : string) (d : dict V) : dict V :=
  filter (fun kv => negb (String.eqb k (fst kv))) d.

(** The invariant of a dictionary: no key occurs twice. *)
Definition ok (V : Type) (d : dict V) : Prop := NoDup (keys d).

End PyDict.

(** ** [list.sort(key=...)]: a stable sort on a key

    [lt] is [<] on the keys.  An element is put before the first element of
    the sorted tail whose key is not smaller, so equal keys keep the order
    they came in; [reverse=True] is the same with [lt] flipped. *)

Section StableSort.
Variables (A K : Type) (key : A -> K) (lt : K -> K -> bool).

Fixpoint insert_by (x : A) (l : list A) : list A :=
  match l with
  | [] => [x]
  | y :: l' => if lt (key y) (key x) then y :: insert_by x l' else x :: l
  end.

Definition sort_by (l : list A) : list A := fold_right insert_by [] l.

(** [a] may stand before [b]: the key of [b] is not smaller. *)
Definition key_le (a b : A) : Prop := lt (key b) (key a) = false.
End StableSort.

(** [l.sort(key=key)] and [l.sort(key=key, reverse=True)] *)
Definition sort_asc (A K : Type) (key : A -> K) (lt : K -> K -> bool) :=
  sort_by key lt.
Definition sort_desc (A K : Type) (key : A -> K) (lt : K -> K -> bool) :=
  sort_by key (fun a b => lt b a).

(** ** Numbers *)

(** [a < b] on rationals, as a test. *)
Definition Qltb (a b : Q) : bool := negb (Qle_bool b a).

(** Python's [float]: binary64, that is precision 53 and exponents below
    1024. The operations are those of IEEE 754 with rounding to nearest,
    ties to even; a comparison with NaN is false. [of_Z] is [float(z)] for
    the integers the source mixes with floats (0, 100, the prices, a
    length), all of them exactly representable. [div] is only used where
    the source has tested the divisor (Python raises on a zero divisor,
    IEEE 754 does not). *)
Module PyFloat.

Definition t : Type := spec_float.

Definition prec : Z := 53.
Definition emax : Z := 1024.

Definition of_Z (z : Z) : t := binary_normalize prec emax z 0 false.

Definition add : t -> t -> t := SFadd prec emax.
Definition sub : t -> t -> t := SFsub prec emax.
Definition mul : t -> t -> t := SFmul prec emax.
Definition div : t -> t -> t := SFdiv prec emax.

Definition ltb : t -> t -> bool := SFltb.
Definition leb : t -> t -> bool := SFleb.
Definition eqb : t -> t -> bool := SFeqb.

(** [abs(a)] *)
Definition abs : t -> t := SFabs.

(** Truth value of a number: [0.0] and [-0.0] are false, NaN is true. *)
Definition truthy (a : t) : bool := negb (eqb a (of_Z 0)).

(** The real number a finite float stands for, a rational. *)
Definition value (a : t) : option Q :=
  match a with
  | S754_zero _ => Some 0%Q
  | S754_finite s m e =>
      let magnitude :=
        match e with
        | Zneg k => (Zpos m # Pos.pow 2 k)%Q
        | _ => inject_Z (Zpos m * 2 ^ e)
        end in
      Some (if s then (- magnitude)%Q else magnitude)
  | S754_infinity _ | S754_nan => None
  end.

End PyFloat.

(** Rounding to the nearest integer, ties to even: the rounding of [:.1f]
    applied to the exact value of the float. *)
Definition round_half_even (q : Q) : Z :=
  let f := Qfloor q in
  let r := (q - inject_Z f)%Q in
  if Qltb r (1 # 2) then f
  else if Qltb (1 # 2) r then (f + 1)%Z
  else if Z.even f then f else (f + 1)%Z.

(** The digits of [f"{q:.1f}"] for a rational [q >= 0]. *)
Definition format_1f_exact (q : Q) : string :=
  let n := Z.to_nat (round_half_even (q * 10)%Q) in
  PyStr.of_nat (n / 10) ++ "." ++ String (PyStr.digit n) EmptyString.

(** [f"{a:.1f}"]: the decimal nearest to the exact value of the float. *)
Definition format_1f (a : PyFloat.t) : string :=
  match a with
  | S754_nan => "nan"
  | S754_infinity s => if s then "-inf" else "inf"
  | S754_zero s => if s then "-0.0" else "0.0"
  | S754_finite s _ _ =>
      match PyFloat.value (PyFloat.abs a) with
      | Some q => (if s then "-" else "") ++ format_1f_exact q
      | None => ""
      end
  end.

(** ** Settings of the module *)

Definition UNIT_PRICE : Z := 700.
Definition MONTHLY_FEE : Z := 250.
Definition CURRENCY : string := "﷼".
Definition REMINDER_DAY : nat := 1.
Definition REMINDER_HOUR : nat := 13.

(** ** Data model *)

(** [Invoice], and the dictionary [save_invoice] stores for it: the same
    eight fields. *)
Module Invoice.
Record t : Type := mk {
  user_id : string;
  year_month : string;
  previous_reading : PyFloat.t;
  current_reading : PyFloat.t;
  consumption : PyFloat.t;
  total_amount : PyFloat.t;
  timestamp : string;
  month_name : string }.
End Invoice.

(** A stored user: a dictionary in which any field may be absent. A partial
    update handed to [update_user] has the same shape. *)
Module User.
Record t : Type := mk {
  first_name : option string;
  username : option string;
  reminder_enabled : option bool;
  notification_time : option string;
  created_at : option string;
  last_active : option string;
  last_reading : option PyFloat.t;
  last_invoice_date : option string }.

Definition nothing : t := mk None None None None None None None None.

Definition or_else (A : Type) (new old : option A) : option A :=
  match new with Some _ => new | None => old end.

(** [cur.update(upd)] *)
Definition update (cur upd : t) : t :=
  mk (or_else (first_name upd) (first_name cur))
     (or_else (username upd) (username cur))
     (or_else (reminder_enabled upd) (reminder_enabled cur))
     (or_else (notification_time upd) (notification_time cur))
     (or_else (created_at upd) (created_at cur))
     (or_else (last_active upd) (last_active cur))
     (or_else (last_reading upd) (last_reading cur))
     (or_else (last_invoice_date upd) (last_invoice_date cur)).
End User.

Module Settings.
Record t : Type := mk {
  unit_price : Z;
  monthly_fee : Z;
  currency : string;
  reminder_day : nat;
  reminder_hour : nat }.
End Settings.

(** The document [self.data]. [users] is read with a plain subscript by
    [get_user], which every writer goes through, so the record always has it;
    [invoices] is guarded wherever it is read or written and may be absent. *)
Module Document.
Record t : Type := mk {
  version : string;
  created_at : string;
  users : PyDict.dict User.t;
  invoices : option (PyDict.dict Invoice.t);
  settings : Settings.t }.

Definition with_users (us : PyDict.dict User.t) (d : t) : t :=
  mk (version d) (created_at d) us (invoices d) (settings d).
Definition with_invoices (iv : option (PyDict.dict Invoice.t)) (d : t) : t :=
  mk (version d) (created_at d) (users d) iv (settings d).

(** [self.data.get("invoices", {})] *)
Definition invoices_or_empty (d : t) : PyDict.dict Invoice.t :=
  match invoices d with Some iv => iv | None => PyDict.empty _ end.
End Document.

(** ** The clock *)

(** A reading of [datetime.datetime.now()], with the modification time the
    file system gives to a file written at that instant. *)
Record Clock : Type := mkClock {
  year : nat; month : nat; day : nat;
  hour : nat; minute : nat; second : nat; microsecond : nat;
  ticks : Z }.

(** [strftime("%Y-%m")] *)
Definition strftime_Y_m (now : Clock) : string :=
  PyStr.pad4 (year now) ++ "-" ++ PyStr.pad2 (month now).

(** [strftime("%Y%m%d")] *)
Definition strftime_Ymd (now : Clock) : string :=
  PyStr.pad4 (year now) ++ PyStr.pad2 (month now) ++ PyStr.pad2 (day now).

(** [strftime("%H%M%S")] *)
Definition strftime_HMS (now : Clock) : string :=
  PyStr.pad2 (hour now) ++ PyStr.pad2 (minute now) ++ PyStr.pad2 (second now).

(** [strftime("%Y%m%d_%H%M%S")] *)
Definition strftime_Ymd_HMS (now : Clock) : string :=
  strftime_Ymd now ++ "_" ++ strftime_HMS now.

(** [strftime("%Y-%m-%d %H:%M:%S")] *)
Definition strftime_full (now : Clock) : string :=
  strftime_Y_m now ++ "-" ++ PyStr.pad2 (day now) ++ " " ++
  PyStr.pad2 (hour now) ++ ":" ++ PyStr.pad2 (minute now) ++ ":" ++
  PyStr.pad2 (second now).

(** [isoformat()] *)
Definition isoformat (now : Clock) : string :=
  strftime_Y_m now ++ "-" ++ PyStr.pad2 (day now) ++ "T" ++
  PyStr.pad2 (hour now) ++ ":" ++ PyStr.pad2 (minute now) ++ ":" ++
  PyStr.pad2 (second now) ++
  (if (microsecond now =? 0)%nat then "" else "." ++ PyStr.pad6 (microsecond now)).

(** The dates [datetime] can hold. *)
Definition valid_date (now : Clock) : Prop :=
  (1 <= year now < 100 * 100 /\ 1 <= month now <= 12)%nat.

(** ** The world: document in memory, files, log *)

Record File : Type := mkFile { bytes : string; mtime : Z }.

(** The files of the manager: [readings.json] and the directory [backups],
    whose listing order is the order of the list.  [None] is a path that does
    not exist; the flags say whether opening for reading or for writing is
    permitted there. *)
Record Disk : Type := mkDisk {
  data_file : option File;
  data_readable : bool;
  data_writable : bool;
  backup_dir : option (PyDict.dict File);
  backup_writable : bool }.

Inductive path : Type :=
| DATA_FILE
| BACKUP_DIR
| BACKUP (name : string).

(** The exceptions of the modelled code; all are subclasses of [Exception].
    [ValueError] is the one [calculate_invoice] raises, whose message names
    the current and the previous reading. *)
Inductive exn : Type :=
| ValueError (current previous : PyFloat.t)
| KeyError (k : string)
| FileNotFoundError (p : path)
| PermissionError (p : path)
| JSONDecodeError
| UnicodeDecodeError.

(** An exception of the operating system's file interface ([OSError]). *)
Definition is_OSError (e : exn) : bool :=
  match e with
  | FileNotFoundError _ | PermissionError _ => true
  | _ => false
  end.

Inductive level : Type := INFO | WARNING | ERROR.

(** The calls to [logger], one constructor per message of the source. *)
Inductive event : Type :=
| DataLoaded
| JSONError (e : exn)
| LoadError (e : exn)
| NewDataFile
| DataSaved
| SaveError (e : exn)
| BackupCreated (name : string)
| BackupFailed (e : exn)
| CorruptedSaved (name : string)
| CorruptedSaveFailed (e : exn)
| OldBackupDeleted (name : string)
| CleanupFailed (e : exn)
| ReadingError (e : exn).

Record World : Type := mkWorld {
  data : Document.t;
  disk : Disk;
  log : list (level * event) }.

(** What [json.load] makes of the bytes of a file. *)
Inductive parsed : Type :=
| Parsed (d : Document.t)
| NotJSON
| NotText.

(** The [json] module: [json.dump(d, f, ensure_ascii=False, indent=2)] as the
    bytes it writes, [json.load] as its outcome on the bytes of a file. *)
Class Json : Type := {
  json_dump : Document.t -> string;
  json_load : string -> parsed }.

(** ** The monad of the code: state and exceptions *)

Definition M (A : Type) : Type := World -> (exn + A) * World.

Definition ret (A : Type) (a : A) : M A := fun w => (inr a, w).

Definition bind (A B : Type) (m : M A) (k : A -> M B) : M B :=
  fun w => match m w with
           | (inl e, w') => (inl e, w')
           | (inr a, w') => k a w'
           end.

Definition raise (A : Type) (e : exn) : M A := fun w => (inl e, w).
Arguments raise {A} e.

(** [try: m  except Exception as e: h e] *)
Definition try_except (A : Type) (m : M A) (h : exn -> M A) : M A :=
  fun w => match m w with
           | (inl e, w') => h e w'
           | (inr a, w') => (inr a, w')
           end.

Declare Scope py_scope.
Delimit Scope py_scope with py.
Notation "x <- m ;; k" := (bind m (fun x => k))
  (at level 61, m at next level, right associativity) : py_scope.
Notation "m ;; k" := (bind m (fun _ => k))
  (at level 61, right associativity) : py_scope.
Local Open Scope py_scope.

(** [for x in l: body x] *)
Fixpoint for_each (A : Type) (body : A -> M unit) (l : list A) : M unit :=
  match l with
  | [] => ret tt
  | x :: l' => body x ;; for_each body l'
  end.

(** [[f x for x in l]] *)
Fixpoint map_M (A B : Type) (f : A -> M B) (l : list A) : M (list B) :=
  match l with
  | [] => ret []
  | x :: l' => y <- f x ;; ys <- map_M f l' ;; ret (y :: ys)
  end.

Definition get_data : M Document.t := fun w => (inr (data w), w).
Definition put_data (d : Document.t) : M unit :=
  fun w => (inr tt, mkWorld d (disk w) (log w)).
Definition get_disk : M Disk := fun w => (inr (disk w), w).
Definition put_disk (k : Disk) : M unit :=
  fun w => (inr tt, mkWorld (data w) k (log w)).

(** [logger.info], [logger.warning], [logger.error] *)
Definition logger (l : level) (ev : event) : M unit :=
  fun w => (inr tt, mkWorld (data w) (disk w) (log w ++ [(l, ev)])%list).

(** ** The file interface *)

(** [os.path.exists(self.data_file)] *)
Definition exists_data_file : M bool :=
  k <- get_disk ;;
  ret (match data_file k with Some _ => true | None => false end).

(** [os.path.exists(self.backup_dir)] *)
Definition exists_backup_dir : M bool :=
  k <- get_disk ;;
  ret (match backup_dir k with Some _ => true | None => false end).

(** [os.makedirs(self.backup_dir)], taken to succeed. *)
Definition makedirs_backup_dir : M unit :=
  k <- get_disk ;;
  put_disk (mkDisk (data_file k) (data_readable k) (data_writable k)
                   (Some (PyDict.empty _)) (backup_writable k)).

(** [open(self.data_file, "r")] and reading all of it. *)
Definition read_data_file : M string :=
  k <- get_disk ;;
  match data_file k with
  | None => raise (FileNotFoundError DATA_FILE)
  | Some f => if data_readable k then ret (bytes f)
              else raise (PermissionError DATA_FILE)
  end.

(** [open(self.data_file, "w")] and writing [s]. [data_writable] tells
    whether the file may be opened for writing; when it may not, [open]
    raises before the file is touched. A write that fails after the file
    was opened (a full disk, say) would leave it truncated: that case is not
    among the states of [Disk], and no property below describes the file
    left by a write that failed on its way. *)
Definition write_data_file (s : string) (now : Clock) : M unit :=
  k <- get_disk ;;
  if data_writable k
  then put_disk (mkDisk (Some (mkFile s (ticks now))) (data_readable k)
                        (data_writable k) (backup_dir k) (backup_writable k))
  else raise (PermissionError DATA_FILE).

(** [os.listdir(self.backup_dir)] *)
Definition listdir_backup_dir : M (list string) :=
  k <- get_disk ;;
  match backup_dir k with
  | None => raise (FileNotFoundError BACKUP_DIR)
  | Some dir => ret (PyDict.keys dir)
  end.

(** Putting file [f] at [name] in the backup directory. As for the data
    file, the only refusals are those of [open]: a missing directory or one
    that may not be written. A backup left half written by a failure after
    [open] is not among the states of [Disk], and no property below
    describes the directory left by such a failure. *)
Definition put_backup (name : string) (f : File) : M unit :=
  k <- get_disk ;;
  match backup_dir k with
  | None => raise (FileNotFoundError (BACKUP name))
  | Some dir =>
      if backup_writable k
      then put_disk (mkDisk (data_file k) (data_readable k) (data_writable k)
                            (Some (PyDict.set name f dir)) (backup_writable k))
      else raise (PermissionError (BACKUP name))
  end.

(** [open(backup_file, "w")] and writing [s]. *)
Definition write_backup (name s : string) (now : Clock) : M unit :=
  put_backup name (mkFile s (ticks now)).

(** [os.path.getmtime(os.path.join(self.backup_dir, name))] *)
Definition getmtime (name : string) : M Z :=
  k <- get_disk ;;
  match backup_dir k with
  | None => raise (FileNotFoundError (BACKUP name))
  | Some dir =>
      match PyDict.get name dir with
      | Some f => ret (mtime f)
      | None => raise (FileNotFoundError (BACKUP name))
      end
  end.

(** [os.remove(os.path.join(self.backup_dir, name))] *)
Definition os_remove (name : string) : M unit :=
  k <- get_disk ;;
  match backup_dir k with
  | None => raise (FileNotFoundError (BACKUP name))
  | Some dir =>
      if negb (PyDict.mem name dir) then raise (FileNotFoundError (BACKUP name))
      else if backup_writable k
      then put_disk (mkDisk (data_file k) (data_readable k) (data_writable k)
                            (Some (PyDict.remove name dir)) (backup_writable k))
      else raise (PermissionError (BACKUP name))
  end.

(** [shutil.copy2(self.data_file, corrupted_file)]: contents and
    modification time are copied. *)
Definition copy2_data_file (name : string) : M unit :=
  k <- get_disk ;;
  match data_file k with
  | None => raise (FileNotFoundError DATA_FILE)
  | Some f => if data_readable k then put_backup name f
              else raise (PermissionError DATA_FILE)
  end.

(** ** DataManager *)

Section DataManager.
Context {J : Json}.

Definition initialize_data_structure (now : Clock) : Document.t :=
  Document.mk "2.0" (isoformat now) (PyDict.empty _) (Some (PyDict.empty _))
    (Settings.mk UNIT_PRICE MONTHLY_FEE CURRENCY REMINDER_DAY REMINDER_HOUR).

Definition ensure_directories : M unit :=
  ex <- exists_backup_dir ;;
  if negb ex then makedirs_backup_dir else ret tt.

Definition is_backup_name (f : string) : bool :=
  PyStr.startswith f "water_bill_backup_" && PyStr.endswith f ".json".

Definition cleanup_old_backups (keep_last : Z) : M unit :=
  try_except
    (names <- listdir_backup_dir ;;
     let backup_files := filter is_backup_name names in
     if (keep_last <? Z.of_nat (List.length backup_files))%Z
     then
       stamps <- map_M getmtime backup_files ;;
       let sorted := map fst (sort_asc snd Z.ltb (combine backup_files stamps)) in
       for_each (fun old_file =>
                   os_remove old_file ;;
                   logger INFO (OldBackupDeleted old_file))
                (slice_to (- keep_last) sorted)
     else ret tt)
    (fun e => logger ERROR (CleanupFailed e)).

Definition backup_name (backup_type : string) (now : Clock) : string :=
  "water_bill_backup_" ++ backup_type ++ "_" ++ strftime_Ymd_HMS now ++ ".json".

Definition create_backup (backup_type : string) (now : Clock) : M (option string) :=
  let backup_file := backup_name backup_type now in
  try_except
    (d <- get_data ;;
     write_backup backup_file (json_dump d) now ;;
     logger INFO (BackupCreated backup_file) ;;
     cleanup_old_backups 10 ;;
     ret (Some backup_file))
    (fun e => logger ERROR (BackupFailed e) ;; ret None).

Definition is_auto_backup_of (today f : string) : bool :=
  PyStr.startswith f "water_bill_backup_auto_" && PyStr.contains today f.

Definition create_auto_backup (now : Clock) : M unit :=
  let today := strftime_Ymd now in
  names <- listdir_backup_dir ;;
  let backup_exists :=
    existsb (PyStr.contains today)
            (filter (fun f => PyStr.startswith f "water_bill_backup_auto_") names) in
  if negb backup_exists then create_backup "auto" now ;; ret tt else ret tt.

Definition corrupted_name (now : Clock) : string :=
  "corrupted_data_" ++ strftime_Ymd_HMS now ++ ".json".

Definition create_backup_before_fix (now : Clock) : M unit :=
  let corrupted_file := corrupted_name now in
  ex <- exists_data_file ;;
  if ex
  then try_except
         (copy2_data_file corrupted_file ;;
          logger WARNING (CorruptedSaved corrupted_file))
         (fun e => logger ERROR (CorruptedSaveFailed e))
  else ret tt.

Definition load_data (now : Clock) : M Document.t :=
  ex <- exists_data_file ;;
  if ex
  then try_except
         (s <- read_data_file ;;
          match json_load s with
          | Parsed d => logger INFO DataLoaded ;; ret d
          | NotJSON => raise JSONDecodeError
          | NotText => raise UnicodeDecodeError
          end)
         (fun e =>
            match e with
            | JSONDecodeError =>
                logger ERROR (JSONError e) ;;
                create_backup_before_fix now ;;
                ret (initialize_data_structure now)
            | _ =>
                logger ERROR (LoadError e) ;;
                ret (initialize_data_structure now)
            end)
  else logger INFO NewDataFile ;; ret (initialize_data_structure now).

(** [__init__] *)
Definition init (now : Clock) : M unit :=
  ensure_directories ;;
  d <- load_data now ;;
  put_data d.

Definition save_data (now : Clock) : M unit :=
  try_except
    (create_auto_backup now ;;
     d <- get_data ;;
     write_data_file (json_dump d) now ;;
     logger INFO DataSaved)
    (fun e => logger ERROR (SaveError e) ;; raise e).

Definition new_user (now : Clock) : User.t :=
  User.mk (Some "") (Some "") (Some true) (Some "10:00")
          (Some (isoformat now)) (Some (isoformat now)) None None.

Definition get_user (user_id : string) (now : Clock) : M User.t :=
  d <- get_data ;;
  (if negb (PyDict.mem user_id (Document.users d))
   then put_data (Document.with_users
                    (PyDict.set user_id (new_user now) (Document.users d)) d)
   else ret tt) ;;
  d <- get_data ;;
  match PyDict.get user_id (Document.users d) with
  | Some u => ret u
  | None => raise (KeyError user_id)
  end.

(** [self.data["users"][user_id].update(fields)] *)
Definition set_user_fields (user_id : string) (fields : User.t) : M unit :=
  d <- get_data ;;
  match PyDict.get user_id (Document.users d) with
  | Some u => put_data (Document.with_users
                          (PyDict.set user_id (User.update u fields)
                                      (Document.users d)) d)
  | None => raise (KeyError user_id)
  end.

Definition update_user (user_id : string) (user_data : User.t) (now : Clock)
  : M unit :=
  get_user user_id now ;;
  set_user_fields user_id user_data ;;
  set_user_fields user_id
    (User.mk None None None None None (Some (isoformat now)) None None) ;;
  save_data now.

Definition invoice_id_of (user_id year_month : string) : string :=
  user_id ++ "_" ++ year_month.
Arguments invoice_id_of : simpl never.

Definition save_invoice (invoice : Invoice.t) (now : Clock) : M string :=
  let user_id := Invoice.user_id invoice in
  get_user user_id now ;;
  let invoice_id := invoice_id_of user_id (Invoice.year_month invoice) in
  d <- get_data ;;
  (match Document.invoices d with
   | None => put_data (Document.with_invoices (Some (PyDict.empty _)) d)
   | Some _ => ret tt
   end) ;;
  d <- get_data ;;
  put_data (Document.with_invoices
              (Some (PyDict.set invoice_id invoice (Document.invoices_or_empty d)))
              d) ;;
  set_user_fields user_id
    (User.mk None None None None None None
             (Some (Invoice.current_reading invoice)) None) ;;
  set_user_fields user_id
    (User.mk None None None None None None None
             (Some (Invoice.year_month invoice))) ;;
  save_data now ;;
  ret invoice_id.

Definition get_invoice (d : Document.t) (invoice_id : string) : option Invoice.t :=
  PyDict.get invoice_id (Document.invoices_or_empty d).

Definition get_user_invoices (d : Document.t) (user_id : string) (limit : Z)
  : list Invoice.t :=
  let invoices :=
    filter (fun invoice => String.eqb (Invoice.user_id invoice) user_id)
           (PyDict.values (Document.invoices_or_empty d)) in
  slice_to limit (sort_desc Invoice.year_month PyStr.lt invoices).

Definition get_invoice_by_month (d : Document.t) (user_id year_month : string)
  : option Invoice.t :=
  get_invoice d (invoice_id_of user_id year_month).

Definition get_last_reading (d : Document.t) (user_id : string)
  : option PyFloat.t :=
  match get_user_invoices d user_id 1 with
  | invoice :: _ => Some (Invoice.current_reading invoice)
  | [] => None
  end.

(** [user_data.get("reminder_enabled", True)] *)
Definition reminder_flag (u : User.t) : bool :=
  match User.reminder_enabled u with Some b => b | None => true end.

Definition get_all_users_for_reminder (d : Document.t)
  : list (string * User.t) :=
  filter (fun kv => reminder_flag (snd kv)) (PyDict.items (Document.users d)).

End DataManager.

(** ** WaterBillBot: the billing engine *)

Section WaterBillBot.
Context {J : Json}.

Definition arabic_months : list string :=
  [ "يناير"; "فبراير"; "مارس"; "أبريل"; "مايو"; "يونيو";
    "يوليو"; "أغسطس"; "سبتمبر"; "أكتوبر"; "نوفمبر"; "ديسمبر" ].

(** [self.arabic_months[month_number - 1]], for the months 1 to 12 a
    [datetime] has. *)
Definition get_arabic_month (month_number : nat) : string :=
  nth (month_number - 1) arabic_months "".

(** [last_reading or 0]; the integer 0 enters the arithmetic that follows
    as the float zero. *)
Definition or_zero (last_reading : option PyFloat.t) : PyFloat.t :=
  match last_reading with
  | Some r => if PyFloat.truthy r then r else PyFloat.of_Z 0
  | None => PyFloat.of_Z 0
  end.

Definition calculate_invoice (user_id : string) (current_reading : PyFloat.t)
  (today : Clock) : M Invoice.t :=
  let year_month := strftime_Y_m today in
  d <- get_data ;;
  let last_reading := get_last_reading d user_id in
  let previous_reading := or_zero last_reading in
  if PyFloat.ltb current_reading previous_reading
  then raise (ValueError current_reading previous_reading)
  else
    let consumption := PyFloat.sub current_reading previous_reading in
    let consumption_total := PyFloat.mul consumption (PyFloat.of_Z UNIT_PRICE) in
    let total_bill := PyFloat.add consumption_total (PyFloat.of_Z MONTHLY_FEE) in
    let month_name := get_arabic_month (month today) in
    let arabic_date := month_name ++ " " ++ PyStr.of_nat (year today) in
    ret (Invoice.mk user_id year_month previous_reading current_reading
           consumption total_bill (strftime_full today) arabic_date).

(** The comparison line of an invoice message: the direction, and the
    number printed after it, [abs(change)]. *)
Inductive Trend : Type :=
| Increase (percent : PyFloat.t)
| Decrease (percent : PyFloat.t)
| Unchanged.

(** The text of [trend]. *)
Definition trend_text (t : Trend) : string :=
  match t with
  | Increase p => "📈 زيادة بنسبة " ++ format_1f p ++ "%"
  | Decrease p => "📉 انخفاض بنسبة " ++ format_1f p ++ "%"
  | Unchanged => "⏸️ بدون تغيير"
  end.

(** The message of an invoice, as the values it prints. *)
Record Message : Type := mkMessage {
  shown_month : string;
  shown_previous : PyFloat.t;
  shown_current : PyFloat.t;
  shown_consumption : PyFloat.t;
  shown_consumption_total : PyFloat.t;
  shown_total : PyFloat.t;
  shown_timestamp : string;
  comparison : option Trend }.

(** [change], three float operations, and its classification. *)
Definition percent_change (current previous : PyFloat.t) : PyFloat.t :=
  PyFloat.mul (PyFloat.div (PyFloat.sub current previous) previous)
              (PyFloat.of_Z 100).

Definition classify (change : PyFloat.t) : Trend :=
  if PyFloat.ltb (PyFloat.of_Z 0) change then Increase (PyFloat.abs change)
  else if PyFloat.ltb change (PyFloat.of_Z 0) then Decrease (PyFloat.abs change)
  else Unchanged.

Definition format_invoice_message (d : Document.t) (invoice : Invoice.t)
  (show_comparison : bool) : Message :=
  let consumption_total :=
    PyFloat.mul (Invoice.consumption invoice) (PyFloat.of_Z UNIT_PRICE) in
  let trend :=
    if show_comparison
    then
      let user_invoices := get_user_invoices d (Invoice.user_id invoice) 2 in
      if (1 <? List.length user_invoices)%nat
      then
        match nth_error user_invoices 1 with
        | Some prev_invoice =>
            if PyFloat.ltb (PyFloat.of_Z 0) (Invoice.consumption prev_invoice)
            then Some (classify (percent_change (Invoice.consumption invoice)
                                   (Invoice.consumption prev_invoice)))
            else None
        | None => None
        end
      else None
    else None in
  mkMessage (Invoice.month_name invoice) (Invoice.previous_reading invoice)
    (Invoice.current_reading invoice) (Invoice.consumption invoice)
    consumption_total (Invoice.total_amount invoice)
    (Invoice.timestamp invoice) trend.

(** What [handle_reading] answers once [float(text)] has read the text as a
    number (which may be an infinity or NaN). *)
Inductive Reply : Type :=
| InvoiceReply (message : Message) (invoice_id : string)
| ReadingBelowPrevious (e : exn)
| UnexpectedError
| ServerError.

Definition handle_reading (user_id : string) (current_reading : PyFloat.t)
  (now : Clock) : M Reply :=
  try_except
    (invoice <- calculate_invoice user_id current_reading now ;;
     invoice_id <- save_invoice invoice now ;;
     d <- get_data ;;
     ret (InvoiceReply (format_invoice_message d invoice true) invoice_id))
    (fun e =>
       match e with
       | ValueError _ _ => ret (ReadingBelowPrevious e)
       | JSONDecodeError | UnicodeDecodeError => ret UnexpectedError
       | _ => logger ERROR (ReadingError e) ;; ret ServerError
       end).

End WaterBillBot.

(** ** Vocabulary of the properties *)

(** Replacing the backup directory, the log. *)
Definition with_backup_dir (dir : option (PyDict.dict File)) (w : World) : World :=
  mkWorld (data w)
          (mkDisk (data_file (disk w)) (data_readable (disk w))
                  (data_writable (disk w)) dir (backup_writable (disk w)))
          (log w).
Definition with_log (l : list (level * event)) (w : World) : World :=
  mkWorld (data w) (disk w) l.
Definition with_data (d : Document.t) (w : World) : World :=
  mkWorld d (disk w) (log w).
Definition with_data_file (f : File) (w : World) : World :=
  mkWorld (data w)
          (mkDisk (Some f) (data_readable (disk w)) (data_writable (disk w))
                  (backup_dir (disk w)) (backup_writable (disk w)))
          (log w).

(** [m] leaves the part [proj] of the world as it finds it. *)
Definition keeps (X A : Type) (proj : World -> X) (m : M A) : Prop :=
  forall w, proj (snd (m w)) = proj w.

(** The modification time of a file of the backup directory. *)
Definition mtime_in (dir : PyDict.dict File) (name : string) : Z :=
  match PyDict.get name dir with Some f => mtime f | None => 0%Z end.

(** The backups of a directory with their modification times, oldest
    first, and those among them that a sweep keeping [keep_last] removes. *)
Definition oldest_first (dir : PyDict.dict File) : list (string * Z) :=
  sort_asc snd Z.ltb
    (map (fun name => (name, mtime_in dir name))
         (filter is_backup_name (PyDict.keys dir))).

Definition doomed (keep_last : Z) (dir : PyDict.dict File) : list string :=
  if (keep_last <? Z.of_nat (List.length (filter is_backup_name (PyDict.keys dir))))%Z
  then slice_to (- keep_last) (map fst (oldest_first dir))
  else [].

Definition remove_all (names : list string) (dir : PyDict.dict File)
  : PyDict.dict File :=
  fold_left (fun d name => PyDict.remove name d) names dir.

(** The automatic backups the log reports as created. *)
Definition reports_auto_backup (r : level * event) : bool :=
  match snd r with
  | BackupCreated name => PyStr.startswith name "water_bill_backup_auto_"
  | _ => false
  end.

Definition auto_backups_created (l : list (level * event)) : nat :=
  List.length (filter reports_auto_backup l).

(** What the backup machinery cannot reach: the document in memory, the
    data file and the permissions. *)
Definition outside_backups (w : World)
  : Document.t * option File * bool * bool * bool :=
  (data w, data_file (disk w), data_readable (disk w), data_writable (disk w),
   backup_writable (disk w)).

(** [m] raises nothing. *)
Definition never_raises (A : Type) (m : M A) : Prop :=
  forall w, exists a, fst (m w) = inr a.

(** The document after [save_invoice invoice], whatever became of the write
    to the file. *)
Definition recorded (invoice : Invoice.t) (now : Clock) (d : Document.t)
  : Document.t :=
  let user_id := Invoice.user_id invoice in
  let u := match PyDict.get user_id (Document.users d) with
           | Some u => u
           | None => new_user now
           end in
  Document.mk (Document.version d) (Document.created_at d)
    (PyDict.set user_id
       (User.mk (User.first_name u) (User.username u) (User.reminder_enabled u)
                (User.notification_time u) (User.created_at u)
                (User.last_active u)
                (Some (Invoice.current_reading invoice))
                (Some (Invoice.year_month invoice)))
       (Document.users d))
    (Some (PyDict.set
             (invoice_id_of user_id (Invoice.year_month invoice)) invoice
             (Document.invoices_or_empty d)))
    (Document.settings d).

(** A run of saves, each of the document of its moment; a save that
    raises leaves the next one to its caller. *)
Fixpoint saves {J : Json} (steps : list (Clock * Document.t)) (w : World)
  : World :=
  match steps with
  | [] => w
  | (now, d) :: rest => saves rest (snd (save_data now (with_data d w)))
  end.

(** Every invoice is stored under the key made of its subscriber and its
    period, and no key occurs twice: the state [save_invoice] keeps. *)
Definition invoices_keyed (d : Document.t) : Prop :=
  PyDict.ok (Document.invoices_or_empty d) /\
  Forall (fun kv => fst kv = invoice_id_of (Invoice.user_id (snd kv))
                                           (Invoice.year_month (snd kv)))
         (Document.invoices_or_empty d).

(** ** Worlds of the closed examples *)

Module Sample.

(** A stand-in for [json] in closed examples: a document is written as the
    text of its creation stamp and no file reads as JSON (the file used
    below is empty, which [json.load] rejects as well). *)
Definition toy_json : Json :=
  {| json_dump := Document.created_at; json_load := fun _ => NotJSON |}.

Definition march : Clock := mkClock 2024 3 5 9 30 0 0 1709631000.
Definition march_later : Clock := mkClock 2024 3 5 18 0 0 0 1709661600.

(** The float of an integer. *)
Definition fl (z : Z) : PyFloat.t := PyFloat.of_Z z.

Definition february_invoice : Invoice.t :=
  Invoice.mk "42" "2024-02" (fl 60) (fl 100) (fl 40) (fl 28250)
             "2024-02-03 10:00:00" "فبراير 2024".

Definition january_invoice : Invoice.t :=
  Invoice.mk "42" "2024-01" (fl 0) (fl 60) (fl 60) (fl 42250)
             "2024-01-04 08:15:00" "يناير 2024".

(** Two invoices of subscriber 42 for March 2024: a reading, then its
    correction. *)
Definition march_invoice : Invoice.t :=
  Invoice.mk "42" "2024-03" (fl 100) (fl 145) (fl 45) (fl 31750)
             "2024-03-05 09:30:00" "مارس 2024".

Definition march_invoice_again : Invoice.t :=
  Invoice.mk "42" "2024-03" (fl 100) (fl 150) (fl 50) (fl 35250)
             "2024-03-05 18:00:00" "مارس 2024".

Definition settings : Settings.t :=
  Settings.mk UNIT_PRICE MONTHLY_FEE CURRENCY REMINDER_DAY REMINDER_HOUR.

(** A record written before the reminder flag existed, and one that
    turned reminders off. *)
Definition early_subscriber : User.t :=
  User.mk (Some "Bilal") None None None None None None None.

Definition silent_subscriber : User.t :=
  User.mk (Some "Dana") (Some "") (Some false) (Some "10:00") None None None None.

Definition subscriber : User.t :=
  User.mk (Some "Aisha") (Some "") (Some true) (Some "10:00")
          (Some "2024-01-04T08:14:00") (Some "2024-02-03T10:00:00")
          (Some (fl 100)) (Some "2024-02").

Definition ledger : Document.t :=
  Document.mk "2.0" "2024-01-01T00:00:00"
    [("42", subscriber); ("7", early_subscriber); ("9", silent_subscriber)]
    (Some [("42_2024-01", january_invoice); ("42_2024-02", february_invoice)])
    settings.

(** The data file exists but may not be opened; the data file may not be
    written. *)
Definition unreadable_disk : Disk :=
  mkDisk (Some (mkFile "{ ... }" 1709000000)) false true (Some []) true.

Definition read_only_disk : Disk :=
  mkDisk (Some (mkFile "{}" 1709000000)) true false (Some []) true.

(** The data file is empty, which is not JSON. *)
Definition truncated_disk : Disk :=
  mkDisk (Some (mkFile "" 1709000000)) true true (Some []) true.

(** Twelve backups, the older the earlier written, listed in no order, and
    one quarantine copy that is older than all of them. *)
Definition crowded_dir : PyDict.dict File :=
  [ ("water_bill_backup_auto_20240224_000500.json", mkFile "d" 1708733100);
    ("water_bill_backup_auto_20240221_000500.json", mkFile "a" 1708473900);
    ("corrupted_data_20240101_101500.json", mkFile "{" 1704104100);
    ("water_bill_backup_auto_20240222_000500.json", mkFile "b" 1708560300);
    ("water_bill_backup_manual_20240222_120000.json", mkFile "b" 1708603200);
    ("water_bill_backup_auto_20240223_000500.json", mkFile "c" 1708646700);
    ("water_bill_backup_auto_20240225_000500.json", mkFile "e" 1708819500);
    ("water_bill_backup_auto_20240226_000500.json", mkFile "f" 1708905900);
    ("water_bill_backup_auto_20240227_000500.json", mkFile "g" 1708992300);
    ("water_bill_backup_auto_20240228_000500.json", mkFile "h" 1709078700);
    ("water_bill_backup_auto_20240229_000500.json", mkFile "i" 1709165100);
    ("water_bill_backup_auto_20240301_000500.json", mkFile "j" 1709251500);
    ("water_bill_backup_auto_20240302_000500.json", mkFile "k" 1709337900) ].

Definition crowded_disk : Disk :=
  mkDisk (Some (mkFile "{}" 1709000000)) true true (Some crowded_dir) true.

Definition healthy_disk : Disk :=
  mkDisk (Some (mkFile "{}" 1709000000)) true true (Some []) true.

Definition world : World := mkWorld ledger healthy_disk [].
Definition crowded_world : World := mkWorld ledger crowded_disk [].
Definition unreadable_world : World := mkWorld ledger unreadable_disk [].
Definition read_only_world : World := mkWorld ledger read_only_disk [].
Definition truncated_world : World := mkWorld ledger truncated_disk [].


(** A busy 5 March 2024: a save in the morning, ten manual backups from
    10:00:00 to 10:00:09, a save in the evening. *)
Definition manual_backup_times : list Clock :=
  map (fun s => mkClock 2024 3 5 10 0 s 0 (1709632800 + Z.of_nat s))
      (seq 0 10).

Definition busy_day : World :=
  snd (save_data (J := toy_json) march_later
         (fold_left (fun w now => snd (create_backup (J := toy_json) "manual" now w))
                    manual_backup_times
                    (snd (save_data (J := toy_json) march world)))).

End Sample.

(** * Statistics, settings, keyboards, reminders *)

(** ** DataManager: statistics *)

Module Stats.
Record t : Type := mk {
  total_invoices : nat;
  total_consumption : PyFloat.t;
  total_amount : PyFloat.t;
  avg_consumption : PyFloat.t;
  first_invoice : option string;
  last_invoice : option string }.
End Stats.

(** [sum(l)] over floats as CPython computes it up to version 3.11: a
    running total from 0, left to right, each addition rounded. From 3.12
    on the interpreter sums floats with a compensated algorithm, so the
    statistics below take the built-in as a parameter, [py_sum]. *)
Definition sum_left (l : list PyFloat.t) : PyFloat.t :=
  fold_left PyFloat.add l (PyFloat.of_Z 0).

(** [min(x :: l, key=key)] and [max(x :: l, key=key)]: the first of the
    smallest, the first of the largest. *)
Section MinMax.
Variables (A K : Type) (key : A -> K) (lt : K -> K -> bool).

Fixpoint min_from (best : A) (l : list A) : A :=
  match l with
  | [] => best
  | x :: l' => min_from (if lt (key x) (key best) then x else best) l'
  end.

Fixpoint max_from (best : A) (l : list A) : A :=
  match l with
  | [] => best
  | x :: l' => max_from (if lt (key best) (key x) then x else best) l'
  end.
End MinMax.

Section Statistics.
Variable py_sum : list PyFloat.t -> PyFloat.t.

Definition get_user_stats (d : Document.t) (user_id : string) : Stats.t :=
  let invoices := get_user_invoices d user_id 100 in
  match invoices with
  | [] => Stats.mk 0 (PyFloat.of_Z 0) (PyFloat.of_Z 0) (PyFloat.of_Z 0)
                   None None
  | first :: others =>
      let total_consumption := py_sum (map Invoice.consumption invoices) in
      let total_amount := py_sum (map Invoice.total_amount invoices) in
      Stats.mk (List.length invoices) total_consumption total_amount
        (PyFloat.div total_consumption
                     (PyFloat.of_Z (Z.of_nat (List.length invoices))))
        (Some (Invoice.year_month
                 (min_from Invoice.year_month PyStr.lt first others)))
        (Some (Invoice.year_month
                 (max_from Invoice.year_month PyStr.lt first others)))
  end.
End Statistics.

(** [stats['avg_consumption'] * UNIT_PRICE + MONTHLY_FEE], the expected
    monthly cost of [stats_command]. *)
Definition expected_monthly_cost (s : Stats.t) : PyFloat.t :=
  PyFloat.add (PyFloat.mul (Stats.avg_consumption s) (PyFloat.of_Z UNIT_PRICE))
              (PyFloat.of_Z MONTHLY_FEE).

(** ** WaterBillBot: the reminder switch *)

Section Settings.
Context {J : Json}.

Definition reminder_fields (status : bool) : User.t :=
  User.mk None None (Some status) None None None None None.

(** [toggle_reminder], up to its answer: the new status. *)
Definition toggle_reminder (user_id : string) (now : Clock) : M bool :=
  user_data <- get_user user_id now ;;
  let current_status := reminder_flag user_data in
  let new_status := negb current_status in
  update_user user_id (reminder_fields new_status) now ;;
  ret new_status.

End Settings.

(** ** WaterBillBot: keyboards and the routing of their buttons *)

Record Button : Type := mkButton { text : string; callback_data : string }.

(** [s.replace(old, new)] for a non-empty [old]: the occurrences are taken
    from the left and do not overlap; [skip] counts the characters of an
    occurrence still to pass over. *)
Fixpoint replace_from (old new : string) (skip : nat) (s : string) : string :=
  match s with
  | EmptyString => EmptyString
  | String c s' =>
      match skip with
      | S k => replace_from old new k s'
      | O =>
          if String.prefix old s
          then new ++ replace_from old new (String.length old - 1) s'
          else String c (replace_from old new 0 s')
      end
  end.

Definition str_replace (s old new : string) : string := replace_from old new 0 s.

Section Keyboards.
(** The text of a history button, [f"📅 {month_display} - {total_amount:,}
    {CURRENCY}"], is left to its formatting. *)
Variable history_label : Invoice.t -> string.

Definition create_history_keyboard (d : Document.t) (user_id : string)
  : list (list Button) :=
  let invoices := get_user_invoices d user_id 6 in
  let keyboard :=
    map (fun invoice =>
           [mkButton (history_label invoice)
                     ("invoice_detail_" ++ Invoice.year_month invoice)])
        invoices in
  let keyboard :=
    if (6 <? List.length invoices)%nat
    then (keyboard ++ [[mkButton "📋 المزيد من الفواتير" "more_invoices"]])%list
    else keyboard in
  (keyboard ++ [[mkButton "📤 تصدير البيانات" "export_data";
                 mkButton "🔙 الرئيسية" "back_to_main"]])%list.
End Keyboards.

(** The keyboard under the invoice [handle_reading] replies with. *)
Definition invoice_keyboard (invoice_id : string) : list (list Button) :=
  [ [mkButton "💾 حفظ الفاتورة" ("save_invoice_" ++ invoice_id)];
    [mkButton "📤 مشاركة الفاتورة" ("share_invoice_" ++ invoice_id)];
    [mkButton "📝 قراءة جديدة" "new_reading";
     mkButton "📊 الفواتير" "view_history"] ].

(** What [show_user_history] writes when there is an invoice: the
    statistics, the lines of the latest invoices, the number of further
    invoices it announces, the keyboard. *)
Record History : Type := mkHistory {
  history_stats : Stats.t;
  history_lines : list Invoice.t;
  history_more : option nat;
  history_keyboard : list (list Button) }.

Section HistoryMessage.
Variable history_label : Invoice.t -> string.
Variable py_sum : list PyFloat.t -> PyFloat.t.

(** [None] is the message of an empty history. *)
Definition show_user_history (d : Document.t) (user_id : string)
  : option History :=
  let invoices := get_user_invoices d user_id 12 in
  match invoices with
  | [] => None
  | _ :: _ =>
      let stats := get_user_stats py_sum d user_id in
      Some (mkHistory stats (slice_to 5 invoices)
              (if (5 <? List.length invoices)%nat
               then Some (List.length invoices - 5)%nat
               else None)
              (create_history_keyboard history_label d user_id))
  end.
End HistoryMessage.

(** Where [button_handler] sends a callback. *)
Inductive Route : Type :=
| NewReadingPrompt
| ShowUserHistory
| StatsCommand
| ShowReminderSettings
| HandleBackupRequest
| HelpCommand
| MainMenu
| ToggleReminder
| ShowInvoiceDetail (year_month : string)
| SaveInvoiceAction (invoice_id : string)
| ShowAllInvoices
| ExportUserData
| ExportStatsAction
| ShowUserProfile
| ShowEmergencyContacts
| NoRoute.

Definition button_handler (data : string) : Route :=
  if String.eqb data "new_reading" then NewReadingPrompt
  else if String.eqb data "view_history" then ShowUserHistory
  else if String.eqb data "my_stats" then StatsCommand
  else if String.eqb data "reminder_settings" then ShowReminderSettings
  else if String.eqb data "backup_data" then HandleBackupRequest
  else if String.eqb data "help" then HelpCommand
  else if String.eqb data "back_to_main" then MainMenu
  else if String.eqb data "toggle_reminder" then ToggleReminder
  else if PyStr.startswith data "invoice_detail_"
       then ShowInvoiceDetail (str_replace data "invoice_detail_" "")
  else if PyStr.startswith data "save_invoice_"
       then SaveInvoiceAction (str_replace data "save_invoice_" "")
  else if String.eqb data "more_invoices" then ShowAllInvoices
  else if String.eqb data "export_data" then ExportUserData
  else if String.eqb data "export_stats" then ExportStatsAction
  else if String.eqb data "my_profile" then ShowUserProfile
  else if String.eqb data "emergency_contacts" then ShowEmergencyContacts
  else NoRoute.

(** [show_invoice_detail]: the invoice it shows, if any. *)
Definition show_invoice_detail (d : Document.t) (user_id year_month : string)
  : option Message :=
  match get_invoice_by_month d user_id year_month with
  | Some invoice => Some (format_invoice_message d invoice false)
  | None => None
  end.

(** ** WaterBillBot: reminders *)

(** What a reminder says. *)
Inductive notice : Type :=
| MonthlyReminder (first_name month_name : string) (year : nat)
| AdminReminder (first_name month_name : string) (year : nat)
| StartupNotice.

(** What the handler of a turn of [force_reminders_command] has caught:
    the error of [send_message], or the [NameError] of [asyncio.sleep]
    ([asyncio] is imported nowhere in the module). *)
Inductive caught : Type :=
| SendError
| NameError_asyncio.

(** The calls to [logger] of the reminder jobs. *)
Inductive reminder_event : Type :=
| ReminderSent (user_id : string)
| ReminderFailed (user_id : string)
| RemindersSummary (sent failed : nat)
| AdminReminderFailed (user_id : string) (e : caught)
| StartupFailed (user_id : string)
| StartupSummary (count : nat).

(** The run of a job: the calls to [bot.send_message] with their outcome,
    the two counters, the log. *)
Record FanOut : Type := mkFanOut {
  calls : list (string * notice * bool);
  success_count : nat;
  failed_count : nat;
  reminder_log : list (level * reminder_event) }.

Inductive job : Type :=
| NotReady
| DateOverflow
| Finished (run : FanOut).

(** Year and month of [today.replace(day=1) - timedelta(days=1)]; there is
    no day before year 1 ([OverflowError]). *)
Definition last_month_date (today : Clock) : option (nat * nat) :=
  if (month today =? 1)%nat
  then if (year today <=? 1)%nat then None else Some (year today - 1, 12)%nat
  else Some (year today, month today - 1)%nat.

(** [user_data.get('first_name', '')] *)
Definition first_name_of (u : User.t) : string :=
  match User.first_name u with Some s => s | None => "" end.

Section Reminders.
(** Whether [bot.send_message] to the chat of a subscriber returns; whether
    [int(user_id)] does. *)
Variable delivers : string -> bool.
Variable is_int : string -> bool.

(** One turn of the loops, the body of their [try]: the call to
    [send_message], then the counter and the line of the log that go with
    its outcome ([log_success] tells whether a delivery is logged). *)
Definition send_to (msg : notice) (ok failed : string -> level * reminder_event)
  (run : FanOut) (user_id : string) (log_success : bool) : FanOut :=
  if delivers user_id
  then mkFanOut (calls run ++ [(user_id, msg, true)])%list
                (S (success_count run)) (failed_count run)
                (if log_success then (reminder_log run ++ [ok user_id])%list
                 else reminder_log run)
  else mkFanOut (calls run ++ [(user_id, msg, false)])%list
                (success_count run) (S (failed_count run))
                (reminder_log run ++ [failed user_id])%list.

Definition send_monthly_reminders (has_app : bool) (d : Document.t)
  (today : Clock) : job :=
  if negb has_app then NotReady
  else
    match last_month_date today with
    | None => DateOverflow
    | Some (reminder_year, last_month) =>
        let arabic_month := get_arabic_month last_month in
        let users := get_all_users_for_reminder d in
        let run :=
          fold_left
            (fun run kv =>
               send_to (MonthlyReminder (first_name_of (snd kv)) arabic_month
                                        reminder_year)
                       (fun u => (INFO, ReminderSent u))
                       (fun u => (ERROR, ReminderFailed u))
                       run (fst kv) true)
            users (mkFanOut [] 0 0 []) in
        Finished
          (mkFanOut (calls run) (success_count run) (failed_count run)
             (reminder_log run
              ++ [(INFO, RemindersSummary (success_count run)
                                          (failed_count run))])%list)
    end.

Definition send_startup_notification (d : Document.t) : FanOut :=
  let users := get_all_users_for_reminder d in
  let run :=
    fold_left
      (fun run kv =>
         send_to StartupNotice
                 (fun u => (INFO, ReminderSent u))
                 (fun u => (ERROR, StartupFailed u))
                 run (fst kv) false)
      users (mkFanOut [] 0 0 []) in
  mkFanOut (calls run) (success_count run) (failed_count run)
    (reminder_log run ++ [(INFO, StartupSummary (success_count run))])%list.

(** One turn of the loop of [force_reminders_command], the body of its
    [try]. After a delivery [success_count] is raised and
    [asyncio.sleep(0.1)] is evaluated: the name [asyncio] is not bound in
    the module, so this raises [NameError] inside the [try], and the handler
    counts and logs a failure for the subscriber just written to, as it does
    when [send_message] itself raises. *)
Definition force_to (msg : notice) (run : FanOut) (user_id : string) : FanOut :=
  if delivers user_id
  then mkFanOut (calls run ++ [(user_id, msg, true)])%list
                (S (success_count run)) (S (failed_count run))
                (reminder_log run
                 ++ [(ERROR, AdminReminderFailed user_id NameError_asyncio)])%list
  else mkFanOut (calls run ++ [(user_id, msg, false)])%list
                (success_count run) (S (failed_count run))
                (reminder_log run
                 ++ [(ERROR, AdminReminderFailed user_id SendError)])%list.

(** [force_reminders_command], up to its replies: [None] is the reply of
    the outer handler, otherwise the counters go into the final reply. A
    command is handled once the application runs, so [self.app] is there. *)
Definition force_reminders_command (d : Document.t) (today : Clock)
  : option FanOut :=
  let users := PyDict.items (Document.users d) in
  match last_month_date today with
  | None => None
  | Some (reminder_year, last_month) =>
      let arabic_month := get_arabic_month last_month in
      Some
        (fold_left
           (fun run kv =>
              if is_int (fst kv)
              then force_to (AdminReminder (first_name_of (snd kv)) arabic_month
                                           reminder_year)
                            run (fst kv)
              else run)
           users (mkFanOut [] 0 0 []))
  end.

End Reminders.

(** ** Vocabulary of the further properties *)

(** The document after [update_user user_id fields], whatever became of
    the write to the file. *)
Definition updated (user_id : string) (fields : User.t) (now : Clock)
  (d : Document.t) : Document.t :=
  let u := match PyDict.get user_id (Document.users d) with
           | Some u => u
           | None => new_user now
           end in
  Document.with_users
    (PyDict.set user_id
       (User.update (User.update u fields)
          (User.mk None None None None None (Some (isoformat now)) None None))
       (Document.users d))
    d.

(** An invoice as [calculate_invoice] makes them: the current reading is
    not below the previous one, and consumption and total are the floats
    its three operations give. *)
Definition billed (invoice : Invoice.t) : Prop :=
  PyFloat.ltb (Invoice.current_reading invoice)
              (Invoice.previous_reading invoice) = false /\
  Invoice.consumption invoice
  = PyFloat.sub (Invoice.current_reading invoice)
                (Invoice.previous_reading invoice) /\
  Invoice.total_amount invoice
  = PyFloat.add (PyFloat.mul (Invoice.consumption invoice) (PyFloat.of_Z 700))
                (PyFloat.of_Z 250).

Definition ledger_billed (d : Document.t) : Prop :=
  Forall billed (PyDict.values (Document.invoices_or_empty d)).

(** No stored period of the subscriber is later than the month of [now]. *)
Definition no_later_period (d : Document.t) (user_id : string) (now : Clock)
  : Prop :=
  forall other,
    In other (PyDict.values (Document.invoices_or_empty d)) ->
    Invoice.user_id other = user_id ->
    String.ltb (strftime_Y_m now) (Invoice.year_month other) = false.

(** Whether [save_data] can go through: the backup directory can be
    listed and the data file written. *)
Definition can_save (w : World) : bool :=
  match backup_dir (disk w) with
  | Some _ => data_writable (disk w)
  | None => false
  end.

(** The record of a subscriber as [get_user] would return it, and the
    reminder status of it. *)
Definition user_or_new (user_id : string) (now : Clock) (d : Document.t)
  : User.t :=
  match PyDict.get user_id (Document.users d) with
  | Some u => u
  | None => new_user now
  end.

Definition reminder_status (user_id : string) (d : Document.t) : bool :=
  match PyDict.get user_id (Document.users d) with
  | Some u => reminder_flag u
  | None => true
  end.

(** The invoice [calculate_invoice] makes of a reading that is not below
    the previous one. *)
Definition invoice_of (d : Document.t) (user_id : string)
  (current_reading : PyFloat.t) (now : Clock) : Invoice.t :=
  let previous_reading := or_zero (get_last_reading d user_id) in
  Invoice.mk user_id (strftime_Y_m now) previous_reading current_reading
    (PyFloat.sub current_reading previous_reading)
    (PyFloat.add
       (PyFloat.mul (PyFloat.sub current_reading previous_reading)
                    (PyFloat.of_Z UNIT_PRICE))
       (PyFloat.of_Z MONTHLY_FEE))
    (strftime_full now)
    (get_arabic_month (month now) ++ " " ++ PyStr.of_nat (year now)).

(** The subscribers a reminder job writes to. *)
Definition recipients (run : FanOut) : list string :=
  map (fun call => fst (fst call)) (calls run).

(** The calls that returned. *)
Definition delivered (run : FanOut) : list (string * notice * bool) :=
  filter (fun call => snd call) (calls run).

(** ** Further worlds of the closed examples *)

Module Sample2.

(** A stand-in for [json] that knows one document, the ledger of the
    examples. *)
Definition ledger_json : Json :=
  {| json_dump := fun _ => "ledger"; json_load := fun _ => Parsed Sample.ledger |}.

(** Delivery fails for subscriber 7 only; the identifiers made of digits. *)
Definition delivers (user_id : string) : bool := negb (String.eqb user_id "7").

Definition is_int (user_id : string) : bool :=
  negb (String.eqb user_id "") &&
  forallb (fun c => (48 <=? nat_of_ascii c)%nat && (nat_of_ascii c <=? 57)%nat)
          (list_ascii_of_string user_id).

Definition label (invoice : Invoice.t) : string := Invoice.month_name invoice.

Definition april : Clock := mkClock 2024 4 2 8 0 0 0 1712044800.

(** A clock that shows January 2024 although the ledger already holds the
    invoice of February. *)
Definition january : Clock := mkClock 2024 1 20 9 0 0 0 1705741200.

(** The float nearest to 1.1, and the one [1.1 * 700 + 250] gives, which
    prints as 1020.0000000000001. *)
Definition reading_1_1 : PyFloat.t := S754_finite false 4953959590107546 (-52).
Definition total_1_1 : PyFloat.t := S754_finite false 8972014882652161 (-43).

End Sample2.

(** * Properties *)

Unset Implicit Arguments.

(** ** Numbers *)

(** The comparison of floats. *)
Lemma SFcompare_antisym (x y : spec_float) :
  SFcompare y x = option_map CompOpp (SFcompare x y).
Proof.
  destruct x as [sx|sx| |sx mx ex], y as [sy|sy| |sy my ey]; simpl;
    try reflexivity;
    try (destruct sx; reflexivity);
    try (destruct sy; reflexivity);
    try (destruct sx, sy; reflexivity).
  destruct sx, sy; simpl; try reflexivity;
    rewrite (Z.compare_antisym ex ey); destruct (ex ?= ey)%Z; simpl;
    try reflexivity.
  - f_equal. rewrite CompOpp_involutive.
    exact (Pos.compare_cont_antisym my mx Eq).
  - f_equal. symmetry. exact (Pos.compare_cont_antisym mx my Eq).
Qed.

Lemma SFcompare_refl (x : spec_float) :
  x <> S754_nan -> SFcompare x x = Some Eq.
Proof.
  destruct x as [s|s| |s m e]; simpl; intro N;
    try (destruct s; reflexivity); [congruence|].
  rewrite Z.compare_refl.
  assert (R : PosDef.Pos.compare_cont Eq m m = Eq)
    by exact (Pos.compare_cont_refl m Eq).
  rewrite R. now destruct s.
Qed.

(** [a >= b] excludes [a < b]. *)
Lemma leb_not_ltb (a b : PyFloat.t) :
  PyFloat.leb b a = true -> PyFloat.ltb a b = false.
Proof.
  unfold PyFloat.leb, PyFloat.ltb, SFleb, SFltb.
  rewrite (SFcompare_antisym b a).
  destruct (SFcompare b a) as [[]|]; simpl; congruence.
Qed.

Lemma ltb_not_nan (a b : PyFloat.t) : PyFloat.ltb a b = true -> b <> S754_nan.
Proof.
  intros H ->. unfold PyFloat.ltb, SFltb in H. now destruct a.
Qed.

Lemma eqb_zero_inv (r : PyFloat.t) :
  PyFloat.eqb r (PyFloat.of_Z 0) = true -> exists s, r = S754_zero s.
Proof.
  destruct r as [s|s| |s m e]; unfold PyFloat.eqb, SFeqb; simpl; intro H;
    try (destruct s; discriminate); try discriminate.
  now exists s.
Qed.

(** [last_reading or 0] compares like [last_reading]: the two differ only
    when the reading is a zero, and then by the sign of the zero. *)
Lemma or_zero_below (lower r : PyFloat.t) :
  PyFloat.ltb lower (or_zero (Some r)) = PyFloat.ltb lower r.
Proof.
  unfold or_zero, PyFloat.truthy.
  destruct (PyFloat.eqb r (PyFloat.of_Z 0)) eqn:E; simpl; [|reflexivity].
  destruct (eqb_zero_inv r E) as [s ->].
  now destruct lower.
Qed.

Lemma or_zero_eqb (r : PyFloat.t) :
  r <> S754_nan -> PyFloat.eqb (or_zero (Some r)) r = true.
Proof.
  intro N. unfold or_zero, PyFloat.truthy.
  destruct (PyFloat.eqb r (PyFloat.of_Z 0)) eqn:E; simpl.
  - destruct (eqb_zero_inv r E) as [s ->]. reflexivity.
  - unfold PyFloat.eqb, SFeqb. now rewrite (SFcompare_refl r N).
Qed.

(** ** Dictionaries *)

Module PyDictFacts.
Import PyDict.

Section Facts.
Variable V : Type.
Implicit Types (d : dict V) (k : string) (v : V).

Lemma get_set_same k v d : get k (set k v d) = Some v.
Proof.
  induction d as [|[k' v'] d IH]; simpl.
  - now rewrite String.eqb_refl.
  - destruct (String.eqb k k') eqn:E; simpl; rewrite ?String.eqb_refl, ?E; auto.
Qed.

Lemma get_set_other k k' v d : k <> k' -> get k' (set k v d) = get k' d.
Proof.
  intro N. induction d as [|[k0 v0] d IH]; simpl.
  - destruct (String.eqb k' k) eqn:E; [apply String.eqb_eq in E; congruence | auto].
  - destruct (String.eqb k k0) eqn:E; simpl.
    + apply String.eqb_eq in E. subst k0.
      destruct (String.eqb k' k) eqn:E'; [apply String.eqb_eq in E'; congruence | auto].
    + now rewrite IH.
Qed.

Lemma set_set k v v' d : set k v' (set k v d) = set k v' d.
Proof.
  induction d as [|[k0 v0] d IH]; simpl.
  - now rewrite String.eqb_refl.
  - destruct (String.eqb k k0) eqn:E; simpl; rewrite ?String.eqb_refl, ?E, ?IH; auto.
Qed.

Lemma get_In k v d : get k d = Some v -> In (k, v) d.
Proof.
  induction d as [|[k' v'] d IH]; simpl; [discriminate|].
  destruct (String.eqb k k') eqn:E.
  - apply String.eqb_eq in E. intros [= ->]. left. now subst.
  - auto.
Qed.

Lemma get_None k d : get k d = None <-> ~ In k (keys d).
Proof.
  induction d as [|[k' v'] d IH]; simpl; [tauto|].
  destruct (String.eqb k k') eqn:E.
  - apply String.eqb_eq in E. subst. split; [discriminate | intro H; exfalso; auto].
  - apply String.eqb_neq in E. rewrite IH. split; intro H; [intros [?|?]; congruence | tauto].
Qed.

Lemma In_get k v d : ok d -> In (k, v) d -> get k d = Some v.
Proof.
  unfold ok. induction d as [|[k' v'] d IH]; simpl; [tauto|].
  intros ND [H|H].
  - injection H as -> ->. now rewrite String.eqb_refl.
  - inversion ND as [|? ? NI ND']; subst.
    destruct (String.eqb k k') eqn:E; [|auto].
    apply String.eqb_eq in E. subst k'. exfalso. apply NI.
    change k with (fst (k, v)). now apply in_map.
Qed.

Lemma mem_true k d : mem k d = true <-> In k (keys d).
Proof.
  unfold mem. destruct (get k d) eqn:E.
  - split; [intros _|auto]. apply get_In in E. change k with (fst (k, v)).
    now apply in_map.
  - apply get_None in E. split; [discriminate | tauto].
Qed.

Lemma keys_set k v d :
  keys (set k v d) = if mem k d then keys d else (keys d ++ [k])%list.
Proof.
  unfold mem. induction d as [|[k' v'] d IH]; simpl; [reflexivity|].
  destruct (String.eqb k k') eqn:E; simpl.
  - apply String.eqb_eq in E. now subst.
  - rewrite IH. now destruct (get k d).
Qed.

Lemma In_keys_set k v d : In k (keys (set k v d)).
Proof.
  rewrite keys_set. destruct (mem k d) eqn:E.
  - now apply mem_true.
  - apply in_or_app. right. now left.
Qed.

Lemma ok_set k v d : ok d -> ok (set k v d).
Proof.
  unfold ok. rewrite keys_set. destruct (mem k d) eqn:E; [auto|].
  intro ND. apply NoDup_rev in ND. rewrite <- (rev_involutive (keys d ++ [k])).
  apply NoDup_rev. rewrite rev_app_distr. simpl. constructor; [|assumption].
  rewrite <- in_rev. intro I. apply mem_true in I. congruence.
Qed.

Lemma ok_empty : ok (empty V).
Proof. constructor. Qed.

Lemma count_key_set k v d :
  ok d -> count_occ string_dec (keys (set k v d)) k = 1%nat.
Proof.
  intro O. apply NoDup_count_occ'; [now apply ok_set | apply In_keys_set].
Qed.

Lemma In_set k v d k' v' :
  In (k', v') (set k v d) -> (k' = k /\ v' = v) \/ In (k', v') d.
Proof.
  induction d as [|[k0 v0] d IH]; simpl.
  - intros [[= <- <-]|[]]. now left.
  - destruct (String.eqb k k0) eqn:E; simpl.
    + intros [[= <- <-]|H]; [now left | now right; right].
    + intros [H|H]; [now right; left|]. destruct (IH H); [now left | now right; right].
Qed.

End Facts.
End PyDictFacts.

(** ** The stable sort *)

Section StableSortFacts.
Variables (A K : Type) (key : A -> K) (lt : K -> K -> bool).
Hypothesis lt_asym : forall a b, lt a b = true -> lt b a = false.
Hypothesis lt_negtrans :
  forall a b c, lt b a = false -> lt c b = false -> lt c a = false.

Lemma insert_by_perm (x : A) (l : list A) :
  Permutation (insert_by key lt x l) (x :: l).
Proof.
  induction l as [|y l IH]; simpl; [reflexivity|].
  destruct (lt (key y) (key x)); [|reflexivity].
  rewrite IH. apply perm_swap.
Qed.

Lemma sort_by_perm (l : list A) : Permutation (sort_by key lt l) l.
Proof.
  induction l as [|x l IH]; simpl; [reflexivity|].
  rewrite insert_by_perm. now constructor.
Qed.

Lemma insert_by_sorted (x : A) (l : list A) :
  StronglySorted (key_le key lt) l -> StronglySorted (key_le key lt) (insert_by key lt x l).
Proof.
  induction 1 as [|y l S IH F]; simpl.
  - repeat constructor.
  - destruct (lt (key y) (key x)) eqn:E.
    + constructor; [assumption|].
      eapply Permutation_Forall; [symmetry; apply insert_by_perm|].
      constructor; [|assumption]. unfold key_le. now apply lt_asym.
    + constructor; [now constructor|].
      constructor; [exact E|].
      eapply Forall_impl; [|exact F]. intros z Hz. unfold key_le in *.
      eapply lt_negtrans; eassumption.
Qed.

Lemma sort_by_sorted (l : list A) : StronglySorted (key_le key lt) (sort_by key lt l).
Proof.
  induction l as [|x l IH]; simpl; [constructor | now apply insert_by_sorted].
Qed.

Lemma sort_by_length (l : list A) : List.length (sort_by key lt l) = List.length l.
Proof. apply Permutation_length, sort_by_perm. Qed.

Lemma sort_by_In (x : A) (l : list A) : In x (sort_by key lt l) <-> In x l.
Proof.
  split; apply Permutation_in; [|symmetry]; apply sort_by_perm.
Qed.

End StableSortFacts.

(** ** The order of strings *)

Lemma ltb_asym (a b : string) : String.ltb a b = true -> String.ltb b a = false.
Proof.
  unfold String.ltb. rewrite (String.compare_antisym a b).
  now destruct (String.compare b a).
Qed.

Lemma ltb_lts (a b : string) : String.ltb a b = true <-> String_as_OT.lt a b.
Proof.
  rewrite <- String_as_OT.cmp_lt. unfold String.ltb, String_as_OT.cmp.
  destruct (String.compare a b); split; congruence.
Qed.

Lemma ltb_trans (a b c : string) :
  String.ltb a b = true -> String.ltb b c = true -> String.ltb a c = true.
Proof.
  rewrite !ltb_lts. apply String_as_OT.lt_trans.
Qed.

Lemma ltb_total (a b : string) :
  String.ltb a b = false -> String.ltb b a = false -> a = b.
Proof.
  unfold String.ltb. rewrite (String.compare_antisym b a).
  destruct (String.compare a b) eqn:E; simpl; try discriminate.
  intros _ _. now apply String.compare_eq_iff.
Qed.

Lemma ltb_negtrans (a b c : string) :
  String.ltb b a = false -> String.ltb c b = false -> String.ltb c a = false.
Proof.
  intros H1 H2. destruct (String.ltb c a) eqn:E; [|reflexivity].
  destruct (String.ltb a b) eqn:E'.
  - rewrite (ltb_trans _ _ _ E E') in H2. discriminate.
  - rewrite <- (ltb_total _ _ E' H1) in H2. congruence.
Qed.

Lemma gtb_asym (a b : string) : String.ltb b a = true -> String.ltb a b = false.
Proof. apply ltb_asym. Qed.

Lemma gtb_negtrans (a b c : string) :
  String.ltb a b = false -> String.ltb b c = false -> String.ltb a c = false.
Proof. intros H1 H2. eapply ltb_negtrans; eassumption. Qed.

(** ** Reading the invoices of a user *)

Lemma ltb_irrefl (a : string) : String.ltb a a = false.
Proof.
  destruct (String.ltb a a) eqn:E; [|reflexivity].
  now rewrite (ltb_asym _ _ E) in E.
Qed.

Lemma sort_desc_sorted (l : list Invoice.t) :
  StronglySorted
    (fun a b => String.ltb (Invoice.year_month a) (Invoice.year_month b) = false)
    (sort_desc Invoice.year_month PyStr.lt l).
Proof.
  apply (sort_by_sorted _ _ Invoice.year_month (fun a b => PyStr.lt b a)).
  - intros a b. apply gtb_asym.
  - intros a b c. apply gtb_negtrans.
Qed.

Lemma slice_to_nonneg (A : Type) (n : Z) (l : list A) :
  (0 <= n)%Z -> slice_to n l = firstn (Z.to_nat n) l.
Proof.
  intro H. unfold slice_to. destruct (0 <=? n)%Z eqn:E; [reflexivity|].
  apply Z.leb_gt in E. lia.
Qed.

Lemma In_slice_to (A : Type) (n : Z) (l : list A) (x : A) :
  In x (slice_to n l) -> In x l.
Proof.
  unfold slice_to. destruct (0 <=? n)%Z; intro H;
    match type of H with In _ (firstn ?k _) =>
      rewrite <- (firstn_skipn k l); apply in_or_app; left; exact H
    end.
Qed.

Lemma get_user_invoices_In (d : Document.t) (user_id : string) (limit : Z)
  (invoice : Invoice.t) :
  In invoice (get_user_invoices d user_id limit) ->
  In invoice (PyDict.values (Document.invoices_or_empty d)) /\
  Invoice.user_id invoice = user_id.
Proof.
  unfold get_user_invoices. intro H. apply In_slice_to in H.
  apply sort_by_In in H. apply filter_In in H. destruct H as [H E].
  split; [exact H | now apply String.eqb_eq].
Qed.

(** The first invoice of the listing has the greatest period among the
    invoices of the user. *)
Lemma get_user_invoices_latest (d : Document.t) (user_id : string)
  (latest : Invoice.t) (rest : list Invoice.t) :
  get_user_invoices d user_id 1 = latest :: rest ->
  forall invoice,
    In invoice (PyDict.values (Document.invoices_or_empty d)) ->
    Invoice.user_id invoice = user_id ->
    String.ltb (Invoice.year_month latest) (Invoice.year_month invoice) = false.
Proof.
  unfold get_user_invoices. rewrite slice_to_nonneg by lia.
  set (mine := filter _ _).
  intros H invoice I U.
  assert (S := sort_desc_sorted mine).
  assert (M : In invoice (sort_desc Invoice.year_month PyStr.lt mine)).
  { apply sort_by_In. apply filter_In. split; [exact I | now apply String.eqb_eq]. }
  destruct (sort_desc Invoice.year_month PyStr.lt mine) as [|x l]; [discriminate|].
  change (Z.to_nat 1) with 1%nat in H. simpl in H. injection H as -> _.
  apply StronglySorted_inv in S. destruct S as [_ F].
  destruct M as [->|M]; [apply ltb_irrefl|].
  rewrite Forall_forall in F. now apply F.
Qed.

(** ** The billing engine: computing an invoice *)

(** A subscriber has no stored invoice exactly when the listing is empty. *)
Lemma listing_empty (d : Document.t) (user_id : string) (limit : Z) :
  (0 < limit)%Z ->
  (get_user_invoices d user_id limit = [] <->
   forall invoice,
     In invoice (PyDict.values (Document.invoices_or_empty d)) ->
     Invoice.user_id invoice <> user_id).
Proof.
  intro L. unfold get_user_invoices. rewrite slice_to_nonneg by lia.
  set (mine := filter _ _).
  assert (M : forall invoice,
             In invoice (sort_desc Invoice.year_month PyStr.lt mine) <->
             In invoice (PyDict.values (Document.invoices_or_empty d)) /\
             Invoice.user_id invoice = user_id).
  { intro invoice. unfold sort_desc. rewrite sort_by_In. unfold mine.
    rewrite filter_In, String.eqb_eq. reflexivity. }
  destruct (sort_desc Invoice.year_month PyStr.lt mine) as [|x l].
  - split; [|now destruct (Z.to_nat limit)].
    intros _ invoice I U. apply (proj2 (M invoice)). now split.
  - split.
    + destruct (Z.to_nat limit) eqn:E; [lia | discriminate].
    + intro H. exfalso. destruct (proj1 (M x) (or_introl eq_refl)) as [I U].
      exact (H x I U).
Qed.

Section Billing.
Context {J : Json}.

(** The reading an invoice is computed against. *)
Lemma calculate_invoice_ok (w : World) (user_id : string)
  (current_reading : PyFloat.t) (today : Clock) :
  PyFloat.ltb current_reading (or_zero (get_last_reading (data w) user_id))
  = false ->
  calculate_invoice user_id current_reading today w =
  (inr (Invoice.mk user_id (strftime_Y_m today)
          (or_zero (get_last_reading (data w) user_id)) current_reading
          (PyFloat.sub current_reading
                       (or_zero (get_last_reading (data w) user_id)))
          (PyFloat.add
             (PyFloat.mul
                (PyFloat.sub current_reading
                             (or_zero (get_last_reading (data w) user_id)))
                (PyFloat.of_Z UNIT_PRICE))
             (PyFloat.of_Z MONTHLY_FEE))
          (strftime_full today)
          (get_arabic_month (month today) ++ " " ++ PyStr.of_nat (year today))),
   w).
Proof.
  intro H. unfold calculate_invoice, bind, get_data. cbv beta zeta.
  cbn [fst snd]. now rewrite H.
Qed.

Lemma calculate_invoice_err (w : World) (user_id : string)
  (current_reading : PyFloat.t) (today : Clock) :
  PyFloat.ltb current_reading (or_zero (get_last_reading (data w) user_id))
  = true ->
  calculate_invoice user_id current_reading today w =
  (inl (ValueError current_reading
          (or_zero (get_last_reading (data w) user_id))), w).
Proof.
  intro H. unfold calculate_invoice, bind, get_data. cbv beta zeta.
  cbn [fst snd]. now rewrite H.
Qed.

(** C1, as the code has it: a reading that is greater than or equal to the
    previous one is not below it, and for a reading that is not below the
    previous one calculate_invoice returns an invoice whose consumption is
    the float difference of the two readings and whose total is the float
    consumption * 700 + 250, each of the three operations rounded to the
    nearest float and nothing rounded after them. Previous 100 and current
    145 give 45 and 31750; a first reading of 1.1 gives the float that
    prints as 1020.0000000000001. *)
Theorem calculate_invoice_amount (w : World) (user_id : string)
  (current_reading : PyFloat.t) (today : Clock) :
  let previous_reading := or_zero (get_last_reading (data w) user_id) in
  (PyFloat.leb previous_reading current_reading = true ->
   PyFloat.ltb current_reading previous_reading = false) /\
  (PyFloat.ltb current_reading previous_reading = false ->
   exists invoice,
     calculate_invoice user_id current_reading today w = (inr invoice, w) /\
     Invoice.user_id invoice = user_id /\
     Invoice.previous_reading invoice = previous_reading /\
     Invoice.current_reading invoice = current_reading /\
     Invoice.consumption invoice
     = PyFloat.sub current_reading previous_reading /\
     Invoice.total_amount invoice
     = PyFloat.add (PyFloat.mul (Invoice.consumption invoice)
                                (PyFloat.of_Z 700))
                   (PyFloat.of_Z 250) /\
     (previous_reading = PyFloat.of_Z 100 ->
      current_reading = PyFloat.of_Z 145 ->
      Invoice.consumption invoice = PyFloat.of_Z 45 /\
      Invoice.total_amount invoice = PyFloat.of_Z 31750) /\
     (previous_reading = PyFloat.of_Z 0 ->
      current_reading = Sample2.reading_1_1 ->
      Invoice.total_amount invoice = Sample2.total_1_1)).
Proof.
  intro previous_reading. split; [apply leb_not_ltb|].
  intro H. eexists. split; [apply (calculate_invoice_ok _ _ _ _ H)|].
  cbn [Invoice.user_id Invoice.previous_reading Invoice.current_reading
       Invoice.consumption Invoice.total_amount].
  fold previous_reading.
  split; [reflexivity|]. split; [reflexivity|]. split; [reflexivity|].
  split; [reflexivity|]. split; [reflexivity|]. split.
  - intros -> ->. split; vm_compute; reflexivity.
  - intros -> ->. vm_compute. reflexivity.
Qed.

End Billing.

(** C1, at the ledger of the examples: the last reading is 100, the new one
    145. *)
Lemma calculate_invoice_amount_witness :
  exists invoice,
    calculate_invoice "42" (PyFloat.of_Z 145) Sample.march Sample.world
    = (inr invoice, Sample.world) /\
    Invoice.consumption invoice = PyFloat.of_Z 45 /\
    Invoice.total_amount invoice = PyFloat.of_Z 31750.
Proof.
  destruct (proj2 (calculate_invoice_amount Sample.world "42"
                     (PyFloat.of_Z 145) Sample.march))
    as (invoice & E & _ & _ & _ & _ & _ & X & _).
  - vm_compute. reflexivity.
  - exists invoice. split; [exact E|]. apply X; vm_compute; reflexivity.
Defined.

(** C1 as the specification words it does not hold: the amount is not the
    exact value of consumption * 700 + 250. For the first reading 1.1 of a
    subscriber the consumption is the float 1.1 and the total the float
    1020.0000000000001, which is not 700 times the former plus 250. *)
Lemma calculate_invoice_rounds :
  exists invoice consumption total,
    calculate_invoice "7" Sample2.reading_1_1 Sample.march Sample.world
    = (inr invoice, Sample.world) /\
    Invoice.total_amount invoice = Sample2.total_1_1 /\
    PyFloat.value (Invoice.consumption invoice) = Some consumption /\
    PyFloat.value (Invoice.total_amount invoice) = Some total /\
    ~ (total == consumption * 700 + 250)%Q.
Proof.
  eexists _, _, _. split; [vm_compute; reflexivity|].
  split; [reflexivity|]. split; [vm_compute; reflexivity|].
  split; [vm_compute; reflexivity|].
  intro H. vm_compute in H. discriminate H.
Qed.

Section InvalidReading.
Context {J : Json}.

(** C2: calculate_invoice fails, with the error the handler reports as a
    reading below the previous one, exactly when the current reading is below
    the previous reading. For a subscriber without a stored invoice the
    previous reading is 0, and a first reading that is not negative is
    accepted. Otherwise it is the current reading of a stored invoice of the
    subscriber whose period no other of their stored invoices exceeds (a zero
    reading counting as 0), so that a reading is below the one exactly when
    it is below the other. A failure saves no invoice and leaves the
    document, the files and the log as they were. *)
Theorem calculate_invoice_invalid_reading (w : World) (user_id : string)
  (current_reading : PyFloat.t) (now : Clock) :
  let stored := PyDict.values (Document.invoices_or_empty (data w)) in
  let previous_reading := or_zero (get_last_reading (data w) user_id) in
  ((forall invoice, In invoice stored -> Invoice.user_id invoice <> user_id) ->
   previous_reading = PyFloat.of_Z 0 /\
   (PyFloat.ltb current_reading (PyFloat.of_Z 0) = false ->
    exists invoice,
      calculate_invoice user_id current_reading now w = (inr invoice, w) /\
      Invoice.previous_reading invoice = PyFloat.of_Z 0)) /\
  (forall invoice,
     In invoice stored -> Invoice.user_id invoice = user_id ->
     exists latest,
       In latest stored /\
       Invoice.user_id latest = user_id /\
       (forall other,
          In other stored -> Invoice.user_id other = user_id ->
          String.ltb (Invoice.year_month latest) (Invoice.year_month other)
          = false) /\
       previous_reading
       = (if PyFloat.truthy (Invoice.current_reading latest)
          then Invoice.current_reading latest
          else PyFloat.of_Z 0) /\
       (forall reading,
          PyFloat.ltb reading previous_reading
          = PyFloat.ltb reading (Invoice.current_reading latest))) /\
  ((exists e w', calculate_invoice user_id current_reading now w = (inl e, w'))
   <-> PyFloat.ltb current_reading previous_reading = true) /\
  (PyFloat.ltb current_reading previous_reading = true ->
   calculate_invoice user_id current_reading now w
   = (inl (ValueError current_reading previous_reading), w) /\
   handle_reading user_id current_reading now w
   = (inr (ReadingBelowPrevious (ValueError current_reading previous_reading)),
      w)).
Proof.
  intros stored previous_reading. split; [|split; [|split]].
  - intro None_stored.
    assert (E : get_user_invoices (data w) user_id 1 = [])
      by (apply listing_empty; [lia | exact None_stored]).
    assert (G : get_last_reading (data w) user_id = None)
      by (unfold get_last_reading; now rewrite E).
    subst previous_reading. rewrite G. split; [reflexivity|].
    intro H. eexists. split.
    + apply calculate_invoice_ok. rewrite G. exact H.
    + cbn. now rewrite G.
  - intros invoice I U.
    destruct (get_user_invoices (data w) user_id 1) as [|latest rest] eqn:E.
    + exfalso.
      exact (proj1 (listing_empty (data w) user_id 1 ltac:(lia)) E invoice I U).
    + exists latest.
      destruct (get_user_invoices_In (data w) user_id 1 latest) as [Il Ul];
        [rewrite E; now left|].
      assert (G : get_last_reading (data w) user_id
                  = Some (Invoice.current_reading latest))
        by (unfold get_last_reading; now rewrite E).
      split; [exact Il|]. split; [exact Ul|]. split.
      * now apply (get_user_invoices_latest _ _ _ rest).
      * subst previous_reading. rewrite G. split; [reflexivity|].
        intro reading. apply or_zero_below.
  - split.
    + intros (e & w' & H).
      destruct (PyFloat.ltb current_reading previous_reading) eqn:E;
        [reflexivity|].
      rewrite (calculate_invoice_ok _ _ _ _ E) in H. discriminate.
    + intro H. do 2 eexists. now apply calculate_invoice_err.
  - intro H. split; [now apply calculate_invoice_err|].
    unfold handle_reading, try_except, bind.
    now rewrite (calculate_invoice_err _ _ _ _ H).
Qed.

End InvalidReading.

Example format_1f_examples :
  format_1f (PyFloat.of_Z 25) = "25.0" /\
  format_1f (PyFloat.div (PyFloat.of_Z 1) (PyFloat.of_Z 2)) = "0.5" /\
  format_1f (PyFloat.div (PyFloat.of_Z 1) (PyFloat.of_Z 4)) = "0.2" /\
  format_1f (PyFloat.div (PyFloat.of_Z 3) (PyFloat.of_Z 4)) = "0.8" /\
  format_1f (percent_change (PyFloat.of_Z 103) (PyFloat.of_Z 80)) = "28.7" /\
  format_1f Sample2.reading_1_1 = "1.1".
Proof. repeat split; vm_compute; reflexivity. Qed.

(** ** What an operation leaves alone *)

Section Frames.
Variables (X : Type) (proj : World -> X).

Lemma keeps_ret (A : Type) (a : A) : keeps proj (ret a).
Proof. now intro w. Qed.

Lemma keeps_raise (A : Type) (e : exn) : keeps proj (@raise A e).
Proof. now intro w. Qed.

Lemma keeps_bind (A B : Type) (m : M A) (k : A -> M B) :
  keeps proj m -> (forall a, keeps proj (k a)) -> keeps proj (bind m k).
Proof.
  intros Hm Hk w. unfold bind. specialize (Hm w).
  destruct (m w) as [[e|a] w']; simpl in *; [assumption|].
  now rewrite Hk.
Qed.

Lemma keeps_try_except (A : Type) (m : M A) (h : exn -> M A) :
  keeps proj m -> (forall e, keeps proj (h e)) -> keeps proj (try_except m h).
Proof.
  intros Hm Hh w. unfold try_except. specialize (Hm w).
  destruct (m w) as [[e|a] w']; simpl in *; [|assumption].
  now rewrite Hh.
Qed.

Lemma keeps_for_each (A : Type) (body : A -> M unit) (l : list A) :
  (forall x, keeps proj (body x)) -> keeps proj (for_each body l).
Proof.
  intro H. induction l; simpl; [apply keeps_ret | now apply keeps_bind].
Qed.

Lemma keeps_map_M (A B : Type) (f : A -> M B) (l : list A) :
  (forall x, keeps proj (f x)) -> keeps proj (map_M f l).
Proof.
  intro H. induction l; simpl; [apply keeps_ret|].
  apply keeps_bind; [apply H|]. intro b.
  apply keeps_bind; [assumption|]. intro bs. apply keeps_ret.
Qed.

Lemma keeps_get_data : keeps proj get_data.
Proof. now intro w. Qed.

Lemma keeps_get_disk : keeps proj get_disk.
Proof. now intro w. Qed.

End Frames.

Ltac keeps_step :=
  first
    [ apply keeps_bind | apply keeps_try_except | apply keeps_ret
    | apply keeps_raise | apply keeps_get_data | apply keeps_get_disk
    | apply keeps_for_each | apply keeps_map_M
    | match goal with
      | |- keeps _ (match ?x with _ => _ end) => destruct x
      | |- keeps _ (let _ := _ in _) => cbv zeta
      end
    | progress intros ].

(** The backup machinery writes to the backup directory and to the log
    only: whatever does not depend on these two is kept. *)
Section BackupFrame.
Context {J : Json}.
Variables (X : Type) (proj : World -> X).
Hypothesis proj_log : forall l w, proj (with_log l w) = proj w.
Hypothesis proj_backup_dir : forall dir w, proj (with_backup_dir dir w) = proj w.

Lemma keeps_logger (l : level) (ev : event) : keeps proj (logger l ev).
Proof. intro w. apply (proj_log _ w). Qed.

Lemma keeps_put_backup (name : string) (f : File) : keeps proj (put_backup name f).
Proof.
  intro w. unfold put_backup, bind, get_disk, put_disk, raise. simpl.
  destruct (backup_dir (disk w)) as [dir|]; [|reflexivity].
  destruct (backup_writable (disk w)) eqn:E; [|reflexivity].
  simpl. rewrite <- E. apply (proj_backup_dir _ w).
Qed.

Lemma keeps_os_remove (name : string) : keeps proj (os_remove name).
Proof.
  intro w. unfold os_remove, bind, get_disk, put_disk, raise. simpl.
  destruct (backup_dir (disk w)) as [dir|]; [|reflexivity].
  destruct (negb (PyDict.mem name dir)); [reflexivity|].
  destruct (backup_writable (disk w)) eqn:E; [|reflexivity].
  simpl. rewrite <- E. apply (proj_backup_dir _ w).
Qed.

Lemma keeps_getmtime (name : string) : keeps proj (getmtime name).
Proof.
  intro w. unfold getmtime, bind, get_disk, raise, ret. simpl.
  destruct (backup_dir (disk w)) as [dir|]; [|reflexivity].
  now destruct (PyDict.get name dir).
Qed.

Lemma keeps_listdir : keeps proj listdir_backup_dir.
Proof.
  intro w. unfold listdir_backup_dir, bind, get_disk, raise, ret. simpl.
  now destruct (backup_dir (disk w)).
Qed.

Lemma keeps_exists_data_file : keeps proj exists_data_file.
Proof. now intro w. Qed.

Lemma keeps_copy2 (name : string) : keeps proj (copy2_data_file name).
Proof.
  unfold copy2_data_file. repeat first [ apply keeps_put_backup | keeps_step ].
Qed.

Lemma keeps_cleanup (keep_last : Z) : keeps proj (cleanup_old_backups keep_last).
Proof.
  unfold cleanup_old_backups.
  repeat first [ apply keeps_listdir | apply keeps_getmtime | apply keeps_os_remove
               | apply keeps_logger | keeps_step ].
Qed.

Lemma keeps_create_backup (backup_type : string) (now : Clock) :
  keeps proj (create_backup backup_type now).
Proof.
  unfold create_backup, write_backup.
  repeat first [ apply keeps_cleanup | apply keeps_put_backup
               | apply keeps_logger | keeps_step ].
Qed.

Lemma keeps_create_auto_backup (now : Clock) : keeps proj (create_auto_backup now).
Proof.
  unfold create_auto_backup.
  repeat first [ apply keeps_listdir | apply keeps_create_backup | keeps_step ].
Qed.

Lemma keeps_create_backup_before_fix (now : Clock) :
  keeps proj (create_backup_before_fix now).
Proof.
  unfold create_backup_before_fix.
  repeat first [ apply keeps_exists_data_file | apply keeps_copy2
               | apply keeps_logger | keeps_step ].
Qed.

Lemma keeps_read_data_file : keeps proj read_data_file.
Proof.
  intro w. unfold read_data_file, bind, get_disk, raise, ret. simpl.
  destruct (data_file (disk w)); [|reflexivity].
  now destruct (data_readable (disk w)).
Qed.

(** Loading reads the data file and writes nothing but a quarantine copy
    and log records. *)
Lemma keeps_load_data (now : Clock) : keeps proj (load_data now).
Proof.
  unfold load_data.
  repeat first [ apply keeps_exists_data_file | apply keeps_read_data_file
               | apply keeps_create_backup_before_fix | apply keeps_logger
               | keeps_step ].
Qed.

End BackupFrame.

(** ** Saving: the document in memory *)

Section Saving.
Context {J : Json}.

Lemma keeps_data_write_data_file (s : string) (now : Clock) :
  keeps data (write_data_file s now).
Proof.
  intro w. unfold write_data_file, bind, get_disk, put_disk, raise. simpl.
  now destruct (data_writable (disk w)).
Qed.

(** [save_data] does not touch [self.data]. *)
Lemma keeps_data_save_data (now : Clock) : keeps data (save_data now).
Proof.
  unfold save_data.
  repeat first [ apply keeps_create_auto_backup | apply keeps_data_write_data_file
               | apply keeps_logger | keeps_step ]; reflexivity.
Qed.

Lemma bind_inr (A B : Type) (m : M A) (k : A -> M B) (w w' : World) (a : A) :
  m w = (inr a, w') -> bind m k w = k a w'.
Proof. intro H. unfold bind. now rewrite H. Qed.

Lemma bind_inl (A B : Type) (m : M A) (k : A -> M B) (w w' : World) (e : exn) :
  m w = (inl e, w') -> bind m k w = (inl e, w').
Proof. intro H. unfold bind. now rewrite H. Qed.

Lemma get_user_run (user_id : string) (now : Clock) (w : World) :
  get_user user_id now w =
  match PyDict.get user_id (Document.users (data w)) with
  | Some u => (inr u, w)
  | None =>
      (inr (new_user now),
       with_data (Document.with_users
                    (PyDict.set user_id (new_user now) (Document.users (data w)))
                    (data w)) w)
  end.
Proof.
  unfold get_user, bind, get_data, put_data, PyDict.mem. simpl.
  destruct (PyDict.get user_id (Document.users (data w))) as [u|] eqn:E; simpl.
  - rewrite E. now destruct w.
  - now rewrite PyDictFacts.get_set_same.
Qed.

Lemma set_user_fields_run (user_id : string) (fields u : User.t) (w : World) :
  PyDict.get user_id (Document.users (data w)) = Some u ->
  set_user_fields user_id fields w =
  (inr tt,
   with_data (Document.with_users
                (PyDict.set user_id (User.update u fields)
                            (Document.users (data w)))
                (data w)) w).
Proof.
  intro H. unfold set_user_fields, bind, get_data, put_data. simpl.
  now rewrite H.
Qed.

(** The document [save_invoice] leaves in memory. *)
Lemma save_invoice_data (invoice : Invoice.t) (now : Clock) (w : World) :
  data (snd (save_invoice invoice now w)) = recorded invoice now (data w).
Proof.
  unfold save_invoice.
  set (user_id := Invoice.user_id invoice).
  set (id := invoice_id_of user_id (Invoice.year_month invoice)).
  assert (G : exists u users1 w1,
             get_user user_id now w = (inr u, w1) /\
             disk w1 = disk w /\
             data w1 = Document.with_users users1 (data w) /\
             PyDict.get user_id users1 = Some u /\
             u = match PyDict.get user_id (Document.users (data w)) with
                 | Some u => u | None => new_user now end /\
             forall v, PyDict.set user_id v users1
                       = PyDict.set user_id v (Document.users (data w))).
  { rewrite get_user_run.
    destruct (PyDict.get user_id (Document.users (data w))) as [u|] eqn:E.
    - exists u, (Document.users (data w)), w. repeat split; auto.
      now destruct w as [[] ? ?].
    - exists (new_user now), (PyDict.set user_id (new_user now)
                                 (Document.users (data w))), 
        (with_data (Document.with_users
                      (PyDict.set user_id (new_user now) (Document.users (data w)))
                      (data w)) w).
      repeat split; auto.
      + apply PyDictFacts.get_set_same.
      + intro v. apply PyDictFacts.set_set. }
  destruct G as (u & users1 & w1 & R & _ & D1 & G1 & Eu & SS).
  rewrite (bind_inr _ _ _ _ _ _ _ R).
  unfold bind at 1. unfold get_data at 1.
  set (w2 := snd ((match Document.invoices (data w1) with
                   | Some _ => ret tt
                   | None => put_data (Document.with_invoices
                                         (Some (PyDict.empty _)) (data w1))
                   end) w1)).
  assert (R2 : (match Document.invoices (data w1) with
                | Some _ => ret tt
                | None => put_data (Document.with_invoices
                                      (Some (PyDict.empty _)) (data w1))
                end) w1 = (inr tt, w2)).
  { subst w2. now destruct (Document.invoices (data w1)). }
  assert (D2 : Document.users (data w2) = users1 /\
               Document.invoices_or_empty (data w2)
               = Document.invoices_or_empty (data w) /\
               Document.version (data w2) = Document.version (data w) /\
               Document.created_at (data w2) = Document.created_at (data w) /\
               Document.settings (data w2) = Document.settings (data w)).
  { subst w2. unfold Document.invoices_or_empty.
    assert (EI : Document.invoices (data w1) = Document.invoices (data w))
      by now rewrite D1.
    destruct (Document.invoices (data w1)) as [iv|]; simpl;
      rewrite D1; simpl; rewrite <- EI; auto. }
  destruct D2 as (U2 & I2 & V2 & C2 & S2).
  rewrite (bind_inr _ _ _ _ _ _ _ R2).
  unfold bind at 1. unfold get_data at 1. unfold bind at 1. unfold put_data at 1.
  set (w3 := mkWorld _ (disk w2) (log w2)).
  assert (G3 : PyDict.get user_id (Document.users (data w3)) = Some u)
    by (subst w3; simpl; now rewrite U2).
  rewrite (bind_inr _ _ _ _ _ _ _ (set_user_fields_run _ _ _ _ G3)).
  set (w4 := with_data _ w3).
  assert (G4 : PyDict.get user_id (Document.users (data w4))
               = Some (User.update u (User.mk None None None None None None
                                        (Some (Invoice.current_reading invoice))
                                        None)))
    by (subst w4; simpl; apply PyDictFacts.get_set_same).
  rewrite (bind_inr _ _ _ _ _ _ _ (set_user_fields_run _ _ _ _ G4)).
  set (w5 := with_data _ w4).
  assert (K : keeps data (bind (save_data now) (fun _ => ret id))).
  { apply keeps_bind; [apply keeps_data_save_data | intro; apply keeps_ret]. }
  rewrite (K w5). subst w5 w4 w3. simpl.
  unfold Document.with_users, Document.with_invoices. simpl.
  rewrite PyDictFacts.set_set, U2, SS, I2, V2, C2, S2.
  unfold recorded. fold user_id. fold id. rewrite <- Eu.
  now destruct u.
Qed.

Lemma recorded_keyed (invoice : Invoice.t) (now : Clock) (d : Document.t) :
  invoices_keyed d -> invoices_keyed (recorded invoice now d).
Proof.
  intros [O F]. split; simpl.
  - now apply PyDictFacts.ok_set.
  - apply Forall_forall. intros [k v] I. simpl.
    apply PyDictFacts.In_set in I. destruct I as [[-> ->]|I]; [reflexivity|].
    rewrite Forall_forall in F. exact (F _ I).
Qed.

Lemma initial_keyed (now : Clock) : invoices_keyed (initialize_data_structure now).
Proof. split; simpl; constructor. Qed.

(** C3: two saves of invoices with the same subscriber and period leave
    one invoice under their key, the second one; the second save adds no
    entry; each save sets the cached last_reading and last_invoice_date of
    the subscriber to the current reading and the period of the saved
    invoice. *)
Theorem save_invoice_upsert (w : World) (first second : Invoice.t)
  (now now' : Clock) :
  PyDict.ok (Document.invoices_or_empty (data w)) ->
  Invoice.user_id first = Invoice.user_id second ->
  Invoice.year_month first = Invoice.year_month second ->
  let w1 := snd (save_invoice first now w) in
  let w2 := snd (save_invoice second now' w1) in
  let user_id := Invoice.user_id second in
  let invoice_id := invoice_id_of user_id (Invoice.year_month second) in
  get_invoice (data w2) invoice_id = Some second /\
  count_occ string_dec (PyDict.keys (Document.invoices_or_empty (data w2)))
            invoice_id = 1%nat /\
  PyDict.keys (Document.invoices_or_empty (data w2))
  = PyDict.keys (Document.invoices_or_empty (data w1)) /\
  (forall k, k <> invoice_id -> get_invoice (data w2) k = get_invoice (data w) k) /\
  (exists u, PyDict.get user_id (Document.users (data w2)) = Some u /\
             User.last_reading u = Some (Invoice.current_reading second) /\
             User.last_invoice_date u = Some (Invoice.year_month second)) /\
  get_invoice (data w1) invoice_id = Some first /\
  (exists u, PyDict.get user_id (Document.users (data w1)) = Some u /\
             User.last_reading u = Some (Invoice.current_reading first) /\
             User.last_invoice_date u = Some (Invoice.year_month first)).
Proof.
  intros O EU EY w1 w2 user_id invoice_id.
  assert (D1 : data w1 = recorded first now (data w))
    by apply save_invoice_data.
  assert (D2 : data w2 = recorded second now' (data w1))
    by apply save_invoice_data.
  assert (I : forall inv t d,
             Document.invoices_or_empty (recorded inv t d)
             = PyDict.set (invoice_id_of (Invoice.user_id inv)
                                         (Invoice.year_month inv))
                          inv (Document.invoices_or_empty d)) by reflexivity.
  unfold get_invoice. rewrite D2, D1, !I. rewrite EU, EY.
  fold user_id. fold invoice_id. unfold recorded. simpl.
  rewrite ?EU, ?EY. fold user_id.
  split; [|split; [|split; [|split; [|split; [|split]]]]].
  - apply PyDictFacts.get_set_same.
  - apply PyDictFacts.count_key_set. now apply PyDictFacts.ok_set.
  - rewrite (PyDictFacts.keys_set _ invoice_id second).
    assert (M : PyDict.mem invoice_id
                  (PyDict.set invoice_id first (Document.invoices_or_empty (data w)))
                = true) by (apply PyDictFacts.mem_true, PyDictFacts.In_keys_set).
    now rewrite M.
  - intros k N. rewrite !PyDictFacts.get_set_other by congruence. reflexivity.
  - eexists. split; [apply PyDictFacts.get_set_same|]. split; reflexivity.
  - apply PyDictFacts.get_set_same.
  - eexists. split; [apply PyDictFacts.get_set_same|]. split; reflexivity.
Qed.

End Saving.

(** C3, at the ledger of the examples: a March reading of 145, then 150. *)
Lemma save_invoice_upsert_witness :
  get_invoice
    (data (snd (save_invoice (J := Sample.toy_json) Sample.march_invoice_again
                  Sample.march_later
                  (snd (save_invoice (J := Sample.toy_json) Sample.march_invoice
                          Sample.march Sample.world)))))
    "42_2024-03"
  = Some Sample.march_invoice_again.
Proof.
  refine (proj1 (save_invoice_upsert (J := Sample.toy_json) Sample.world
                   Sample.march_invoice Sample.march_invoice_again
                   Sample.march Sample.march_later _ _ _)).
  - repeat constructor; simpl; intuition discriminate.
  - reflexivity.
  - reflexivity.
Defined.

(** ** Periods: the order of the zero-padded keys *)

Lemma append_assoc (a b c : string) : (a ++ b) ++ c = a ++ (b ++ c).
Proof. induction a as [|x a IH]; simpl; [reflexivity | now rewrite IH]. Qed.

Lemma digit_compare (i j : nat) :
  (i < 10)%nat -> (j < 10)%nat ->
  Ascii.compare (PyStr.digit i) (PyStr.digit j) = Nat.compare i j.
Proof.
  intros Hi Hj. unfold Ascii.compare, PyStr.digit, ascii_of_nat.
  rewrite !Nat.mod_small by assumption.
  rewrite !N_ascii_embedding by lia.
  rewrite <- Nat2N.inj_compare.
  destruct (Nat.compare_spec (48 + i) (48 + j));
    destruct (Nat.compare_spec i j); try reflexivity; lia.
Qed.

Lemma pad2_compare (m n : nat) (s t : string) :
  (m < 100)%nat -> (n < 100)%nat ->
  String.compare (PyStr.pad2 m ++ s) (PyStr.pad2 n ++ t) =
  match Nat.compare m n with
  | Eq => String.compare s t
  | c => c
  end.
Proof.
  intros Hm Hn. unfold PyStr.pad2. cbn [String.append String.compare].
  pose proof (Nat.div_mod_eq m 10) as Em. pose proof (Nat.div_mod_eq n 10) as En.
  pose proof (Nat.mod_upper_bound m 10) as Bm.
  pose proof (Nat.mod_upper_bound n 10) as Bn.
  assert (PyStr.digit m = PyStr.digit (m mod 10)) as ->
    by (unfold PyStr.digit; now rewrite Nat.Div0.mod_mod).
  assert (PyStr.digit n = PyStr.digit (n mod 10)) as ->
    by (unfold PyStr.digit; now rewrite Nat.Div0.mod_mod).
  rewrite !digit_compare by lia.
  destruct (Nat.compare_spec (m / 10) (n / 10)) as [E|L|G];
    destruct (Nat.compare_spec (m mod 10) (n mod 10)) as [E'|L'|G'];
    destruct (Nat.compare_spec m n) as [E''|L''|G'']; try reflexivity; lia.
Qed.

Lemma pad4_compare (m n : nat) (s t : string) :
  (m < 100 * 100)%nat -> (n < 100 * 100)%nat ->
  String.compare (PyStr.pad4 m ++ s) (PyStr.pad4 n ++ t) =
  match Nat.compare m n with
  | Eq => String.compare s t
  | c => c
  end.
Proof.
  intros Hm Hn. unfold PyStr.pad4.
  pose proof (Nat.div_mod_eq m 100) as Em. pose proof (Nat.div_mod_eq n 100) as En.
  pose proof (Nat.mod_upper_bound m 100) as Bm.
  pose proof (Nat.mod_upper_bound n 100) as Bn.
  assert (Dm : (m / 100 < 100)%nat) by (apply Nat.Div0.div_lt_upper_bound; lia).
  assert (Dn : (n / 100 < 100)%nat) by (apply Nat.Div0.div_lt_upper_bound; lia).
  rewrite !append_assoc.
  rewrite pad2_compare by assumption.
  rewrite pad2_compare by lia.
  destruct (Nat.compare_spec (m / 100) (n / 100)) as [E|L|G];
    destruct (Nat.compare_spec (m mod 100) (n mod 100)) as [E'|L'|G'];
    destruct (Nat.compare_spec m n) as [E''|L''|G'']; try reflexivity; lia.
Qed.

(** The order of two period keys is the order of their months in time. *)
Lemma strftime_Y_m_compare (a b : Clock) :
  valid_date a -> valid_date b ->
  String.compare (strftime_Y_m a) (strftime_Y_m b) =
  match Nat.compare (year a) (year b) with
  | Eq => Nat.compare (month a) (month b)
  | c => c
  end.
Proof.
  intros [Ya Ma] [Yb Mb]. unfold strftime_Y_m.
  rewrite pad4_compare by lia.
  destruct (Nat.compare (year a) (year b)); try reflexivity.
  change ("-" ++ PyStr.pad2 (month a)) with (String "-" (PyStr.pad2 (month a) ++ "")).
  change ("-" ++ PyStr.pad2 (month b)) with (String "-" (PyStr.pad2 (month b) ++ "")).
  cbn [String.compare]. change (Ascii.compare "-" "-") with Eq. cbv iota.
  rewrite pad2_compare by lia.
  now destruct (Nat.compare (month a) (month b)).
Qed.

(** ** Listing the invoices of a subscriber *)

Lemma firstn_StronglySorted (A : Type) (R : A -> A -> Prop) (n : nat) (l : list A) :
  StronglySorted R l -> StronglySorted R (firstn n l).
Proof.
  intro S. revert n. induction S as [|x l S IH F]; intro n.
  - rewrite firstn_nil. constructor.
  - destruct n; simpl; constructor; [apply IH|].
    rewrite Forall_forall in *. intros y I. apply F.
    rewrite <- (firstn_skipn n l). apply in_or_app. now left.
Qed.

(** Under the keying of [save_invoice], the invoices of one subscriber have
    pairwise distinct periods. *)
Lemma keyed_periods_NoDup (iv : PyDict.dict Invoice.t) (user_id : string) :
  PyDict.ok iv ->
  Forall (fun kv => fst kv = invoice_id_of (Invoice.user_id (snd kv))
                                           (Invoice.year_month (snd kv))) iv ->
  NoDup (map Invoice.year_month
           (filter (fun invoice => String.eqb (Invoice.user_id invoice) user_id)
                   (PyDict.values iv))).
Proof.
  unfold PyDict.ok. induction iv as [|[k v] iv IH]; simpl; intros O F.
  - constructor.
  - inversion O as [|? ? NI O']; subst. inversion F as [|? ? Kv F']; subst.
    simpl in Kv. specialize (IH O' F').
    destruct (String.eqb (Invoice.user_id v) user_id) eqn:E; [|exact IH].
    simpl. constructor; [|exact IH].
    intro I. apply in_map_iff in I. destruct I as (v' & Y & I).
    apply filter_In in I. destruct I as [I U].
    apply String.eqb_eq in E. apply String.eqb_eq in U.
    apply in_map_iff in I. destruct I as ([k' v''] & <- & I). simpl in *.
    rewrite Forall_forall in F'. specialize (F' _ I). simpl in F'.
    apply NI. rewrite Kv, E, <- Y, <- U, <- F'.
    change k' with (fst (k', v'')). now apply in_map.
Qed.

Lemma sorted_strict (l : list Invoice.t) :
  NoDup (map Invoice.year_month l) ->
  StronglySorted
    (fun a b => String.ltb (Invoice.year_month a) (Invoice.year_month b) = false) l ->
  StronglySorted
    (fun a b => String.ltb (Invoice.year_month b) (Invoice.year_month a) = true) l.
Proof.
  induction l as [|a l IH]; intros N S; [constructor|].
  inversion N as [|? ? NI N']; subst.
  apply StronglySorted_inv in S. destruct S as [S F].
  constructor; [now apply IH|].
  rewrite Forall_forall in *. intros b I.
  destruct (String.ltb (Invoice.year_month b) (Invoice.year_month a)) eqn:E;
    [reflexivity|].
  exfalso. apply NI. rewrite (ltb_total _ _ (F b I) E). now apply in_map.
Qed.

(** C6: for a limit N >= 0 and a document whose invoices are stored under
    their composite keys, get_user_invoices returns at most N invoices, all
    of the subscriber, each with a period strictly greater than those after
    it; and the order of two YYYY-MM keys as strings is the order of their
    months in time. *)
Theorem get_user_invoices_descending (d : Document.t) (user_id : string)
  (limit : Z) :
  (0 <= limit)%Z ->
  invoices_keyed d ->
  (List.length (get_user_invoices d user_id limit) <= Z.to_nat limit)%nat /\
  Forall (fun invoice =>
            Invoice.user_id invoice = user_id /\
            In invoice (PyDict.values (Document.invoices_or_empty d)))
         (get_user_invoices d user_id limit) /\
  StronglySorted
    (fun a b => String.ltb (Invoice.year_month b) (Invoice.year_month a) = true)
    (get_user_invoices d user_id limit) /\
  (forall a b : Clock,
     valid_date a -> valid_date b ->
     String.compare (strftime_Y_m a) (strftime_Y_m b) =
     match Nat.compare (year a) (year b) with
     | Eq => Nat.compare (month a) (month b)
     | c => c
     end).
Proof.
  intros L [O F]. split; [|split; [|split]].
  - unfold get_user_invoices. rewrite slice_to_nonneg by assumption.
    apply firstn_le_length.
  - apply Forall_forall. intros invoice I.
    apply get_user_invoices_In in I. tauto.
  - unfold get_user_invoices. rewrite slice_to_nonneg by assumption.
    apply firstn_StronglySorted. apply sorted_strict.
    + eapply Permutation_NoDup.
      * apply Permutation_map. symmetry. apply sort_by_perm.
      * now apply keyed_periods_NoDup.
    + apply sort_desc_sorted.
  - apply strftime_Y_m_compare.
Qed.

(** C6, at the ledger of the examples and the default limit of 12. *)
Lemma get_user_invoices_descending_witness :
  (List.length (get_user_invoices Sample.ledger "42" 12) <= 12)%nat.
Proof.
  refine (proj1 (get_user_invoices_descending Sample.ledger "42" 12 _ _)).
  - discriminate.
  - split.
    + repeat constructor; simpl; intuition discriminate.
    + repeat constructor.
Defined.

Example get_user_invoices_ledger :
  get_user_invoices Sample.ledger "42" 12
  = [Sample.february_invoice; Sample.january_invoice].
Proof. reflexivity. Qed.

(** ** Reminders *)

(** C10: a stored subscriber whose record has no reminder_enabled field is
    listed by get_all_users_for_reminder; the subscribers left out are those
    whose flag is false. *)
Theorem reminder_default_enabled (d : Document.t) (user_id : string) (u : User.t) :
  (In (user_id, u) (get_all_users_for_reminder d) <->
   In (user_id, u) (PyDict.items (Document.users d)) /\
   User.reminder_enabled u <> Some false) /\
  (In (user_id, u) (PyDict.items (Document.users d)) /\
   User.reminder_enabled u = None ->
   In (user_id, u) (get_all_users_for_reminder d)).
Proof.
  unfold get_all_users_for_reminder.
  assert (E : reminder_flag u = true <-> User.reminder_enabled u <> Some false).
  { unfold reminder_flag. destruct (User.reminder_enabled u) as [[|]|];
      split; congruence. }
  split.
  - rewrite filter_In. simpl. now rewrite E.
  - intros [I N]. apply filter_In. split; [exact I|]. simpl.
    apply E. congruence.
Qed.

Example reminders_of_ledger :
  map fst (get_all_users_for_reminder Sample.ledger) = ["42"; "7"].
Proof. reflexivity. Qed.

(** ** The comparison with the previous invoice *)

Lemma classify_cases (change : PyFloat.t) :
  (PyFloat.ltb (PyFloat.of_Z 0) change = true ->
   classify change = Increase (PyFloat.abs change)) /\
  (PyFloat.ltb (PyFloat.of_Z 0) change = false ->
   PyFloat.ltb change (PyFloat.of_Z 0) = true ->
   classify change = Decrease (PyFloat.abs change)) /\
  (PyFloat.ltb (PyFloat.of_Z 0) change = false ->
   PyFloat.ltb change (PyFloat.of_Z 0) = false ->
   classify change = Unchanged).
Proof.
  unfold classify. split; [|split].
  - now intros ->.
  - now intros -> ->.
  - now intros -> ->.
Qed.

(** C7, what the code does: the message of an invoice compares the
    consumption of that invoice with the consumption of the second entry of
    the subscriber's listing, which has as many entries as the subscriber
    has stored invoices, up to two. The first two entries are the two most
    recent stored invoices of the subscriber: no stored invoice of theirs
    has a later period than the first, and the first is the only one with a
    later period than the second. When the second has a positive
    consumption the comparison is the float change
    (current - previous) / previous * 100, an increase when positive, a
    decrease (printed without its sign) when negative, unchanged otherwise;
    for the most recent invoice this is the change between the two most
    recent invoices. There is no comparison when the subscriber has fewer
    than two stored invoices or the previous consumption is not positive,
    so nothing is divided by zero; from 40 to 50 the text reads an increase
    of 25.0%. *)
Theorem comparison_trend (d : Document.t) (invoice : Invoice.t) :
  let stored := PyDict.values (Document.invoices_or_empty d) in
  let user_id := Invoice.user_id invoice in
  let mine :=
    filter (fun other => String.eqb (Invoice.user_id other) user_id) stored in
  let listing := get_user_invoices d user_id 2 in
  let shown := comparison (format_invoice_message d invoice true) in
  List.length listing = Nat.min 2 (List.length mine) /\
  (forall latest prev rest,
     listing = latest :: prev :: rest ->
     (In latest stored /\ Invoice.user_id latest = user_id) /\
     (In prev stored /\ Invoice.user_id prev = user_id) /\
     (forall other,
        In other stored -> Invoice.user_id other = user_id ->
        String.ltb (Invoice.year_month latest) (Invoice.year_month other)
        = false) /\
     (forall other,
        In other stored -> Invoice.user_id other = user_id ->
        String.ltb (Invoice.year_month prev) (Invoice.year_month other) = true ->
        other = latest) /\
     let change :=
       percent_change (Invoice.consumption invoice) (Invoice.consumption prev) in
     (PyFloat.ltb (PyFloat.of_Z 0) (Invoice.consumption prev) = true ->
      shown = Some (classify change) /\
      (invoice = latest ->
       shown = Some (classify (percent_change (Invoice.consumption latest)
                                              (Invoice.consumption prev)))) /\
      (PyFloat.ltb (PyFloat.of_Z 0) change = true ->
       shown = Some (Increase (PyFloat.abs change))) /\
      (PyFloat.ltb (PyFloat.of_Z 0) change = false ->
       PyFloat.ltb change (PyFloat.of_Z 0) = true ->
       shown = Some (Decrease (PyFloat.abs change))) /\
      (PyFloat.ltb (PyFloat.of_Z 0) change = false ->
       PyFloat.ltb change (PyFloat.of_Z 0) = false ->
       shown = Some Unchanged)) /\
     (PyFloat.ltb (PyFloat.of_Z 0) (Invoice.consumption prev) = false ->
      shown = None)) /\
  ((List.length mine <= 1)%nat -> shown = None) /\
  comparison (format_invoice_message d invoice false) = None /\
  (percent_change (PyFloat.of_Z 50) (PyFloat.of_Z 40) = PyFloat.of_Z 25 /\
   trend_text (classify (percent_change (PyFloat.of_Z 50) (PyFloat.of_Z 40)))
   = "📈 زيادة بنسبة 25.0%").
Proof.
  intros stored user_id mine listing shown. subst shown.
  unfold format_invoice_message. cbn [comparison].
  fold user_id. fold listing.
  assert (Len : List.length listing = Nat.min 2 (List.length mine)).
  { unfold listing, get_user_invoices. rewrite slice_to_nonneg by lia.
    fold stored. fold mine. rewrite length_firstn. unfold sort_desc.
    rewrite sort_by_length. reflexivity. }
  split; [exact Len|]. split; [|split; [|split]].
  - intros latest prev rest E.
    assert (Il : In latest listing) by (rewrite E; now left).
    assert (Ip : In prev listing) by (rewrite E; right; now left).
    assert (H1 : get_user_invoices d user_id 1 = [latest]).
    { revert E. unfold listing, get_user_invoices.
      rewrite !slice_to_nonneg by lia.
      destruct (sort_desc _ _ _) as [|a [|b l]]; simpl; try discriminate.
      now intros [= -> _ _]. }
    split; [exact (get_user_invoices_In d user_id 2 latest Il)|].
    split; [exact (get_user_invoices_In d user_id 2 prev Ip)|].
    split; [exact (get_user_invoices_latest d user_id latest [] H1)|].
    split.
    { intros other I U Later.
      assert (S := sort_desc_sorted mine).
      assert (M : In other (sort_desc Invoice.year_month PyStr.lt mine)).
      { apply sort_by_In. apply filter_In.
        split; [exact I | now apply String.eqb_eq]. }
      revert E. unfold listing, get_user_invoices.
      rewrite slice_to_nonneg by lia. fold stored. fold mine.
      destruct (sort_desc Invoice.year_month PyStr.lt mine) as [|a [|b l]];
        simpl; try discriminate.
      intros [= -> -> _].
      destruct M as [<-|[<-|M]]; [reflexivity | |].
      - now rewrite ltb_irrefl in Later.
      - apply StronglySorted_inv in S. destruct S as [S _].
        apply StronglySorted_inv in S. destruct S as [_ F].
        rewrite Forall_forall in F. rewrite (F other M) in Later.
        discriminate. }
    rewrite E. cbn [List.length Nat.ltb Nat.leb nth_error].
    destruct (classify_cases
                (percent_change (Invoice.consumption invoice)
                                (Invoice.consumption prev))) as (Ci & Cd & Cu).
    split.
    + intros ->. split; [reflexivity|]. split; [now intros ->|].
      split; [|split].
      * intro H. now rewrite Ci.
      * intros H H'. now rewrite Cd.
      * intros H H'. now rewrite Cu.
    + now intros ->.
  - intro L.
    assert (L' : (List.length listing <= 1)%nat) by lia.
    destruct listing as [|a [|b l]]; simpl in *; try reflexivity. lia.
  - reflexivity.
  - split; vm_compute; reflexivity.
Qed.

(** ** Operations that raise nothing *)

Lemma never_raises_ret (A : Type) (a : A) : never_raises (ret a).
Proof. intro w. now exists a. Qed.

Lemma never_raises_logger (l : level) (ev : event) : never_raises (logger l ev).
Proof. intro w. now exists tt. Qed.

Lemma never_raises_bind (A B : Type) (m : M A) (k : A -> M B) :
  never_raises m -> (forall a, never_raises (k a)) -> never_raises (bind m k).
Proof.
  intros Hm Hk w. unfold bind. destruct (Hm w) as [a Ha].
  destruct (m w) as [[e|a'] w']; simpl in Ha; [discriminate|]. apply Hk.
Qed.

Lemma never_raises_try_except (A : Type) (m : M A) (h : exn -> M A) :
  (forall e, never_raises (h e)) -> never_raises (try_except m h).
Proof.
  intros Hh w. unfold try_except.
  destruct (m w) as [[e|a] w']; [apply Hh | now exists a].
Qed.

Ltac never_raises_step :=
  first
    [ apply never_raises_try_except | apply never_raises_bind
    | apply never_raises_ret | apply never_raises_logger
    | match goal with
      | |- never_raises (match ?x with _ => _ end) => destruct x
      end
    | progress intros ].

Section Totality.
Context {J : Json}.

Lemma never_raises_cleanup (keep_last : Z) :
  never_raises (cleanup_old_backups keep_last).
Proof. unfold cleanup_old_backups. repeat never_raises_step. Qed.

Lemma never_raises_create_backup (backup_type : string) (now : Clock) :
  never_raises (create_backup backup_type now).
Proof. unfold create_backup. repeat never_raises_step. Qed.

Lemma never_raises_exists_data_file : never_raises exists_data_file.
Proof. intro w. eexists. reflexivity. Qed.

Lemma never_raises_create_backup_before_fix (now : Clock) :
  never_raises (create_backup_before_fix now).
Proof.
  unfold create_backup_before_fix.
  repeat first [ apply never_raises_exists_data_file | never_raises_step ].
Qed.

Lemma never_raises_load_data (now : Clock) : never_raises (load_data now).
Proof.
  unfold load_data.
  repeat first [ apply never_raises_exists_data_file
               | apply never_raises_create_backup_before_fix
               | never_raises_step ].
Qed.

End Totality.

(** ** Saving: what a failure looks like *)

Section SaveFailure.
Context {J : Json}.

Lemma outside_backups_log (l : list (level * event)) (w : World) :
  outside_backups (with_log l w) = outside_backups w.
Proof. reflexivity. Qed.

Lemma outside_backups_backup_dir (dir : option (PyDict.dict File)) (w : World) :
  outside_backups (with_backup_dir dir w) = outside_backups w.
Proof. reflexivity. Qed.

Lemma listdir_run (w : World) :
  listdir_backup_dir w =
  match backup_dir (disk w) with
  | Some dir => (inr (PyDict.keys dir), w)
  | None => (inl (FileNotFoundError BACKUP_DIR), w)
  end.
Proof.
  unfold listdir_backup_dir, bind, get_disk. now destruct (backup_dir (disk w)).
Qed.

(** The automatic backup fails only when the directory cannot be listed. *)
Lemma create_auto_backup_result (now : Clock) (w : World) :
  match backup_dir (disk w) with
  | None =>
      create_auto_backup now w = (inl (FileNotFoundError BACKUP_DIR), w)
  | Some _ =>
      exists w1, create_auto_backup now w = (inr tt, w1) /\
                 outside_backups w1 = outside_backups w
  end.
Proof.
  assert (L := listdir_run w).
  destruct (backup_dir (disk w)) as [dir|] eqn:E.
  - assert (K := keeps_create_auto_backup _ outside_backups
                   outside_backups_log outside_backups_backup_dir now w).
    revert K. unfold create_auto_backup. rewrite (bind_inr _ _ _ _ _ _ _ L).
    destruct (negb _).
    + destruct (never_raises_create_backup "auto" now w) as [a Ha].
      unfold bind.
      destruct (create_backup "auto" now w) as [[e|a'] w1]; [discriminate|].
      simpl. intro K. now exists w1.
    + simpl. intro K. now exists w.
  - unfold create_auto_backup. now rewrite (bind_inl _ _ _ _ _ _ _ L).
Qed.

(** [save_data], case by case. *)
Lemma save_data_result (now : Clock) (w : World) :
  match backup_dir (disk w) with
  | None =>
      save_data now w =
      (inl (FileNotFoundError BACKUP_DIR),
       with_log (log w ++ [(ERROR, SaveError (FileNotFoundError BACKUP_DIR))]) w)
  | Some _ =>
      exists w1,
        create_auto_backup now w = (inr tt, w1) /\
        outside_backups w1 = outside_backups w /\
        save_data now w =
        if data_writable (disk w)
        then (inr tt,
              with_log (log w1 ++ [(INFO, DataSaved)])
                (with_data_file (mkFile (json_dump (data w1)) (ticks now)) w1))
        else (inl (PermissionError DATA_FILE),
              with_log (log w1 ++ [(ERROR, SaveError (PermissionError DATA_FILE))])
                w1)
  end.
Proof.
  assert (R := create_auto_backup_result now w).
  destruct (backup_dir (disk w)) as [dir|] eqn:E.
  - destruct R as (w1 & R & O). exists w1. split; [exact R|]. split; [exact O|].
    unfold save_data, try_except. rewrite (bind_inr _ _ _ _ _ _ _ R).
    unfold write_data_file, bind, get_data, get_disk, put_disk, logger, raise.
    simpl.
    assert (W : data_writable (disk w1) = data_writable (disk w))
      by (unfold outside_backups in O; congruence).
    rewrite <- W. unfold with_data_file, with_log.
    now destruct (data_writable (disk w1)) eqn:W1.
  - unfold save_data, try_except. now rewrite (bind_inl _ _ _ _ _ _ _ R).
Qed.

(** C5, as the code has it: a file system error met by save_data is caught,
    logged and raised again unchanged, so the caller receives the exception
    of the file interface itself; this happens exactly when the backup
    directory cannot be listed or the data file cannot be opened for
    writing; a failed save leaves the document in memory and the data file
    as they were, and save_data never changes the document in memory. *)
Theorem save_data_failure (w : World) (now : Clock) :
  data (snd (save_data now w)) = data w /\
  ((exists e w', save_data now w = (inl e, w')) <->
   backup_dir (disk w) = None \/ data_writable (disk w) = false) /\
  (forall e w',
     save_data now w = (inl e, w') ->
     is_OSError e = true /\
     data w' = data w /\
     data_file (disk w') = data_file (disk w) /\
     exists entries, log w' = (entries ++ [(ERROR, SaveError e)])%list).
Proof.
  split; [apply keeps_data_save_data|].
  assert (R := save_data_result now w).
  destruct (backup_dir (disk w)) as [dir|] eqn:E.
  - destruct R as (w1 & _ & O & R). rewrite R.
    assert (O' : data w1 = data w /\ data_file (disk w1) = data_file (disk w))
      by (unfold outside_backups in O; split; congruence).
    destruct O' as [O1 O2].
    destruct (data_writable (disk w)) eqn:W.
    + split.
      * split; [intros (e & w' & H); discriminate | intros [H|H]; discriminate].
      * intros e w' H. discriminate.
    + split.
      * split; [now right | intros _; eauto].
      * intros e w' [= <- <-]. simpl. repeat split; auto. eauto.
  - rewrite R. split.
    + split; [now left | intros _; eauto].
    + intros e w' [= <- <-]. simpl. repeat split; auto. eauto.
Qed.

End SaveFailure.

(** C5, as stated, fails where the data file is read-only: the caller of
    save_data receives the [PermissionError] of [open], an [OSError]. *)
Lemma save_data_raises_raw_error :
  fst (save_data (J := Sample.toy_json) Sample.march Sample.read_only_world)
  = inl (PermissionError DATA_FILE) /\
  is_OSError (PermissionError DATA_FILE) = true.
Proof. split; reflexivity. Qed.

(** ** Loading: quarantine of a file that is not JSON *)

Section Loading.
Context {J : Json}.

Lemma load_data_not_json (now : Clock) (w : World) (f : File)
  (dir : PyDict.dict File) :
  data_file (disk w) = Some f ->
  data_readable (disk w) = true ->
  json_load (bytes f) = NotJSON ->
  backup_dir (disk w) = Some dir ->
  backup_writable (disk w) = true ->
  load_data now w =
  (inr (initialize_data_structure now),
   with_log (log w ++ [(ERROR, JSONError JSONDecodeError);
                       (WARNING, CorruptedSaved (corrupted_name now))])
     (with_backup_dir (Some (PyDict.set (corrupted_name now) f dir)) w)).
Proof.
  intros F R P D W.
  cbv [load_data create_backup_before_fix copy2_data_file put_backup
       read_data_file exists_data_file try_except bind get_disk put_disk
       logger raise ret].
  repeat (first [rewrite F | rewrite R | rewrite P | rewrite D | rewrite W];
          cbv beta iota;
          cbn [data disk log data_file data_readable data_writable backup_dir
               backup_writable]).
  unfold with_log, with_backup_dir. cbn [data disk log].
  rewrite <- app_assoc, ?F, ?R, ?W. reflexivity.
Qed.

Lemma load_data_unreadable (now : Clock) (w : World) (f : File) :
  data_file (disk w) = Some f ->
  data_readable (disk w) = false ->
  load_data now w =
  (inr (initialize_data_structure now),
   with_log (log w ++ [(ERROR, LoadError (PermissionError DATA_FILE))]) w).
Proof.
  intros F R.
  cbv [load_data read_data_file exists_data_file try_except bind get_disk
       logger raise ret].
  repeat (first [rewrite F | rewrite R]; cbv beta iota;
          cbn [data disk log data_file data_readable]).
  reflexivity.
Qed.

Lemma load_data_copy_refused (now : Clock) (w : World) (f : File)
  (dir : PyDict.dict File) :
  data_file (disk w) = Some f ->
  data_readable (disk w) = true ->
  json_load (bytes f) = NotJSON ->
  backup_dir (disk w) = Some dir ->
  backup_writable (disk w) = false ->
  load_data now w =
  (inr (initialize_data_structure now),
   with_log (log w ++ [(ERROR, JSONError JSONDecodeError);
                       (ERROR, CorruptedSaveFailed
                                 (PermissionError (BACKUP (corrupted_name now))))])
            w).
Proof.
  intros F R P D W.
  cbv [load_data create_backup_before_fix copy2_data_file put_backup
       read_data_file exists_data_file try_except bind get_disk put_disk
       logger raise ret].
  repeat (first [rewrite F | rewrite R | rewrite P | rewrite D | rewrite W];
          cbv beta iota;
          cbn [data disk log data_file data_readable data_writable backup_dir
               backup_writable]).
  unfold with_log. cbn [data disk log]. rewrite <- app_assoc. reflexivity.
Qed.

(** C4, as the code has it: load_data never raises and never touches the
    data file; when the file can be read and is not JSON, and the backup
    directory is there and writable, the directory receives a copy of the
    file, bytes and modification time, under the name corrupted_data_ +
    timestamp + .json, the other files of the directory stay, and the caller
    receives a fresh document without users or invoices; when the copy is
    refused, or the file may not be opened, the caller receives the fresh
    document all the same, the backup directory is unchanged and the error
    is logged. *)
Theorem load_data_quarantine (w : World) (now : Clock) :
  (exists d, fst (load_data now w) = inr d) /\
  outside_backups (snd (load_data now w)) = outside_backups w /\
  (forall f dir,
     data_file (disk w) = Some f ->
     data_readable (disk w) = true ->
     json_load (bytes f) = NotJSON ->
     backup_dir (disk w) = Some dir ->
     let quarantine := "corrupted_data_" ++ strftime_Ymd_HMS now ++ ".json" in
     (backup_writable (disk w) = true ->
      exists fresh dir',
        load_data now w = (inr fresh, snd (load_data now w)) /\
        fresh = initialize_data_structure now /\
        Document.users fresh = [] /\
        Document.invoices fresh = Some [] /\
        backup_dir (disk (snd (load_data now w))) = Some dir' /\
        PyDict.get quarantine dir' = Some f /\
        (forall name, name <> quarantine ->
                      PyDict.get name dir' = PyDict.get name dir) /\
        log (snd (load_data now w)) =
        (log w ++ [(ERROR, JSONError JSONDecodeError);
                   (WARNING, CorruptedSaved quarantine)])%list) /\
     (backup_writable (disk w) = false ->
      fst (load_data now w) = inr (initialize_data_structure now) /\
      backup_dir (disk (snd (load_data now w))) = Some dir /\
      log (snd (load_data now w)) =
      (log w ++ [(ERROR, JSONError JSONDecodeError);
                 (ERROR, CorruptedSaveFailed
                           (PermissionError (BACKUP quarantine)))])%list)) /\
  (forall f,
     data_file (disk w) = Some f ->
     data_readable (disk w) = false ->
     fst (load_data now w) = inr (initialize_data_structure now) /\
     backup_dir (disk (snd (load_data now w))) = backup_dir (disk w) /\
     log (snd (load_data now w)) =
     (log w ++ [(ERROR, LoadError (PermissionError DATA_FILE))])%list).
Proof.
  split; [apply never_raises_load_data|].
  split; [apply (keeps_load_data _ outside_backups outside_backups_log
                   outside_backups_backup_dir)|].
  split.
  - intros f dir F R P D quarantine. split; intro W.
    + rewrite (load_data_not_json now w f dir F R P D W).
      exists (initialize_data_structure now), (PyDict.set quarantine f dir).
      repeat split.
      * apply PyDictFacts.get_set_same.
      * intros name N. apply PyDictFacts.get_set_other. congruence.
    + rewrite (load_data_copy_refused now w f dir F R P D W). simpl. auto.
  - intros f F R. rewrite (load_data_unreadable now w f F R). simpl. auto.
Qed.

End Loading.

(** C4, as stated, fails where the data file exists and may not be opened:
    the caller receives a fresh document and the backup directory is as
    empty as before. *)
Lemma load_data_unreadable_not_quarantined :
  fst (load_data (J := Sample.toy_json) Sample.march Sample.unreadable_world)
  = inr (initialize_data_structure Sample.march) /\
  backup_dir (disk (snd (load_data (J := Sample.toy_json) Sample.march
                           Sample.unreadable_world)))
  = Some [].
Proof. split; reflexivity. Qed.

Example load_data_truncated :
  backup_dir (disk (snd (load_data (J := Sample.toy_json) Sample.march
                           Sample.truncated_world)))
  = Some [("corrupted_data_20240305_093000.json", mkFile "" 1709000000)].
Proof. reflexivity. Qed.

(** ** The retention sweep *)

Lemma keys_remove (V : Type) (name : string) (d : PyDict.dict V) :
  PyDict.keys (PyDict.remove name d)
  = filter (fun k => negb (String.eqb name k)) (PyDict.keys d).
Proof.
  unfold PyDict.keys, PyDict.remove.
  induction d as [|[k v] d IH]; simpl; [reflexivity|].
  destruct (String.eqb name k); simpl; now rewrite IH.
Qed.

Lemma get_remove_other (V : Type) (name k : string) (d : PyDict.dict V) :
  name <> k -> PyDict.get k (PyDict.remove name d) = PyDict.get k d.
Proof.
  intro N. unfold PyDict.remove. induction d as [|[k' v] d IH]; simpl; [reflexivity|].
  destruct (String.eqb name k') eqn:E; simpl.
  - apply String.eqb_eq in E. subst k'.
    destruct (String.eqb k name) eqn:E'; [apply String.eqb_eq in E'; congruence|].
    exact IH.
  - now rewrite IH.
Qed.

Lemma In_keys_remove_all (names : list string) (dir : PyDict.dict File) (k : string) :
  In k (PyDict.keys (remove_all names dir)) <->
  In k (PyDict.keys dir) /\ ~ In k names.
Proof.
  unfold remove_all. revert dir.
  induction names as [|n names IH]; intro dir; simpl; [tauto|].
  rewrite IH, keys_remove, filter_In, negb_true_iff, String.eqb_neq.
  intuition congruence.
Qed.

Lemma ok_remove_all (names : list string) (dir : PyDict.dict File) :
  PyDict.ok dir -> PyDict.ok (remove_all names dir).
Proof.
  unfold remove_all, PyDict.ok. revert dir.
  induction names as [|n names IH]; intros dir O; simpl; [exact O|].
  apply IH. rewrite keys_remove. now apply NoDup_filter.
Qed.

Lemma get_remove_all (names : list string) (dir : PyDict.dict File) (k : string) :
  ~ In k names -> PyDict.get k (remove_all names dir) = PyDict.get k dir.
Proof.
  unfold remove_all. revert dir.
  induction names as [|n names IH]; intros dir N; simpl; [reflexivity|].
  rewrite IH by (intro; apply N; now right).
  apply get_remove_other. intro; apply N; now left.
Qed.

Lemma get_remove_all_gone (names : list string) (dir : PyDict.dict File) (k : string) :
  In k names -> PyDict.get k (remove_all names dir) = None.
Proof.
  intro I. apply PyDictFacts.get_None. rewrite In_keys_remove_all. tauto.
Qed.

(** The names of [oldest_first] are the backups of the directory. *)
Lemma oldest_first_names (dir : PyDict.dict File) :
  Permutation (map fst (oldest_first dir))
              (filter is_backup_name (PyDict.keys dir)).
Proof.
  unfold oldest_first, sort_asc.
  rewrite (Permutation_map fst (sort_by_perm _ _ snd Z.ltb _)).
  rewrite map_map. simpl. now rewrite map_id.
Qed.

Lemma oldest_first_sorted (dir : PyDict.dict File) :
  StronglySorted (fun a b => (snd a <= snd b)%Z) (oldest_first dir).
Proof.
  assert (S : StronglySorted (key_le snd Z.ltb) (oldest_first dir)).
  { apply sort_by_sorted.
    - intros a b H. apply Z.ltb_lt in H. apply Z.ltb_ge. lia.
    - intros a b c H1 H2. apply Z.ltb_ge in H1, H2. apply Z.ltb_ge. lia. }
  induction S as [|a l S IH F]; constructor; [exact IH|].
  eapply Forall_impl; [|exact F]. intros b H. now apply Z.ltb_ge in H.
Qed.

Lemma oldest_first_stamp (dir : PyDict.dict File) (p : string * Z) :
  In p (oldest_first dir) -> snd p = mtime_in dir (fst p).
Proof.
  intro I. apply sort_by_In in I. apply in_map_iff in I.
  destruct I as (n & <- & _). reflexivity.
Qed.

Lemma StronglySorted_app (A : Type) (R : A -> A -> Prop) (l1 l2 : list A) :
  StronglySorted R (l1 ++ l2) ->
  forall a b, In a l1 -> In b l2 -> R a b.
Proof.
  induction l1 as [|x l1 IH]; simpl; intros S a b Ia Ib; [contradiction|].
  apply StronglySorted_inv in S. destruct S as [S F].
  destruct Ia as [->|Ia]; [|now apply IH].
  rewrite Forall_forall in F. apply F, in_or_app. now right.
Qed.

Lemma NoDup_split (A : Type) (n : nat) (l : list A) (x : A) :
  NoDup l -> In x l -> (In x (skipn n l) <-> ~ In x (firstn n l)).
Proof.
  intros N I. rewrite <- (firstn_skipn n l) in N, I.
  apply in_app_or in I. split.
  - intros Hs Hf. revert N Hs Hf. generalize (firstn n l), (skipn n l).
    induction l0 as [|y l0 IH]; simpl; intros l1 N Hs Hf; [contradiction|].
    inversion N as [|? ? NI N']; subst. destruct Hf as [->|Hf].
    + apply NI, in_or_app. now right.
    + now apply (IH l1).
  - tauto.
Qed.

Section Sweep.
Context {J : Json}.

Lemma getmtime_run (w : World) (dir : PyDict.dict File) (name : string) :
  backup_dir (disk w) = Some dir ->
  In name (PyDict.keys dir) ->
  getmtime name w = (inr (mtime_in dir name), w).
Proof.
  intros D I. unfold getmtime, bind, get_disk, mtime_in. simpl. rewrite D.
  destruct (PyDict.get name dir) eqn:G; [reflexivity|].
  apply PyDictFacts.get_None in G. contradiction.
Qed.

Lemma map_M_getmtime (w : World) (dir : PyDict.dict File) (names : list string) :
  backup_dir (disk w) = Some dir ->
  (forall name, In name names -> In name (PyDict.keys dir)) ->
  map_M getmtime names w = (inr (map (mtime_in dir) names), w).
Proof.
  intros D. induction names as [|n names IH]; intro I; simpl; [reflexivity|].
  rewrite (bind_inr _ _ _ _ _ _ _ (getmtime_run w dir n D (I n (or_introl eq_refl)))).
  rewrite (bind_inr _ _ _ _ _ _ _ (IH (fun x H => I x (or_intror H)))).
  reflexivity.
Qed.

Lemma os_remove_run (w : World) (dir : PyDict.dict File) (name : string) :
  backup_dir (disk w) = Some dir ->
  backup_writable (disk w) = true ->
  In name (PyDict.keys dir) ->
  os_remove name w = (inr tt, with_backup_dir (Some (PyDict.remove name dir)) w).
Proof.
  intros D W I. apply PyDictFacts.mem_true in I.
  unfold os_remove, bind, get_disk, put_disk. simpl. rewrite D, I, W. simpl.
  unfold with_backup_dir. now rewrite W.
Qed.

(** The loop of the sweep, over names of the directory listed once each. *)
Lemma for_each_remove (names : list string) (w : World) (dir : PyDict.dict File) :
  backup_dir (disk w) = Some dir ->
  backup_writable (disk w) = true ->
  NoDup names ->
  (forall name, In name names -> In name (PyDict.keys dir)) ->
  exists w',
    for_each (fun old_file => os_remove old_file ;;
                              logger INFO (OldBackupDeleted old_file))
             names w = (inr tt, w') /\
    backup_dir (disk w') = Some (remove_all names dir) /\
    outside_backups w' = outside_backups w /\
    log w' = (log w ++ map (fun name => (INFO, OldBackupDeleted name)) names)%list.
Proof.
  revert w dir. induction names as [|n names IH]; intros w dir D W N I.
  - exists w. simpl. rewrite app_nil_r. auto.
  - inversion N as [|? ? NI N']; subst.
    simpl. rewrite (bind_inr _ _ _ _ _ _ tt
                      (bind_inr _ _ _ _ _ _ tt
                         (os_remove_run w dir n D W (I n (or_introl eq_refl))))).
    unfold logger at 1.
    set (w1 := mkWorld _ _ _).
    destruct (IH w1 (PyDict.remove n dir)) as (w' & R & D' & O & L); auto.
    + intros x Hx. rewrite keys_remove. apply filter_In. split.
      * apply I. now right.
      * apply negb_true_iff, String.eqb_neq. intros <-. contradiction.
    + exists w'. split; [exact R|]. split; [exact D'|]. split; [exact O|].
      rewrite L. subst w1. simpl. now rewrite <- app_assoc.
Qed.

(** The sweep on a directory that can be listed and written to. *)
Lemma cleanup_run (keep_last : Z) (w : World) (dir : PyDict.dict File) :
  backup_dir (disk w) = Some dir ->
  backup_writable (disk w) = true ->
  PyDict.ok dir ->
  exists w',
    cleanup_old_backups keep_last w = (inr tt, w') /\
    backup_dir (disk w') = Some (remove_all (doomed keep_last dir) dir) /\
    outside_backups w' = outside_backups w /\
    log w' = (log w ++ map (fun name => (INFO, OldBackupDeleted name))
                           (doomed keep_last dir))%list.
Proof.
  intros D W O. unfold cleanup_old_backups, try_except, doomed.
  assert (L0 : listdir_backup_dir w = (inr (PyDict.keys dir), w))
    by (rewrite listdir_run; now rewrite D).
  rewrite (bind_inr _ _ _ _ _ _ _ L0).
  set (files := filter is_backup_name (PyDict.keys dir)).
  destruct (keep_last <? Z.of_nat (List.length files))%Z.
  - assert (Sub : forall name, In name files -> In name (PyDict.keys dir))
      by (intros name H; apply filter_In in H; tauto).
    rewrite (bind_inr _ _ _ _ _ _ _ (map_M_getmtime w dir files D Sub)).
    assert (C : combine files (map (mtime_in dir) files)
                = map (fun name => (name, mtime_in dir name)) files)
      by (clear; induction files as [|x l IH]; simpl; [reflexivity | now rewrite IH]).
    rewrite C. fold (oldest_first dir).
    destruct (for_each_remove (slice_to (- keep_last) (map fst (oldest_first dir)))
                w dir D W) as (w' & R & D' & O' & L).
    + assert (N : NoDup (map fst (oldest_first dir))).
      { eapply Permutation_NoDup; [symmetry; apply oldest_first_names|].
        now apply NoDup_filter. }
      unfold slice_to. destruct (0 <=? - keep_last)%Z;
        match goal with |- NoDup (firstn ?k ?l) =>
          rewrite <- (firstn_skipn k l) in N; exact (NoDup_app_remove_r _ _ N)
        end.
    + intros name H. apply In_slice_to in H.
      apply (Permutation_in _ (oldest_first_names dir)) in H.
      apply filter_In in H. tauto.
    + exists w'. unfold oldest_first in R. fold files in R. rewrite R. auto.
  - exists w. simpl. rewrite app_nil_r. auto.
Qed.

End Sweep.

Lemma doomed_10 (dir : PyDict.dict File) :
  doomed 10 dir =
  firstn (List.length (map fst (oldest_first dir)) - 10)
         (map fst (oldest_first dir)).
Proof.
  unfold doomed.
  rewrite <- (Permutation_length (oldest_first_names dir)).
  destruct (10 <? _)%Z eqn:E; [reflexivity|].
  apply Z.ltb_ge in E.
  replace (List.length (map fst (oldest_first dir)) - 10)%nat with 0%nat by lia.
  reflexivity.
Qed.

(** The backups that stay are the last ones of [oldest_first]. *)
Lemma kept_after_sweep (dir : PyDict.dict File) (name : string) :
  PyDict.ok dir ->
  (In name (PyDict.keys (remove_all (doomed 10 dir) dir)) /\
   is_backup_name name = true
   <-> In name (skipn (List.length (map fst (oldest_first dir)) - 10)
                      (map fst (oldest_first dir)))).
Proof.
  intro O. rewrite In_keys_remove_all, doomed_10.
  set (sorted := map fst (oldest_first dir)).
  set (k := (List.length sorted - 10)%nat).
  assert (N : NoDup sorted).
  { eapply Permutation_NoDup; [symmetry; apply oldest_first_names|].
    now apply NoDup_filter. }
  assert (P : forall x, In x sorted <->
                        In x (PyDict.keys dir) /\ is_backup_name x = true).
  { intro x. rewrite <- filter_In. split; apply Permutation_in;
      [|symmetry]; apply oldest_first_names. }
  split.
  - intros [[I NI] B]. apply NoDup_split; auto. apply P. tauto.
  - intro I. assert (S : In name sorted).
    { rewrite <- (firstn_skipn k sorted). apply in_or_app. now right. }
    apply (NoDup_split _ k sorted name N S) in I. apply P in S. tauto.
Qed.

(** A removed backup was modified no later than a backup that stays. *)
Lemma doomed_older (dir : PyDict.dict File) (removed kept : string) :
  In removed (doomed 10 dir) ->
  In kept (skipn (List.length (map fst (oldest_first dir)) - 10)
                 (map fst (oldest_first dir))) ->
  (mtime_in dir removed <= mtime_in dir kept)%Z.
Proof.
  rewrite doomed_10, length_map.
  set (k := (List.length (oldest_first dir) - 10)%nat).
  rewrite firstn_map, skipn_map. intros Dr Sk.
  apply in_map_iff in Dr. destruct Dr as (pr & <- & Ir).
  apply in_map_iff in Sk. destruct Sk as (pk & <- & Ik).
  assert (Sr : In pr (oldest_first dir))
    by (rewrite <- (firstn_skipn k (oldest_first dir)); apply in_or_app; now left).
  assert (Sk : In pk (oldest_first dir))
    by (rewrite <- (firstn_skipn k (oldest_first dir)); apply in_or_app; now right).
  rewrite <- (oldest_first_stamp dir pr Sr), <- (oldest_first_stamp dir pk Sk).
  assert (S := oldest_first_sorted dir).
  rewrite <- (firstn_skipn k (oldest_first dir)) in S.
  exact (StronglySorted_app _ _ _ _ S pr pk Ir Ik).
Qed.

(** C9: on a backup directory that can be listed and written to, the sweep
    leaves min(n, 10) files whose names start with water_bill_backup_ and
    end with .json, n being their number before; no file is created or
    changed, a file that does not match the pattern stays, every removed
    file was modified no later than every matching file that stays; a
    quarantine name, corrupted_data_ + timestamp + .json, does not match the
    pattern. *)
Theorem cleanup_keeps_newest (w : World) (dir : PyDict.dict File) :
  backup_dir (disk w) = Some dir ->
  backup_writable (disk w) = true ->
  PyDict.ok dir ->
  exists dir',
    fst (cleanup_old_backups 10 w) = inr tt /\
    backup_dir (disk (snd (cleanup_old_backups 10 w))) = Some dir' /\
    List.length (filter is_backup_name (PyDict.keys dir'))
    = Nat.min (List.length (filter is_backup_name (PyDict.keys dir))) 10 /\
    (forall name f, PyDict.get name dir' = Some f -> PyDict.get name dir = Some f) /\
    (forall name, is_backup_name name = false ->
                  PyDict.get name dir' = PyDict.get name dir) /\
    (forall removed kept,
       In removed (PyDict.keys dir) -> ~ In removed (PyDict.keys dir') ->
       In kept (PyDict.keys dir') -> is_backup_name kept = true ->
       (mtime_in dir removed <= mtime_in dir kept)%Z) /\
    (forall now, is_backup_name (corrupted_name now) = false).
Proof.
  intros D W O.
  destruct (cleanup_run 10 w dir D W O) as (w' & R & D' & _ & _).
  exists (remove_all (doomed 10 dir) dir). rewrite R. simpl.
  split; [reflexivity|]. split; [exact D'|].
  set (sorted := map fst (oldest_first dir)).
  set (k := (List.length sorted - 10)%nat).
  assert (In_doomed : forall name,
             In name (PyDict.keys dir) -> is_backup_name name = true ->
             ~ In name (doomed 10 dir) ->
             In name (skipn k sorted)).
  { intros name I B N. apply kept_after_sweep; auto.
    rewrite In_keys_remove_all. tauto. }
  split; [|split; [|split; [|split]]].
  - assert (P : Permutation
                  (filter is_backup_name
                          (PyDict.keys (remove_all (doomed 10 dir) dir)))
                  (skipn k sorted)).
    { apply NoDup_Permutation.
      - apply NoDup_filter. now apply ok_remove_all.
      - assert (N : NoDup sorted).
        { eapply Permutation_NoDup; [symmetry; apply oldest_first_names|].
          now apply NoDup_filter. }
        rewrite <- (firstn_skipn k sorted) in N. exact (NoDup_app_remove_l _ _ N).
      - intro x. rewrite filter_In. now apply kept_after_sweep. }
    rewrite (Permutation_length P), length_skipn. subst k sorted.
    rewrite (Permutation_length (oldest_first_names dir)). lia.
  - intros name f G.
    destruct (in_dec string_dec name (doomed 10 dir)) as [I|I].
    + rewrite get_remove_all_gone in G by assumption. discriminate.
    + now rewrite get_remove_all in G.
  - intros name B. apply get_remove_all. intro I.
    rewrite doomed_10 in I. fold sorted in I. fold k in I.
    assert (S : In name sorted)
      by (rewrite <- (firstn_skipn k sorted); apply in_or_app; now left).
    apply (Permutation_in _ (oldest_first_names dir)) in S.
    apply filter_In in S. destruct S as [_ S]. congruence.
  - intros removed kept Ir Nr Ik Bk.
    assert (Dr : In removed (doomed 10 dir)).
    { destruct (in_dec string_dec removed (doomed 10 dir)) as [I|I]; [exact I|].
      exfalso. apply Nr. rewrite In_keys_remove_all. tauto. }
    assert (Sk : In kept (skipn k sorted)) by (apply kept_after_sweep; auto).
    now apply doomed_older.
  - intro now. reflexivity.
Qed.

(** C9, at a directory of twelve backups and one quarantine copy. *)
Lemma cleanup_keeps_newest_witness :
  exists dir',
    backup_dir (disk (snd (cleanup_old_backups 10 Sample.crowded_world)))
    = Some dir' /\
    List.length (filter is_backup_name (PyDict.keys dir')) = 10%nat /\
    PyDict.get "corrupted_data_20240101_101500.json" dir'
    = Some (mkFile "{" 1704104100).
Proof.
  destruct (cleanup_keeps_newest Sample.crowded_world Sample.crowded_dir)
    as (dir' & _ & D & C & _ & Q & _).
  - reflexivity.
  - reflexivity.
  - unfold PyDict.ok. apply (NoDup_count_occ' string_dec). intros x I.
    simpl in I. repeat (destruct I as [<-|I]; [reflexivity|]). contradiction.
  - exists dir'. split; [exact D|]. split; [rewrite C; reflexivity|].
    rewrite Q by reflexivity. reflexivity.
Defined.

Example cleanup_crowded :
  option_map (@PyDict.keys File)
    (backup_dir (disk (snd (cleanup_old_backups 10 Sample.crowded_world))))
  = Some [ "water_bill_backup_auto_20240224_000500.json";
           "corrupted_data_20240101_101500.json";
           "water_bill_backup_manual_20240222_120000.json";
           "water_bill_backup_auto_20240223_000500.json";
           "water_bill_backup_auto_20240225_000500.json";
           "water_bill_backup_auto_20240226_000500.json";
           "water_bill_backup_auto_20240227_000500.json";
           "water_bill_backup_auto_20240228_000500.json";
           "water_bill_backup_auto_20240229_000500.json";
           "water_bill_backup_auto_20240301_000500.json";
           "water_bill_backup_auto_20240302_000500.json" ].
Proof. reflexivity. Qed.

(** ** The automatic backup of the day *)

Lemma prefix_append (s t : string) : String.prefix s (s ++ t) = true.
Proof.
  induction s as [|c s IH]; simpl; [now destruct t|].
  destruct (ascii_dec c c); [exact IH | congruence].
Qed.

Lemma contains_append (sub a b : string) :
  PyStr.contains sub (a ++ sub ++ b) = true.
Proof.
  induction a as [|c a IH].
  - change ("" ++ sub ++ b) with (sub ++ b).
    assert (P := prefix_append sub b).
    destruct (sub ++ b); cbn [PyStr.contains]; now rewrite P.
  - change (String c a ++ sub ++ b) with (String c (a ++ sub ++ b)).
    cbn [PyStr.contains]. rewrite IH. apply orb_true_r.
Qed.

(** The name of an automatic backup carries the stamp of its day. *)
Lemma backup_name_auto (now : Clock) :
  is_auto_backup_of (strftime_Ymd now) (backup_name "auto" now) = true.
Proof.
  unfold is_auto_backup_of. apply andb_true_iff. split; [reflexivity|].
  unfold backup_name, strftime_Ymd_HMS.
  change ("water_bill_backup_" ++ "auto" ++ "_" ++
          (strftime_Ymd now ++ "_" ++ strftime_HMS now) ++ ".json")
    with ("water_bill_backup_auto_" ++
          ((strftime_Ymd now ++ "_" ++ strftime_HMS now) ++ ".json")).
  rewrite append_assoc. apply contains_append.
Qed.

Lemma backup_exists_test (today : string) (names : list string) :
  existsb (PyStr.contains today)
          (filter (fun f => PyStr.startswith f "water_bill_backup_auto_") names)
  = existsb (is_auto_backup_of today) names.
Proof.
  unfold is_auto_backup_of. induction names as [|n names IH]; simpl; [reflexivity|].
  destruct (PyStr.startswith n "water_bill_backup_auto_"); simpl; now rewrite IH.
Qed.

Lemma auto_backups_created_app (l l' : list (level * event)) :
  auto_backups_created (l ++ l')
  = (auto_backups_created l + auto_backups_created l')%nat.
Proof.
  unfold auto_backups_created. now rewrite filter_app, length_app.
Qed.

Lemma no_backup_in_deletions (names : list string) :
  auto_backups_created (map (fun name => (INFO, OldBackupDeleted name)) names)
  = 0%nat.
Proof. induction names; simpl; auto. Qed.

(** The new backup of an instant later than every file of the directory
    is not among the files the sweep removes. *)
Lemma new_backup_survives (dir : PyDict.dict File) (name s : string) (t : Z) :
  PyDict.ok dir ->
  is_backup_name name = true ->
  (forall other f, PyDict.get other dir = Some f -> (mtime f < t)%Z) ->
  ~ In name (doomed 10 (PyDict.set name (mkFile s t) dir)).
Proof.
  intros O B Old Dm.
  set (dir' := PyDict.set name (mkFile s t) dir) in *.
  set (sorted := map fst (oldest_first dir')).
  set (k := (List.length sorted - 10)%nat).
  assert (O' : PyDict.ok dir') by now apply PyDictFacts.ok_set.
  assert (N : NoDup sorted).
  { eapply Permutation_NoDup; [symmetry; apply oldest_first_names|].
    now apply NoDup_filter. }
  assert (Dm' := Dm). rewrite doomed_10 in Dm'. fold sorted in Dm'. fold k in Dm'.
  assert (K : (0 < k)%nat) by (destruct k; [contradiction | lia]).
  destruct (skipn k sorted) as [|kept rest] eqn:E.
  - assert (L := length_skipn k sorted). rewrite E in L. simpl in L. lia.
  - assert (Sk : In kept (skipn k sorted)) by (rewrite E; now left).
    assert (Le := doomed_older dir' name kept Dm Sk).
    assert (S : In kept sorted)
      by (rewrite <- (firstn_skipn k sorted); apply in_or_app; now right).
    assert (D : kept <> name).
    { intros ->. apply (NoDup_split _ k sorted name N S) in Sk. contradiction. }
    apply (Permutation_in _ (oldest_first_names dir')) in S.
    apply filter_In in S. destruct S as [S _].
    apply PyDictFacts.mem_true in S. unfold PyDict.mem in S.
    unfold mtime_in in Le. subst dir'.
    rewrite PyDictFacts.get_set_same in Le.
    rewrite PyDictFacts.get_set_other in Le, S by congruence.
    destruct (PyDict.get kept dir) as [f|] eqn:G; [|discriminate].
    specialize (Old kept f G). simpl in Le. lia.
Qed.

Section AutoBackup.
Context {J : Json}.

Lemma put_backup_run (w : World) (dir : PyDict.dict File) (name : string) (f : File) :
  backup_dir (disk w) = Some dir ->
  put_backup name f w =
  if backup_writable (disk w)
  then (inr tt, with_backup_dir (Some (PyDict.set name f dir)) w)
  else (inl (PermissionError (BACKUP name)), w).
Proof.
  intro D. unfold put_backup, bind, get_disk, put_disk, with_backup_dir. simpl.
  rewrite D. now destruct (backup_writable (disk w)) eqn:W.
Qed.

(** A backup that can be written, followed by its sweep. *)
Lemma create_backup_written (backup_type : string) (now : Clock) (w : World)
  (dir : PyDict.dict File) :
  backup_dir (disk w) = Some dir ->
  backup_writable (disk w) = true ->
  PyDict.ok dir ->
  let name := backup_name backup_type now in
  let dir1 := PyDict.set name (mkFile (json_dump (data w)) (ticks now)) dir in
  exists w',
    create_backup backup_type now w = (inr (Some name), w') /\
    backup_dir (disk w') = Some (remove_all (doomed 10 dir1) dir1) /\
    outside_backups w' = outside_backups w /\
    log w' = (log w ++ (INFO, BackupCreated name)
                    :: map (fun old => (INFO, OldBackupDeleted old))
                           (doomed 10 dir1))%list.
Proof.
  intros D W O name dir1.
  assert (P := put_backup_run w dir name (mkFile (json_dump (data w)) (ticks now)) D).
  rewrite W in P. fold dir1 in P.
  set (wa := with_backup_dir (Some dir1) w) in P.
  set (wb := with_log (log wa ++ [(INFO, BackupCreated name)]) wa).
  destruct (cleanup_run 10 wb dir1) as (w' & R & D' & O' & L);
    [reflexivity | exact W | now apply PyDictFacts.ok_set |].
  exists w'. split; [|split; [exact D' | split; [exact O'|]]].
  - unfold create_backup, try_except, write_backup. fold name.
    unfold bind at 1. unfold get_data at 1.
    rewrite (bind_inr _ _ _ _ _ _ _ P).
    unfold bind at 1. unfold logger at 1.
    fold (with_log (log wa ++ [(INFO, BackupCreated name)]) wa).
    fold wb. now rewrite (bind_inr _ _ _ _ _ _ _ R).
  - rewrite L. subst wb wa. simpl. now rewrite <- app_assoc.
Qed.

Lemma create_backup_refused (backup_type : string) (now : Clock) (w : World)
  (dir : PyDict.dict File) :
  backup_dir (disk w) = Some dir ->
  backup_writable (disk w) = false ->
  create_backup backup_type now w =
  (inr None,
   with_log (log w ++ [(ERROR, BackupFailed
                                 (PermissionError (BACKUP (backup_name backup_type now))))])
            w).
Proof.
  intros D W.
  assert (P := put_backup_run w dir (backup_name backup_type now)
                 (mkFile (json_dump (data w)) (ticks now)) D).
  rewrite W in P.
  unfold create_backup, try_except, write_backup.
  unfold bind at 1. unfold get_data at 1.
  now rewrite (bind_inl _ _ _ _ _ _ _ P).
Qed.

(** The test of [create_auto_backup], and what follows from it. *)
Lemma create_auto_backup_run (now : Clock) (w : World) (dir : PyDict.dict File) :
  backup_dir (disk w) = Some dir ->
  create_auto_backup now w =
  if existsb (is_auto_backup_of (strftime_Ymd now)) (PyDict.keys dir)
  then (inr tt, w)
  else (inr tt, snd (create_backup "auto" now w)).
Proof.
  intro D. unfold create_auto_backup.
  assert (L : listdir_backup_dir w = (inr (PyDict.keys dir), w))
    by (rewrite listdir_run; now rewrite D).
  rewrite (bind_inr _ _ _ _ _ _ _ L), backup_exists_test.
  destruct (existsb _ _); simpl; [reflexivity|].
  destruct (never_raises_create_backup "auto" now w) as [a Ha].
  unfold bind. destruct (create_backup "auto" now w) as [[e|a'] w1]; [discriminate|].
  reflexivity.
Qed.

End AutoBackup.

Ltac count_log :=
  rewrite ?auto_backups_created_app; unfold auto_backups_created; simpl;
  try lia.

Section OncePerDay.
Context {J : Json}.

(** After [save_data], the backup directory and the backups reported are
    those its automatic backup left. *)
Lemma save_data_after_backup (now : Clock) (w : World) (dir : PyDict.dict File) :
  backup_dir (disk w) = Some dir ->
  exists w1,
    create_auto_backup now w = (inr tt, w1) /\
    outside_backups w1 = outside_backups w /\
    backup_dir (disk (snd (save_data now w))) = backup_dir (disk w1) /\
    backup_writable (disk (snd (save_data now w))) = backup_writable (disk w) /\
    auto_backups_created (log (snd (save_data now w)))
    = auto_backups_created (log w1).
Proof.
  intro D. assert (R := save_data_result now w). rewrite D in R.
  destruct R as (w1 & R1 & O & R). exists w1.
  split; [exact R1|]. split; [exact O|]. rewrite R.
  assert (W : backup_writable (disk w1) = backup_writable (disk w))
    by (unfold outside_backups in O; congruence).
  destruct (data_writable (disk w)); simpl; repeat split; auto; count_log.
Qed.

Lemma saves_without_directory (steps : list (Clock * Document.t)) (w : World) :
  backup_dir (disk w) = None ->
  auto_backups_created (log (saves steps w)) = auto_backups_created (log w).
Proof.
  revert w. induction steps as [|[now d] steps IH]; intros w D; [reflexivity|].
  simpl. assert (R := save_data_result now (with_data d w)).
  simpl in R. rewrite D in R. rewrite R. simpl.
  rewrite IH by exact D. simpl. count_log.
Qed.

Lemma saves_read_only_directory (steps : list (Clock * Document.t)) (w : World)
  (dir : PyDict.dict File) :
  backup_dir (disk w) = Some dir ->
  backup_writable (disk w) = false ->
  auto_backups_created (log (saves steps w)) = auto_backups_created (log w).
Proof.
  revert w. induction steps as [|[now d] steps IH]; intros w D W; [reflexivity|].
  simpl.
  destruct (save_data_after_backup now (with_data d w) dir D)
    as (w1 & R1 & _ & D' & W' & C).
  rewrite (create_auto_backup_run now (with_data d w) dir D) in R1.
  assert (E : backup_dir (disk w1) = Some dir /\
              auto_backups_created (log w1) = auto_backups_created (log w)).
  { destruct (existsb _ _).
    - injection R1 as <-. auto.
    - rewrite (create_backup_refused "auto" now (with_data d w) dir D W) in R1.
      injection R1 as <-. simpl. split; [exact D | count_log]. }
  destruct E as [E1 E2].
  rewrite IH; [congruence | congruence | now rewrite W'].
Qed.

(** Once a backup of the day is there, saves of that day create none. *)
Lemma saves_with_backup_of_today (today : string)
  (steps : list (Clock * Document.t)) (w : World) (dir : PyDict.dict File) :
  backup_dir (disk w) = Some dir ->
  existsb (is_auto_backup_of today) (PyDict.keys dir) = true ->
  Forall (fun step => strftime_Ymd (fst step) = today) steps ->
  auto_backups_created (log (saves steps w)) = auto_backups_created (log w).
Proof.
  revert w. induction steps as [|[now d] steps IH]; intros w D H F; [reflexivity|].
  assert (T := Forall_inv F). assert (F' := Forall_inv_tail F).
  simpl in T. simpl.
  destruct (save_data_after_backup now (with_data d w) dir D)
    as (w1 & R1 & _ & D' & _ & C).
  rewrite (create_auto_backup_run now (with_data d w) dir D), T, H in R1.
  injection R1 as <-.
  rewrite IH; [exact C | now rewrite D' | exact H | exact F'].
Qed.

(** The first save of a day on a writable directory creates the backup of
    the day, which the sweep that follows leaves in place. *)
Lemma first_save_of_today (now : Clock) (w : World) (dir : PyDict.dict File) :
  backup_dir (disk w) = Some dir ->
  backup_writable (disk w) = true ->
  PyDict.ok dir ->
  existsb (is_auto_backup_of (strftime_Ymd now)) (PyDict.keys dir) = false ->
  (forall name f, PyDict.get name dir = Some f -> (mtime f < ticks now)%Z) ->
  exists w1 dir1,
    create_auto_backup now w = (inr tt, w1) /\
    outside_backups w1 = outside_backups w /\
    backup_dir (disk w1) = Some dir1 /\
    PyDict.get (backup_name "auto" now) dir1
    = Some (mkFile (json_dump (data w)) (ticks now)) /\
    existsb (is_auto_backup_of (strftime_Ymd now)) (PyDict.keys dir1) = true /\
    auto_backups_created (log w1) = S (auto_backups_created (log w)).
Proof.
  intros D W O H Old.
  destruct (create_backup_written "auto" now w dir D W O) as (w1 & R & D1 & O1 & L).
  set (name := backup_name "auto" now) in *.
  set (f := mkFile (json_dump (data w)) (ticks now)) in *.
  assert (B : is_backup_name name = true) by reflexivity.
  assert (Sv : ~ In name (doomed 10 (PyDict.set name f dir)))
    by (apply new_backup_survives; auto).
  exists w1, (remove_all (doomed 10 (PyDict.set name f dir)) (PyDict.set name f dir)).
  split; [|split; [exact O1 | split; [exact D1 | split; [|split]]]].
  - rewrite (create_auto_backup_run now w dir D), H, R. reflexivity.
  - rewrite get_remove_all by exact Sv. apply PyDictFacts.get_set_same.
  - apply existsb_exists. exists name. split; [|apply backup_name_auto].
    apply In_keys_remove_all. split; [apply PyDictFacts.In_keys_set | exact Sv].
  - rewrite L, auto_backups_created_app.
    change (auto_backups_created ((INFO, BackupCreated name) :: ?l))
      with (S (auto_backups_created l)).
    unfold auto_backups_created at 2. simpl.
    fold (auto_backups_created
            (map (fun old => (INFO, OldBackupDeleted old))
                 (doomed 10 (PyDict.set name f dir)))).
    rewrite no_backup_in_deletions. lia.
Qed.

(** C8, as the code has it: over saves alone of one calendar day, on a
    backup directory whose files are older than the saves, at most one
    automatic backup is created, however many the saves; a save whose
    directory already lists a name that starts with water_bill_backup_auto_
    and contains the YYYYMMDD stamp of the day creates none and leaves the
    directory as it is; otherwise, on a writable directory, the document is
    written to water_bill_backup_auto_<stamp>.json before the data file is
    written, and on a directory that refuses the write the failure is
    logged and nothing else happens. *)
Theorem auto_backup_once_a_day (w : World) (dir : PyDict.dict File)
  (today : string) (steps : list (Clock * Document.t)) :
  backup_dir (disk w) = Some dir ->
  PyDict.ok dir ->
  Forall (fun step =>
            strftime_Ymd (fst step) = today /\
            forall name f, PyDict.get name dir = Some f ->
                           (mtime f < ticks (fst step))%Z)
         steps ->
  (auto_backups_created (log (saves steps w))
   <= auto_backups_created (log w) + 1)%nat /\
  (forall now d,
     In (now, d) steps ->
     (existsb (is_auto_backup_of today) (PyDict.keys dir) = true ->
      create_auto_backup now (with_data d w) = (inr tt, with_data d w)) /\
     (existsb (is_auto_backup_of today) (PyDict.keys dir) = false ->
      backup_writable (disk w) = true ->
      exists w1 dir1,
        create_auto_backup now (with_data d w) = (inr tt, w1) /\
        backup_dir (disk w1) = Some dir1 /\
        PyDict.get ("water_bill_backup_auto_" ++ today ++ "_"
                    ++ strftime_HMS now ++ ".json") dir1
        = Some (mkFile (json_dump d) (ticks now)) /\
        data_file (disk w1) = data_file (disk w) /\
        (data_writable (disk w) = true ->
         save_data now (with_data d w) =
         (inr tt,
          with_log (log w1 ++ [(INFO, DataSaved)])
            (with_data_file (mkFile (json_dump d) (ticks now)) w1)))) /\
     (existsb (is_auto_backup_of today) (PyDict.keys dir) = false ->
      backup_writable (disk w) = false ->
      exists e,
        create_auto_backup now (with_data d w)
        = (inr tt, with_log (log w ++ [(ERROR, BackupFailed e)]) (with_data d w)))).
Proof.
  intros D O F. split.
  - destruct (existsb (is_auto_backup_of today) (PyDict.keys dir)) eqn:H.
    + rewrite (saves_with_backup_of_today today steps w dir D H); [lia|].
      eapply Forall_impl; [|exact F]. intros step [T _]. exact T.
    + destruct (backup_writable (disk w)) eqn:W.
      * destruct steps as [|[now d] rest]; [simpl; lia|].
        destruct (Forall_inv F) as [T Old]. simpl in T, Old.
        assert (F' := Forall_inv_tail F). rewrite <- T in H.
        destruct (first_save_of_today now (with_data d w) dir D W O H Old)
          as (w1 & dir1 & R1 & _ & D1 & _ & H1 & C1).
        destruct (save_data_after_backup now (with_data d w) dir D)
          as (w1' & R1' & _ & D' & _ & C').
        rewrite R1 in R1'. injection R1' as <-.
        simpl. rewrite T in H1.
        rewrite (saves_with_backup_of_today today rest _ dir1).
        -- rewrite C', C1. simpl. lia.
        -- now rewrite D'.
        -- exact H1.
        -- eapply Forall_impl; [|exact F']. intros step [T' _]. exact T'.
      * rewrite (saves_read_only_directory steps w dir D W). lia.
  - intros now d I. rewrite Forall_forall in F.
    destruct (F _ I) as [T Old]. simpl in T, Old. split; [|split].
    + intro H. rewrite (create_auto_backup_run now (with_data d w) dir D), T, H.
      reflexivity.
    + intros H W. rewrite <- T in H.
      destruct (first_save_of_today now (with_data d w) dir D W O H Old)
        as (w1 & dir1 & R1 & O1 & D1 & G1 & _ & _).
      exists w1, dir1. split; [exact R1|]. split; [exact D1|].
      split; [|split].
      * rewrite <- T. simpl in G1. rewrite <- G1. reflexivity.
      * unfold outside_backups in O1. simpl in O1. congruence.
      * intro Wd. assert (R := save_data_result now (with_data d w)).
        simpl in R. rewrite D in R. destruct R as (w1' & R1' & _ & R).
        rewrite R1 in R1'. injection R1' as <-.
        assert (Dw : data w1 = d)
          by (unfold outside_backups in O1; simpl in O1; congruence).
        rewrite R, Wd, Dw. reflexivity.
    + intros H W. eexists.
      rewrite (create_auto_backup_run now (with_data d w) dir D), T, H.
      rewrite (create_backup_refused "auto" now (with_data d w) dir D W).
      reflexivity.
Qed.

End OncePerDay.

(** C8, at two saves of 5 March 2024 on an empty backup directory. *)
Lemma auto_backup_once_a_day_witness :
  (auto_backups_created
     (log (saves (J := Sample.toy_json)
             [(Sample.march, Sample.ledger); (Sample.march_later, Sample.ledger)]
             Sample.world))
   <= auto_backups_created (log Sample.world) + 1)%nat.
Proof.
  refine (proj1 (auto_backup_once_a_day (J := Sample.toy_json) Sample.world []
                   "20240305"
                   [(Sample.march, Sample.ledger);
                    (Sample.march_later, Sample.ledger)] _ _ _)).
  - reflexivity.
  - constructor.
  - repeat constructor; intros name f G; discriminate G.
Defined.

(** C8 fails in the code, which means to create only one automatic backup
    a day, on a day with ten manual backups between two saves: the sweep
    after the tenth removes the automatic backup of the morning, the
    evening save finds no name with the stamp of the day and creates a
    second one. *)
Lemma auto_backup_twice_a_day :
  Forall (fun now => strftime_Ymd now = "20240305")
         (Sample.march :: Sample.march_later :: Sample.manual_backup_times) /\
  map snd (filter reports_auto_backup (log Sample.busy_day))
  = [ BackupCreated "water_bill_backup_auto_20240305_093000.json";
      BackupCreated "water_bill_backup_auto_20240305_180000.json" ] /\
  auto_backups_created (log Sample.busy_day) = 2%nat.
Proof.
  split; [repeat constructor|]. split; reflexivity.
Qed.

Example two_saves_one_backup :
  map snd (log (saves (J := Sample.toy_json)
                  [(Sample.march, Sample.ledger);
                   (Sample.march_later, Sample.ledger)]
                  Sample.world))
  = [ BackupCreated "water_bill_backup_auto_20240305_093000.json";
      DataSaved; DataSaved ].
Proof. reflexivity. Qed.

(** A reading of 150 after the ledger of the examples: consumption goes
    from 40 to 50, and the reply carries an increase of 25 percent. *)
Example handle_reading_ledger :
  match fst (handle_reading (J := Sample.toy_json) "42" (PyFloat.of_Z 150)
               Sample.march Sample.world) with
  | inr (InvoiceReply message invoice_id) =>
      invoice_id = "42_2024-03" /\
      shown_consumption message = PyFloat.of_Z 50 /\
      shown_total message = PyFloat.of_Z 35250 /\
      option_map trend_text (comparison message)
      = Some "📈 زيادة بنسبة 25.0%"
  | _ => False
  end.
Proof. vm_compute. repeat split. Qed.

(** C7 fails in the code when a stored period is later than the month of
    the reading. The ledger of the examples holds the invoices of January
    and February 2024; a reading of 150 arrives while the clock shows
    January. The invoice made of it replaces the one of January, the listing
    starts with February, and the second entry is the invoice just made:
    the message compares it with itself and says unchanged, while the
    consumptions of the two most recent invoices are 40 and 50, a decrease
    of 20 percent from the older to the newer. *)
Lemma comparison_with_itself :
  exists message invoice_id w' latest prev,
    handle_reading (J := Sample.toy_json) "42" (PyFloat.of_Z 150)
      Sample2.january Sample.world
    = (inr (InvoiceReply message invoice_id), w') /\
    comparison message = Some Unchanged /\
    get_user_invoices (data w') "42" 2 = [latest; prev] /\
    Invoice.year_month latest = "2024-02" /\
    Invoice.consumption latest = PyFloat.of_Z 40 /\
    Invoice.year_month prev = "2024-01" /\
    Invoice.consumption prev = PyFloat.of_Z 50 /\
    classify (percent_change (Invoice.consumption latest)
                             (Invoice.consumption prev))
    = Decrease (PyFloat.of_Z 20).
Proof.
  eexists _, _, _, _, _. split; [vm_compute; reflexivity|].
  split; [reflexivity|]. split; [vm_compute; reflexivity|].
  repeat split; vm_compute; reflexivity.
Qed.

(** ** The invoice shown by [handle_reading] is the latest one *)

Lemma saved_invoice_is_latest (d : Document.t) (invoice : Invoice.t) (now : Clock) :
  invoices_keyed d ->
  (forall other,
     In other (PyDict.values (Document.invoices_or_empty d)) ->
     Invoice.user_id other = Invoice.user_id invoice ->
     String.ltb (Invoice.year_month invoice) (Invoice.year_month other) = false) ->
  exists rest,
    get_user_invoices (recorded invoice now d) (Invoice.user_id invoice) 2
    = invoice :: rest.
Proof.
  intros K Le.
  assert (K' := recorded_keyed invoice now d K). destruct K' as [O' F'].
  unfold get_user_invoices. rewrite slice_to_nonneg by lia.
  set (iv' := Document.invoices_or_empty (recorded invoice now d)) in *.
  set (mine := filter _ (PyDict.values iv')).
  set (sorted := sort_desc Invoice.year_month PyStr.lt mine).
  assert (S : StronglySorted
                (fun a b => String.ltb (Invoice.year_month b)
                                       (Invoice.year_month a) = true) sorted).
  { apply sorted_strict; [|apply sort_desc_sorted].
    eapply Permutation_NoDup.
    - apply Permutation_map. symmetry. apply sort_by_perm.
    - now apply keyed_periods_NoDup. }
  assert (Mine : forall x, In x sorted ->
                           x = invoice \/
                           String.ltb (Invoice.year_month invoice)
                                      (Invoice.year_month x) = false).
  { intros x I. apply sort_by_In in I. apply filter_In in I.
    destruct I as [I U]. apply String.eqb_eq in U.
    apply in_map_iff in I. destruct I as ([k v] & E & I). simpl in E. subst v.
    apply PyDictFacts.In_set in I. destruct I as [[_ ->]|I]; [now left|].
    right. apply Le; [|exact U]. apply in_map_iff. now exists (k, x). }
  assert (I : In invoice sorted).
  { apply sort_by_In. apply filter_In. split; [|apply String.eqb_refl].
    apply in_map_iff.
    exists (invoice_id_of (Invoice.user_id invoice) (Invoice.year_month invoice),
            invoice).
    split; [reflexivity|]. apply PyDictFacts.get_In, PyDictFacts.get_set_same. }
  destruct sorted as [|h t]; [contradiction|].
  assert (h = invoice) as ->.
  { destruct (Mine h (or_introl eq_refl)) as [E|Lh]; [exact E|].
    destruct I as [E|I]; [exact E|].
    apply StronglySorted_inv in S. destruct S as [_ S].
    rewrite Forall_forall in S. rewrite (S invoice I) in Lh. discriminate. }
  exists (firstn 1 t). reflexivity.
Qed.

Section Shown.
Context {J : Json}.

(** When no stored period of the subscriber is later than the month of the
    reading, the message of [handle_reading] compares the invoice just saved
    with the one before it. *)
Lemma handle_reading_compares_latest (w w' : World) (user_id : string)
  (current_reading : PyFloat.t) (now : Clock) (message : Message)
  (invoice_id : string) :
  handle_reading user_id current_reading now w
  = (inr (InvoiceReply message invoice_id), w') ->
  invoices_keyed (data w) ->
  (forall other,
     In other (PyDict.values (Document.invoices_or_empty (data w))) ->
     Invoice.user_id other = user_id ->
     String.ltb (strftime_Y_m now) (Invoice.year_month other) = false) ->
  exists invoice rest,
    calculate_invoice user_id current_reading now w = (inr invoice, w) /\
    message = format_invoice_message (data w') invoice true /\
    get_user_invoices (data w') user_id 2 = invoice :: rest.
Proof.
  intros H K Le. unfold handle_reading, try_except in H.
  destruct (PyFloat.ltb current_reading
                        (or_zero (get_last_reading (data w) user_id)))
    eqn:G.
  - rewrite (bind_inl _ _ _ _ _ _ _ (calculate_invoice_err w user_id _ now G)) in H.
    discriminate.
  - assert (C := calculate_invoice_ok w user_id current_reading now G).
    rewrite (bind_inr _ _ _ _ _ _ _ C) in H.
    set (invoice := Invoice.mk _ _ _ _ _ _ _ _) in *.
    assert (D := save_invoice_data invoice now w).
    unfold bind in H.
    destruct (save_invoice invoice now w) as [[e|id] w1].
    + destruct e; try discriminate;
        unfold logger, ret in H; simpl in H; discriminate.
    + simpl in D. unfold get_data, ret in H. injection H as <- <- <-.
      exists invoice. rewrite D.
      destruct (saved_invoice_is_latest (data w) invoice now K) as [rest R].
      { intros other I U. apply Le; assumption. }
      exists rest. repeat split; auto.
Qed.

End Shown.

(** * Further properties *)

(** ** Subscribers: [get_user], [update_user], [toggle_reminder] *)

Lemma In_values_set (V : Type) (k : string) (v x : V) (d : PyDict.dict V) :
  In x (PyDict.values (PyDict.set k v d)) -> x = v \/ In x (PyDict.values d).
Proof.
  intro I. apply in_map_iff in I. destruct I as ([k' v'] & E & I).
  simpl in E. subst v'. apply PyDictFacts.In_set in I.
  destruct I as [[_ ->]|I]; [now left|right].
  apply in_map_iff. now exists (k', x).
Qed.

Lemma listed_for_reminder (d : Document.t) (user_id : string) :
  PyDict.ok (Document.users d) ->
  (In user_id (map fst (get_all_users_for_reminder d)) <->
   exists u, PyDict.get user_id (Document.users d) = Some u /\
             reminder_flag u = true).
Proof.
  intro O. unfold get_all_users_for_reminder, PyDict.items. split.
  - intro I. apply in_map_iff in I. destruct I as ([k u] & E & I).
    simpl in E. subst k. apply filter_In in I. destruct I as [I F].
    exists u. split; [now apply PyDictFacts.In_get | exact F].
  - intros (u & G & F). apply in_map_iff. exists (user_id, u).
    split; [reflexivity|]. apply filter_In.
    split; [now apply PyDictFacts.get_In | exact F].
Qed.

Section Subscribers.
Context {J : Json}.

(** X1: [get_user] gets or creates. It raises nothing and touches neither
    the files, the log nor the invoices, nor any other subscriber; a known
    subscriber comes back as stored and the world stays as it is; an unknown
    one is stored with the defaults (reminders on, notification at 10:00, no
    reading); asking again returns the same record and changes nothing. *)
Theorem get_user_or_create (user_id : string) (now : Clock) (w : World) :
  exists u w',
    get_user user_id now w = (inr u, w') /\
    disk w' = disk w /\ log w' = log w /\
    Document.invoices (data w') = Document.invoices (data w) /\
    PyDict.get user_id (Document.users (data w')) = Some u /\
    (forall other, other <> user_id ->
       PyDict.get other (Document.users (data w'))
       = PyDict.get other (Document.users (data w))) /\
    (forall known,
       PyDict.get user_id (Document.users (data w)) = Some known ->
       u = known /\ w' = w) /\
    (PyDict.get user_id (Document.users (data w)) = None ->
     User.reminder_enabled u = Some true /\
     User.notification_time u = Some "10:00" /\
     User.created_at u = Some (isoformat now) /\
     User.last_reading u = None /\
     PyDict.keys (Document.users (data w'))
     = (PyDict.keys (Document.users (data w)) ++ [user_id])%list) /\
    (forall later, get_user user_id later w' = (inr u, w')).
Proof.
  rewrite get_user_run.
  destruct (PyDict.get user_id (Document.users (data w))) as [u|] eqn:E.
  - exists u, w. repeat split; auto; try congruence.
    intro later. rewrite get_user_run. now rewrite E.
  - eexists _, _. split; [reflexivity|]. simpl.
    split; [reflexivity|]. split; [reflexivity|]. split; [reflexivity|].
    split; [apply PyDictFacts.get_set_same|].
    split; [intros other N; apply PyDictFacts.get_set_other; congruence|].
    split; [intros known K; discriminate|].
    split.
    + intros _. repeat split.
      rewrite PyDictFacts.keys_set. unfold PyDict.mem. now rewrite E.
    + intro later. rewrite get_user_run. simpl.
      now rewrite PyDictFacts.get_set_same.
Qed.

(** The world [update_user] hands to [save_data]. *)
Lemma update_user_run (user_id : string) (fields : User.t) (now : Clock)
  (w : World) :
  update_user user_id fields now w
  = save_data now (with_data (updated user_id fields now (data w)) w).
Proof.
  unfold update_user.
  assert (G : exists u w1,
             get_user user_id now w = (inr u, w1) /\
             disk w1 = disk w /\ log w1 = log w /\
             PyDict.get user_id (Document.users (data w1))
             = Some (user_or_new user_id now (data w)) /\
             updated user_id fields now (data w1)
             = updated user_id fields now (data w)).
  { rewrite get_user_run. unfold user_or_new, updated.
    destruct (PyDict.get user_id (Document.users (data w))) as [u|] eqn:E.
    - exists u, w. rewrite E. auto.
    - eexists _, _. split; [reflexivity|]. simpl.
      rewrite PyDictFacts.get_set_same, PyDictFacts.set_set. auto. }
  destruct G as (u & w1 & R & D1 & L1 & G1 & U1).
  rewrite (bind_inr _ _ _ _ _ _ _ R).
  rewrite (bind_inr _ _ _ _ _ _ _ (set_user_fields_run _ _ _ _ G1)).
  set (w2 := with_data _ w1).
  assert (G2 : PyDict.get user_id (Document.users (data w2))
               = Some (User.update (user_or_new user_id now (data w)) fields))
    by (subst w2; simpl; apply PyDictFacts.get_set_same).
  rewrite (bind_inr _ _ _ _ _ _ _ (set_user_fields_run _ _ _ _ G2)).
  f_equal. subst w2. unfold with_data. simpl. rewrite D1, L1. f_equal.
  rewrite <- U1. unfold updated. rewrite G1.
  unfold Document.with_users. simpl. now rewrite PyDictFacts.set_set.
Qed.

Lemma update_user_data (user_id : string) (fields : User.t) (now : Clock)
  (w : World) :
  data (snd (update_user user_id fields now w))
  = updated user_id fields now (data w).
Proof. rewrite update_user_run. now rewrite keeps_data_save_data. Qed.

(** X2: [update_user] merges. In the document it leaves in memory the
    subscriber (created first if unknown) has every given field replaced,
    every other field kept, and [last_active] set to the moment of the
    call, given or not; no other subscriber and no invoice changes. The
    call raises exactly when the save cannot go through, and the change in
    memory is made all the same. *)
Theorem update_user_merges (user_id : string) (fields : User.t) (now : Clock)
  (w : World) :
  let before := user_or_new user_id now (data w) in
  let d' := data (snd (update_user user_id fields now w)) in
  (exists u',
     PyDict.get user_id (Document.users d') = Some u' /\
     User.last_active u' = Some (isoformat now) /\
     User.first_name u'
     = User.or_else (User.first_name fields) (User.first_name before) /\
     User.username u'
     = User.or_else (User.username fields) (User.username before) /\
     User.reminder_enabled u'
     = User.or_else (User.reminder_enabled fields)
                    (User.reminder_enabled before) /\
     User.notification_time u'
     = User.or_else (User.notification_time fields)
                    (User.notification_time before) /\
     User.created_at u'
     = User.or_else (User.created_at fields) (User.created_at before) /\
     User.last_reading u'
     = User.or_else (User.last_reading fields) (User.last_reading before) /\
     User.last_invoice_date u'
     = User.or_else (User.last_invoice_date fields)
                    (User.last_invoice_date before)) /\
  (forall other, other <> user_id ->
     PyDict.get other (Document.users d')
     = PyDict.get other (Document.users (data w))) /\
  Document.invoices d' = Document.invoices (data w) /\
  ((exists e w', update_user user_id fields now w = (inl e, w'))
   <-> can_save w = false).
Proof.
  intros before d'. subst d'. rewrite update_user_data.
  split; [|split; [|split]].
  - eexists. split; [apply PyDictFacts.get_set_same|].
    fold (user_or_new user_id now (data w)). fold before.
    simpl. repeat split.
  - intros other N. simpl. apply PyDictFacts.get_set_other. congruence.
  - reflexivity.
  - rewrite update_user_run.
    set (w1 := with_data _ w).
    assert (S := save_data_result now w1).
    unfold can_save. change (disk w1) with (disk w) in S.
    destruct (backup_dir (disk w)) as [dir|].
    + destruct S as (w2 & _ & _ & S). rewrite S.
      destruct (data_writable (disk w)).
      * split; [intros (e & w' & H); discriminate | discriminate].
      * split; [reflexivity | intros _; eexists _, _; reflexivity].
    + rewrite S. split; [reflexivity | intros _; eexists _, _; reflexivity].
Qed.

(** The document [toggle_reminder] leaves in memory. *)
Lemma toggle_reminder_data (user_id : string) (now : Clock) (w : World) :
  data (snd (toggle_reminder user_id now w))
  = updated user_id
      (reminder_fields (negb (reminder_status user_id (data w)))) now (data w).
Proof.
  unfold toggle_reminder, reminder_status.
  assert (K : forall b w1,
             data (snd (bind (update_user user_id (reminder_fields b) now)
                             (fun _ => ret b) w1))
             = updated user_id (reminder_fields b) now (data w1)).
  { intros b w1. rewrite <- update_user_data. unfold bind.
    now destruct (update_user user_id (reminder_fields b) now w1) as [[e|[]] w2]. }
  assert (R := get_user_run user_id now w).
  destruct (PyDict.get user_id (Document.users (data w))) as [u|] eqn:E;
    rewrite (bind_inr _ _ _ _ _ _ _ R); cbv zeta; rewrite K.
  - reflexivity.
  - unfold updated. simpl. rewrite PyDictFacts.get_set_same, E.
    unfold Document.with_users. simpl. now rewrite PyDictFacts.set_set.
Qed.

Lemma updated_reminder (user_id : string) (b : bool) (now : Clock)
  (d : Document.t) :
  reminder_status user_id (updated user_id (reminder_fields b) now d) = b.
Proof.
  unfold reminder_status, updated. simpl.
  now rewrite PyDictFacts.get_set_same.
Qed.

(** X3: [toggle_reminder] flips the reminder status of the subscriber, an
    unknown subscriber and a record without the field counting as on.
    Afterwards the subscriber is among those the reminder jobs write to
    exactly when the status was off before; nobody else enters or leaves
    that list; the answer, when the save goes through, is the new status. *)
Theorem toggle_reminder_flips (user_id : string) (now : Clock) (w : World) :
  PyDict.ok (Document.users (data w)) ->
  let status := reminder_status user_id (data w) in
  let d' := data (snd (toggle_reminder user_id now w)) in
  PyDict.ok (Document.users d') /\
  (exists u', PyDict.get user_id (Document.users d') = Some u' /\
              User.reminder_enabled u' = Some (negb status)) /\
  (In user_id (map fst (get_all_users_for_reminder d')) <-> status = false) /\
  (forall other, other <> user_id ->
     (In other (map fst (get_all_users_for_reminder d'))
      <-> In other (map fst (get_all_users_for_reminder (data w))))) /\
  (forall b w', toggle_reminder user_id now w = (inr b, w') ->
                b = negb status).
Proof.
  intros O status d'. subst d'. rewrite toggle_reminder_data. fold status.
  assert (O' : PyDict.ok
                 (Document.users
                    (updated user_id (reminder_fields (negb status)) now (data w))))
    by (simpl; now apply PyDictFacts.ok_set).
  split; [exact O'|]. split; [|split; [|split]].
  - eexists. split; [simpl; apply PyDictFacts.get_set_same|]. reflexivity.
  - rewrite (listed_for_reminder _ _ O'). simpl.
    rewrite PyDictFacts.get_set_same. split.
    + intros (u & E & F). injection E as <-. unfold reminder_flag in F.
      simpl in F. now destruct status.
    + intro S. eexists. split; [reflexivity|].
      unfold reminder_flag. simpl. now rewrite S.
  - intros other N.
    rewrite (listed_for_reminder _ _ O'), (listed_for_reminder _ _ O). simpl.
    rewrite PyDictFacts.get_set_other by congruence. reflexivity.
  - intros b w' H. unfold toggle_reminder in H.
    assert (R := get_user_run user_id now w).
    unfold status, reminder_status.
    destruct (PyDict.get user_id (Document.users (data w))) as [u|];
      rewrite (bind_inr _ _ _ _ _ _ _ R) in H; cbv zeta in H;
      unfold bind in H;
      match type of H with
      | context [update_user ?a ?f ?n ?x] =>
          destruct (update_user a f n x) as [[e|[]] w2]
      end; simpl in H; try discriminate; now injection H as <- _.
Qed.

(** X4: toggling twice restores the reminder status, whatever became of
    the two saves. *)
Theorem toggle_reminder_twice (user_id : string) (now later : Clock)
  (w : World) :
  let w1 := snd (toggle_reminder user_id now w) in
  let w2 := snd (toggle_reminder user_id later w1) in
  reminder_status user_id (data w2) = reminder_status user_id (data w) /\
  reminder_status user_id (data w1)
  = negb (reminder_status user_id (data w)).
Proof.
  intros w1 w2. subst w2 w1. rewrite !toggle_reminder_data.
  rewrite !updated_reminder. split; [apply negb_involutive | reflexivity].
Qed.

End Subscribers.

Lemma toggle_reminder_flips_witness :
  In "9" (map fst (get_all_users_for_reminder
                     (data (snd (toggle_reminder (J := Sample.toy_json) "9"
                                   Sample.march Sample.world)))))
  <-> reminder_status "9" (data Sample.world) = false.
Proof.
  refine (proj1 (proj2 (proj2 (toggle_reminder_flips (J := Sample.toy_json)
                                 "9" Sample.march Sample.world _)))).
  repeat constructor; simpl; intuition discriminate.
Defined.

(** ** Readings: [save_invoice] and [handle_reading] as a whole *)

Section Readings.
Context {J : Json}.

(** The world [save_invoice] hands to [save_data]. *)
Lemma save_invoice_run (invoice : Invoice.t) (now : Clock) (w : World) :
  save_invoice invoice now w
  = bind (save_data now)
         (fun _ => ret (invoice_id_of (Invoice.user_id invoice)
                                      (Invoice.year_month invoice)))
         (with_data (recorded invoice now (data w)) w).
Proof.
  unfold save_invoice.
  set (user_id := Invoice.user_id invoice).
  set (id := invoice_id_of user_id (Invoice.year_month invoice)).
  assert (G : exists u users1 w1,
             get_user user_id now w = (inr u, w1) /\
             disk w1 = disk w /\ log w1 = log w /\
             data w1 = Document.with_users users1 (data w) /\
             PyDict.get user_id users1 = Some u /\
             u = match PyDict.get user_id (Document.users (data w)) with
                 | Some u => u | None => new_user now end /\
             forall v, PyDict.set user_id v users1
                       = PyDict.set user_id v (Document.users (data w))).
  { rewrite get_user_run.
    destruct (PyDict.get user_id (Document.users (data w))) as [u|] eqn:E.
    - exists u, (Document.users (data w)), w. repeat split; auto.
      now destruct w as [[] ? ?].
    - exists (new_user now), (PyDict.set user_id (new_user now)
                                 (Document.users (data w))),
        (with_data (Document.with_users
                      (PyDict.set user_id (new_user now) (Document.users (data w)))
                      (data w)) w).
      repeat split; auto.
      + apply PyDictFacts.get_set_same.
      + intro v. apply PyDictFacts.set_set. }
  destruct G as (u & users1 & w1 & R & K1 & L1 & D1 & G1 & Eu & SS).
  rewrite (bind_inr _ _ _ _ _ _ _ R).
  unfold bind at 1. unfold get_data at 1.
  set (w2 := snd ((match Document.invoices (data w1) with
                   | Some _ => ret tt
                   | None => put_data (Document.with_invoices
                                         (Some (PyDict.empty _)) (data w1))
                   end) w1)).
  assert (R2 : (match Document.invoices (data w1) with
                | Some _ => ret tt
                | None => put_data (Document.with_invoices
                                      (Some (PyDict.empty _)) (data w1))
                end) w1 = (inr tt, w2)).
  { subst w2. now destruct (Document.invoices (data w1)). }
  assert (D2 : Document.users (data w2) = users1 /\
               Document.invoices_or_empty (data w2)
               = Document.invoices_or_empty (data w) /\
               Document.version (data w2) = Document.version (data w) /\
               Document.created_at (data w2) = Document.created_at (data w) /\
               Document.settings (data w2) = Document.settings (data w) /\
               disk w2 = disk w /\ log w2 = log w).
  { subst w2. unfold Document.invoices_or_empty.
    assert (EI : Document.invoices (data w1) = Document.invoices (data w))
      by now rewrite D1.
    destruct (Document.invoices (data w1)) as [iv|]; simpl;
      rewrite D1; simpl; rewrite <- EI; auto 10. }
  destruct D2 as (U2 & I2 & V2 & C2 & S2 & K2 & L2).
  rewrite (bind_inr _ _ _ _ _ _ _ R2).
  unfold bind at 1. unfold get_data at 1. unfold bind at 1. unfold put_data at 1.
  set (w3 := mkWorld _ (disk w2) (log w2)).
  assert (G3 : PyDict.get user_id (Document.users (data w3)) = Some u)
    by (subst w3; simpl; now rewrite U2).
  rewrite (bind_inr _ _ _ _ _ _ _ (set_user_fields_run _ _ _ _ G3)).
  set (w4 := with_data _ w3).
  assert (G4 : PyDict.get user_id (Document.users (data w4))
               = Some (User.update u (User.mk None None None None None None
                                        (Some (Invoice.current_reading invoice))
                                        None)))
    by (subst w4; simpl; apply PyDictFacts.get_set_same).
  rewrite (bind_inr _ _ _ _ _ _ _ (set_user_fields_run _ _ _ _ G4)).
  f_equal. subst w4 w3. unfold with_data. simpl. rewrite K2, L2. f_equal.
  unfold Document.with_users, Document.with_invoices. simpl.
  rewrite PyDictFacts.set_set, U2, SS, I2, V2, C2, S2.
  unfold recorded. fold user_id. fold id. rewrite <- Eu.
  now destruct u.
Qed.

(** [save_data] by [can_save]. *)
Lemma save_data_can_save (now : Clock) (w : World) :
  if can_save w
  then exists w', save_data now w = (inr tt, w') /\
                  data w' = data w /\
                  data_file (disk w')
                  = Some (mkFile (json_dump (data w)) (ticks now))
  else exists e w', save_data now w = (inl e, w') /\
                    is_OSError e = true /\
                    data w' = data w /\
                    data_file (disk w') = data_file (disk w).
Proof.
  assert (S := save_data_result now w). unfold can_save.
  destruct (backup_dir (disk w)) as [dir|].
  - destruct S as (w1 & _ & O & S). rewrite S.
    unfold outside_backups in O.
    assert (data w1 = data w /\ data_file (disk w1) = data_file (disk w))
      as [D F] by (split; congruence).
    destruct (data_writable (disk w)).
    + eexists. split; [reflexivity|]. simpl. rewrite D. auto.
    + eexists _, _. split; [reflexivity|]. simpl. auto.
  - rewrite S. eexists _, _. split; [reflexivity|]. simpl. auto.
Qed.

(** [handle_reading], case by case. *)
Lemma handle_reading_run (user_id : string) (current_reading : PyFloat.t)
  (now : Clock) (w : World) :
  let previous_reading := or_zero (get_last_reading (data w) user_id) in
  let invoice := invoice_of (data w) user_id current_reading now in
  if PyFloat.ltb current_reading previous_reading
  then handle_reading user_id current_reading now w
       = (inr (ReadingBelowPrevious (ValueError current_reading previous_reading)),
          w)
  else
    exists w',
      data w' = recorded invoice now (data w) /\
      if can_save w
      then handle_reading user_id current_reading now w
           = (inr (InvoiceReply (format_invoice_message (data w') invoice true)
                     (invoice_id_of user_id (strftime_Y_m now))), w') /\
           data_file (disk w')
           = Some (mkFile (json_dump (data w')) (ticks now))
      else handle_reading user_id current_reading now w = (inr ServerError, w').
Proof.
  intros previous_reading invoice. unfold invoice_of in invoice.
  cbv zeta in invoice. fold previous_reading in invoice.
  unfold handle_reading, try_except.
  destruct (PyFloat.ltb current_reading previous_reading) eqn:G.
  - now rewrite (bind_inl _ _ _ _ _ _ _
                   (calculate_invoice_err w user_id _ now G)).
  - rewrite (bind_inr _ _ _ _ _ _ _
               (calculate_invoice_ok w user_id current_reading now G)).
    fold previous_reading. fold invoice. unfold bind at 1. rewrite save_invoice_run.
    set (w5 := with_data (recorded invoice now (data w)) w).
    assert (S := save_data_can_save now w5).
    change (can_save w5) with (can_save w) in S.
    destruct (can_save w).
    + destruct S as (w' & S & D & F). exists w'.
      split; [exact D|]. unfold bind at 1. rewrite S.
      unfold ret at 1. unfold bind, get_data, ret. cbn [fst snd].
      split; [reflexivity|]. now rewrite D.
    + destruct S as (e & w' & S & OS & D & F).
      destruct e; try discriminate OS;
        (eexists; split;
         [|unfold bind at 1; rewrite save_invoice_run; fold w5;
           unfold bind at 1; rewrite S; unfold bind, logger, ret;
           cbn [fst snd]; reflexivity]; exact D).
Qed.

End Readings.

Lemma listing_head (d : Document.t) (user_id : string) (x : Invoice.t)
  (rest : list Invoice.t) :
  get_user_invoices d user_id 2 = x :: rest ->
  get_user_invoices d user_id 1 = [x].
Proof.
  unfold get_user_invoices. rewrite !slice_to_nonneg by lia.
  destruct (sort_desc _ _ _) as [|h t]; simpl; [discriminate|].
  intro H. injection H as -> _. reflexivity.
Qed.

Lemma recorded_last_reading (d : Document.t) (invoice : Invoice.t) (now : Clock) :
  invoices_keyed d ->
  (forall other,
     In other (PyDict.values (Document.invoices_or_empty d)) ->
     Invoice.user_id other = Invoice.user_id invoice ->
     String.ltb (Invoice.year_month invoice) (Invoice.year_month other) = false) ->
  get_user_invoices (recorded invoice now d) (Invoice.user_id invoice) 1
  = [invoice].
Proof.
  intros K Le.
  destruct (saved_invoice_is_latest d invoice now K Le) as [rest R].
  exact (listing_head _ _ _ _ R).
Qed.

Lemma invoice_of_last_reading (d : Document.t) (user_id : string)
  (current_reading : PyFloat.t) (now : Clock) :
  invoices_keyed d ->
  no_later_period d user_id now ->
  get_user_invoices
    (recorded (invoice_of d user_id current_reading now) now d) user_id 1
  = [invoice_of d user_id current_reading now].
Proof.
  intros K N.
  exact (recorded_last_reading d (invoice_of d user_id current_reading now)
           now K N).
Qed.

Lemma recorded_billed (invoice : Invoice.t) (now : Clock) (d : Document.t) :
  billed invoice -> ledger_billed d -> ledger_billed (recorded invoice now d).
Proof.
  unfold ledger_billed. intros B F. apply Forall_forall. intros x I.
  simpl in I. apply In_values_set in I. destruct I as [->|I]; [exact B|].
  rewrite Forall_forall in F. exact (F x I).
Qed.

Lemma invoice_of_billed (d : Document.t) (user_id : string)
  (current_reading : PyFloat.t) (now : Clock) :
  PyFloat.ltb current_reading (or_zero (get_last_reading d user_id)) = false ->
  billed (invoice_of d user_id current_reading now).
Proof.
  intro G. unfold billed, invoice_of. simpl.
  split; [exact G|]. split; reflexivity.
Qed.

Section Ledger.
Context {J : Json}.

(** X5: [handle_reading] never raises and answers in one of three ways. A
    reading below the previous one is refused and nothing changes. Any
    other reading is recorded in memory under the key of the subscriber
    and the month; when the save goes through the answer is the invoice and
    the data file holds the new document; when it does not the answer is
    the server error and the invoice stays in memory all the same. *)
Theorem handle_reading_replies (user_id : string) (current_reading : PyFloat.t)
  (now : Clock) (w : World) :
  let previous_reading := or_zero (get_last_reading (data w) user_id) in
  let invoice := invoice_of (data w) user_id current_reading now in
  let invoice_id := invoice_id_of user_id (strftime_Y_m now) in
  exists reply w',
    handle_reading user_id current_reading now w = (inr reply, w') /\
    reply <> UnexpectedError /\
    (PyFloat.ltb current_reading previous_reading = true ->
     reply = ReadingBelowPrevious (ValueError current_reading previous_reading) /\
     w' = w) /\
    (PyFloat.ltb current_reading previous_reading = false ->
     data w' = recorded invoice now (data w) /\
     get_invoice (data w') invoice_id = Some invoice /\
     (can_save w = true ->
      reply = InvoiceReply (format_invoice_message (data w') invoice true)
                           invoice_id /\
      data_file (disk w') = Some (mkFile (json_dump (data w')) (ticks now))) /\
     (can_save w = false -> reply = ServerError)).
Proof.
  intros previous_reading invoice invoice_id.
  assert (R := handle_reading_run user_id current_reading now w).
  cbv zeta in R. fold previous_reading in R. fold invoice in R.
  destruct (PyFloat.ltb current_reading previous_reading) eqn:G.
  - eexists _, _. split; [exact R|]. split; [discriminate|].
    split; [auto | discriminate].
  - destruct R as (w' & D & R).
    assert (St : get_invoice (data w') invoice_id = Some invoice).
    { rewrite D. unfold get_invoice. simpl. apply PyDictFacts.get_set_same. }
    destruct (can_save w).
    + destruct R as [R F].
      eexists _, _. split; [exact R|]. split; [discriminate|].
      split; [discriminate|]. intros _.
      split; [exact D|]. split; [exact St|]. split; [auto | discriminate].
    + eexists _, _. split; [exact R|]. split; [discriminate|].
      split; [discriminate|]. intros _.
      split; [exact D|]. split; [exact St|]. split; [discriminate | auto].
Qed.

(** X6: the two properties of the ledger that the listing of invoices and
    the billing rely on are kept by [handle_reading], whatever it answers:
    every invoice sits under the key of its subscriber and period with no
    key twice, and every invoice is as [calculate_invoice] makes them, its
    current reading not below the previous one, its consumption their float
    difference and its total the float consumption * 700 + 250. *)
Theorem handle_reading_keeps_ledger (user_id : string)
  (current_reading : PyFloat.t) (now : Clock) (w : World) :
  invoices_keyed (data w) ->
  ledger_billed (data w) ->
  let d' := data (snd (handle_reading user_id current_reading now w)) in
  invoices_keyed d' /\ ledger_billed d'.
Proof.
  intros K B d'. subst d'.
  assert (R := handle_reading_run user_id current_reading now w).
  cbv zeta in R.
  destruct (PyFloat.ltb current_reading _) eqn:G.
  - rewrite R. now split.
  - destruct R as (w' & D & R).
    assert (snd (handle_reading user_id current_reading now w) = w') as ->
      by (destruct (can_save w); [destruct R as [-> _] | rewrite R];
          reflexivity).
    rewrite D. split; [now apply recorded_keyed|].
    apply recorded_billed; [now apply invoice_of_billed | exact B].
Qed.

(** X7: after a reading that was answered by an invoice, the reading is
    what [get_last_reading] returns, provided no stored period of the
    subscriber is later than the month of the reading; any later reading
    below it is then refused and changes nothing. The previous reading the
    refusal names is that reading, written 0 when it is a zero. *)
Theorem handle_reading_sets_last_reading (user_id : string)
  (current_reading : PyFloat.t) (now : Clock) (w w' : World)
  (message : Message) (invoice_id : string) :
  invoices_keyed (data w) ->
  no_later_period (data w) user_id now ->
  handle_reading user_id current_reading now w
  = (inr (InvoiceReply message invoice_id), w') ->
  get_last_reading (data w') user_id = Some current_reading /\
  (forall lower later,
     PyFloat.ltb lower current_reading = true ->
     let previous :=
       if PyFloat.truthy current_reading then current_reading
       else PyFloat.of_Z 0 in
     PyFloat.eqb previous current_reading = true /\
     handle_reading user_id lower later w'
     = (inr (ReadingBelowPrevious (ValueError lower previous)), w')).
Proof.
  intros K N H.
  assert (R := handle_reading_run user_id current_reading now w).
  cbv zeta in R.
  destruct (PyFloat.ltb current_reading _) eqn:G;
    [rewrite R in H; discriminate|].
  destruct R as (w1 & D & R).
  assert (w1 = w') as ->.
  { destruct (can_save w); [destruct R as [R _]|]; rewrite R in H;
      [now injection H | discriminate]. }
  assert (L : get_last_reading (data w') user_id = Some current_reading).
  { unfold get_last_reading. rewrite D.
    now rewrite (invoice_of_last_reading (data w) user_id current_reading
                   now K N). }
  split; [exact L|]. intros lower later Lt previous.
  change previous with (or_zero (Some current_reading)).
  split; [apply or_zero_eqb; exact (ltb_not_nan _ _ Lt)|].
  assert (R2 := handle_reading_run user_id lower later w').
  cbv zeta in R2. rewrite L in R2.
  rewrite (or_zero_below lower current_reading), Lt in R2. exact R2.
Qed.

(** X8: a second reading in the same month, answered by an invoice like
    the first, replaces the invoice of the month and adds none. The second
    reading is not below the first, and the stored invoice starts from the
    first reading of that month (from 0 when that reading was a zero): its
    consumption is the float difference of the second reading and that
    previous reading, its total the float consumption * 700 + 250. *)
Theorem same_month_correction (user_id : string) (first second : PyFloat.t)
  (now later : Clock) (w w1 w2 : World) (m1 m2 : Message) (id1 id2 : string) :
  invoices_keyed (data w) ->
  no_later_period (data w) user_id now ->
  strftime_Y_m later = strftime_Y_m now ->
  handle_reading user_id first now w = (inr (InvoiceReply m1 id1), w1) ->
  handle_reading user_id second later w1 = (inr (InvoiceReply m2 id2), w2) ->
  id2 = id1 /\
  PyFloat.ltb second first = false /\
  PyDict.keys (Document.invoices_or_empty (data w2))
  = PyDict.keys (Document.invoices_or_empty (data w1)) /\
  exists invoice,
    get_invoice (data w2) id2 = Some invoice /\
    get_user_invoices (data w2) user_id 1 = [invoice] /\
    Invoice.previous_reading invoice
    = (if PyFloat.truthy first then first else PyFloat.of_Z 0) /\
    Invoice.current_reading invoice = second /\
    Invoice.consumption invoice
    = PyFloat.sub second (Invoice.previous_reading invoice) /\
    Invoice.total_amount invoice
    = PyFloat.add (PyFloat.mul (Invoice.consumption invoice) (PyFloat.of_Z 700))
                  (PyFloat.of_Z 250).
Proof.
  intros K N Same H1 H2.
  assert (R1 := handle_reading_run user_id first now w). cbv zeta in R1.
  destruct (PyFloat.ltb first _) eqn:G1; [rewrite R1 in H1; discriminate|].
  destruct R1 as (w1' & D1 & R1).
  assert (w1' = w1 /\ id1 = invoice_id_of user_id (strftime_Y_m now))
    as [-> ->].
  { destruct (can_save w); [destruct R1 as [R1 _]|]; rewrite R1 in H1;
      [now injection H1 | discriminate]. }
  set (invoice1 := invoice_of (data w) user_id first now) in *.
  assert (L1 : get_last_reading (data w1) user_id = Some first).
  { unfold get_last_reading. rewrite D1.
    unfold invoice1.
    now rewrite (invoice_of_last_reading (data w) user_id first now K N). }
  assert (K1 : invoices_keyed (data w1))
    by (rewrite D1; now apply recorded_keyed).
  assert (N1 : no_later_period (data w1) user_id later).
  { intros other I U. rewrite Same. rewrite D1 in I. simpl in I.
    apply In_values_set in I. destruct I as [->|I].
    - apply ltb_irrefl.
    - now apply N. }
  assert (R2 := handle_reading_run user_id second later w1). cbv zeta in R2.
  rewrite L1 in R2.
  destruct (PyFloat.ltb second (or_zero (Some first))) eqn:G2;
    [rewrite R2 in H2; discriminate|].
  destruct R2 as (w2' & D2 & R2).
  assert (w2' = w2 /\ id2 = invoice_id_of user_id (strftime_Y_m later))
    as [-> ->].
  { destruct (can_save w1); [destruct R2 as [R2 _]|]; rewrite R2 in H2;
      [now injection H2 | discriminate]. }
  set (invoice2 := invoice_of (data w1) user_id second later) in *.
  split; [now rewrite Same|].
  split; [now rewrite <- (or_zero_below second first)|].
  split.
  - rewrite D2.
    change (Document.invoices_or_empty (recorded invoice2 later (data w1)))
      with (PyDict.set (invoice_id_of user_id (strftime_Y_m later)) invoice2
                       (Document.invoices_or_empty (data w1))).
    rewrite PyDictFacts.keys_set.
    replace (PyDict.mem _ _) with true; [reflexivity|].
    symmetry. apply PyDictFacts.mem_true. rewrite D1, Same.
    change (Document.invoices_or_empty (recorded invoice1 now (data w)))
      with (PyDict.set (invoice_id_of user_id (strftime_Y_m now)) invoice1
                       (Document.invoices_or_empty (data w))).
    apply PyDictFacts.In_keys_set.
  - exists invoice2. split; [|split].
    + rewrite D2. unfold get_invoice. simpl. apply PyDictFacts.get_set_same.
    + rewrite D2.
      exact (invoice_of_last_reading (data w1) user_id second later K1 N1).
    + unfold invoice2, invoice_of. simpl. rewrite L1.
      repeat split.
Qed.

End Ledger.

Lemma handle_reading_keeps_ledger_witness :
  ledger_billed
    (data (snd (handle_reading (J := Sample.toy_json) "42" (PyFloat.of_Z 150)
                  Sample.march Sample.world))).
Proof.
  refine (proj2 (handle_reading_keeps_ledger (J := Sample.toy_json)
                   "42" (PyFloat.of_Z 150) Sample.march Sample.world _ _)).
  - split.
    + repeat constructor; simpl; intuition discriminate.
    + repeat constructor.
  - unfold ledger_billed. simpl.
    repeat (constructor; [repeat split; vm_compute; reflexivity|]).
    constructor.
Defined.

Lemma handle_reading_sets_last_reading_witness :
  get_last_reading
    (data (snd (handle_reading (J := Sample.toy_json) "42" (PyFloat.of_Z 150)
                  Sample.march Sample.world))) "42"
  = Some (PyFloat.of_Z 150).
Proof.
  pose (r := handle_reading (J := Sample.toy_json) "42" (PyFloat.of_Z 150)
               Sample.march Sample.world).
  assert (E : exists message invoice_id,
             r = (inr (InvoiceReply message invoice_id), snd r))
    by (vm_compute; eexists _, _; reflexivity).
  destruct E as (message & invoice_id & E).
  refine (proj1 (handle_reading_sets_last_reading (J := Sample.toy_json)
                   "42" (PyFloat.of_Z 150) Sample.march Sample.world (snd r)
                   message invoice_id _ _ E)).
  - split.
    + repeat constructor; simpl; intuition discriminate.
    + repeat constructor.
  - intros other I U. simpl in I.
    destruct I as [<-|[<-|[]]]; reflexivity.
Defined.

Lemma same_month_correction_witness :
  exists invoice,
    get_invoice
      (data (snd (handle_reading (J := Sample.toy_json) "42" (PyFloat.of_Z 150)
                    Sample.march_later
                    (snd (handle_reading (J := Sample.toy_json) "42"
                            (PyFloat.of_Z 145) Sample.march Sample.world)))))
      "42_2024-03"
    = Some invoice /\
    Invoice.consumption invoice
    = PyFloat.sub (PyFloat.of_Z 150) (Invoice.previous_reading invoice).
Proof.
  pose (r1 := handle_reading (J := Sample.toy_json) "42" (PyFloat.of_Z 145)
                Sample.march Sample.world).
  pose (r2 := handle_reading (J := Sample.toy_json) "42" (PyFloat.of_Z 150)
                Sample.march_later (snd r1)).
  assert (E1 : exists m1, r1 = (inr (InvoiceReply m1 "42_2024-03"), snd r1))
    by (vm_compute; eexists; reflexivity).
  assert (E2 : exists m2, r2 = (inr (InvoiceReply m2 "42_2024-03"), snd r2))
    by (vm_compute; eexists; reflexivity).
  destruct E1 as (m1 & E1). destruct E2 as (m2 & E2).
  destruct (same_month_correction (J := Sample.toy_json) "42"
              (PyFloat.of_Z 145) (PyFloat.of_Z 150)
              Sample.march Sample.march_later Sample.world (snd r1) (snd r2)
              m1 m2 "42_2024-03" "42_2024-03")
    as (_ & _ & _ & invoice & G & _ & _ & _ & C & _).
  - split.
    + repeat constructor; simpl; intuition discriminate.
    + repeat constructor.
  - intros other I U. simpl in I.
    destruct I as [<-|[<-|[]]]; reflexivity.
  - reflexivity.
  - exact E1.
  - exact E2.
  - exists invoice. split; [exact G | exact C].
Defined.

Example same_month_correction_ledger :
  option_map Invoice.consumption
    (get_invoice
       (data (snd (handle_reading (J := Sample.toy_json) "42" (PyFloat.of_Z 150)
                     Sample.march_later
                     (snd (handle_reading (J := Sample.toy_json) "42"
                             (PyFloat.of_Z 145) Sample.march Sample.world)))))
       "42_2024-03")
  = Some (PyFloat.of_Z 5).
Proof. vm_compute. reflexivity. Qed.

(** ** Statistics: [get_user_stats] *)

Lemma listing_sorted (d : Document.t) (user_id : string) (limit : Z) :
  (0 <= limit)%Z ->
  StronglySorted
    (fun a b => String.ltb (Invoice.year_month a) (Invoice.year_month b) = false)
    (get_user_invoices d user_id limit).
Proof.
  intro L. unfold get_user_invoices. rewrite slice_to_nonneg by exact L.
  apply firstn_StronglySorted, sort_desc_sorted.
Qed.

Lemma max_from_head (x : Invoice.t) (l : list Invoice.t) :
  Forall (fun b => String.ltb (Invoice.year_month x) (Invoice.year_month b)
                   = false) l ->
  max_from Invoice.year_month PyStr.lt x l = x.
Proof.
  induction 1 as [|y l Le _ IH]; cbn [max_from]; [reflexivity|].
  change (PyStr.lt (Invoice.year_month x) (Invoice.year_month y))
    with (String.ltb (Invoice.year_month x) (Invoice.year_month y)).
  now rewrite Le.
Qed.

Lemma min_from_least (best : Invoice.t) (l : list Invoice.t) :
  let m := min_from Invoice.year_month PyStr.lt best l in
  In m (best :: l) /\
  forall y, In y (best :: l) ->
            String.ltb (Invoice.year_month y) (Invoice.year_month m) = false.
Proof.
  revert best. induction l as [|x l IH]; intro best; cbn [min_from].
  - split; [now left|]. intros y [<-|[]]. apply ltb_irrefl.
  - destruct (IH (if PyStr.lt (Invoice.year_month x) (Invoice.year_month best)
                  then x else best)) as [I Le].
    set (m := min_from _ _ _ l) in *. unfold PyStr.lt in *.
    destruct (String.ltb (Invoice.year_month x) (Invoice.year_month best)) eqn:C.
    + split; [now right|].
      intros y [<-|[<-|Iy]].
      * apply (ltb_negtrans _ (Invoice.year_month x));
          [apply Le; now left | now apply ltb_asym].
      * apply Le. now left.
      * apply Le. now right.
    + split; [destruct I as [I|I]; [now left | now right; right]|].
      intros y [<-|[<-|Iy]].
      * apply Le. now left.
      * apply (ltb_negtrans _ (Invoice.year_month best));
          [apply Le; now left | exact C].
      * apply Le. now right.
Qed.

(** X9: the count of [get_user_stats]. It is the number of stored
    invoices of the subscriber, capped at 100, and it is 0 exactly when the
    subscriber has no stored invoice, in which case every figure is 0 and
    both periods are absent. Otherwise the two totals are the built-in sum
    over the consumptions and the amounts of the listed invoices, the 100
    latest at most, and the average is the float quotient of the total
    consumption by the count. *)
Theorem get_user_stats_counts (py_sum : list PyFloat.t -> PyFloat.t)
  (d : Document.t) (user_id : string) :
  let s := get_user_stats py_sum d user_id in
  let stored := PyDict.values (Document.invoices_or_empty d) in
  let mine :=
    filter (fun invoice => String.eqb (Invoice.user_id invoice) user_id)
           stored in
  let listing := get_user_invoices d user_id 100 in
  Stats.total_invoices s = Nat.min 100 (List.length mine) /\
  (Stats.total_invoices s = 0%nat <->
   forall invoice, In invoice stored -> Invoice.user_id invoice <> user_id) /\
  (Stats.total_invoices s = 0%nat ->
   s = Stats.mk 0 (PyFloat.of_Z 0) (PyFloat.of_Z 0) (PyFloat.of_Z 0) None None) /\
  ((0 < Stats.total_invoices s)%nat ->
   Stats.total_consumption s = py_sum (map Invoice.consumption listing) /\
   Stats.total_amount s = py_sum (map Invoice.total_amount listing) /\
   Stats.avg_consumption s
   = PyFloat.div (Stats.total_consumption s)
                 (PyFloat.of_Z (Z.of_nat (Stats.total_invoices s)))).
Proof.
  intros s stored mine listing.
  assert (T : Stats.total_invoices s = List.length listing).
  { subst s. unfold get_user_stats. fold listing. now destruct listing. }
  assert (Len : List.length listing = Nat.min 100 (List.length mine)).
  { subst listing. unfold get_user_invoices. rewrite slice_to_nonneg by lia.
    rewrite length_firstn. unfold sort_desc. rewrite sort_by_length.
    reflexivity. }
  assert (Z0 : List.length listing = 0%nat <-> listing = [])
    by (destruct listing; split; intro H; try reflexivity; discriminate H).
  split; [now rewrite T|]. split; [|split].
  - rewrite T, Z0. apply listing_empty. lia.
  - rewrite T, Z0. intro E. subst s. unfold get_user_stats.
    fold listing. now rewrite E.
  - rewrite T. intro P. subst s. unfold get_user_stats. fold listing.
    destruct listing as [|first others]; [simpl in P; lia|].
    cbv zeta. cbn [Stats.total_consumption Stats.total_amount
                   Stats.avg_consumption Stats.total_invoices].
    repeat split.
Qed.

(** X10: the periods of [get_user_stats]. Without an invoice both are
    absent. Otherwise the last period is that of the invoice the listing
    starts with, the one [get_last_reading] reads, and the first period is
    that of a listed invoice; no listed period is earlier than the first or
    later than the last. *)
Theorem get_user_stats_periods (py_sum : list PyFloat.t -> PyFloat.t)
  (d : Document.t) (user_id : string) :
  let s := get_user_stats py_sum d user_id in
  match get_user_invoices d user_id 100 with
  | [] => Stats.first_invoice s = None /\ Stats.last_invoice s = None
  | latest :: rest =>
      Stats.last_invoice s = Some (Invoice.year_month latest) /\
      get_last_reading d user_id = Some (Invoice.current_reading latest) /\
      exists oldest,
        In oldest (latest :: rest) /\
        Stats.first_invoice s = Some (Invoice.year_month oldest) /\
        forall invoice,
          In invoice (latest :: rest) ->
          String.ltb (Invoice.year_month invoice) (Invoice.year_month oldest)
          = false /\
          String.ltb (Invoice.year_month latest) (Invoice.year_month invoice)
          = false
  end.
Proof.
  intro s. subst s. unfold get_user_stats.
  assert (S := listing_sorted d user_id 100 ltac:(lia)).
  assert (H1 : get_user_invoices d user_id 1
               = firstn 1 (get_user_invoices d user_id 100)).
  { unfold get_user_invoices. rewrite !slice_to_nonneg by lia.
    rewrite firstn_firstn. reflexivity. }
  destruct (get_user_invoices d user_id 100) as [|latest rest] eqn:E.
  - now split.
  - apply StronglySorted_inv in S. destruct S as [_ S].
    cbv zeta. cbn [Stats.first_invoice Stats.last_invoice].
    split; [now rewrite (max_from_head latest rest S)|].
    split; [unfold get_last_reading; now rewrite H1|].
    destruct (min_from_least latest rest) as [I Le].
    eexists. split; [exact I|]. split; [reflexivity|].
    intros invoice Ii. split; [now apply Le|].
    destruct Ii as [<-|Ii]; [apply ltb_irrefl|].
    rewrite Forall_forall in S. now apply S.
Qed.

Example get_user_stats_ledger :
  let s := get_user_stats sum_left Sample.ledger "42" in
  Stats.total_invoices s = 2%nat /\
  Stats.total_consumption s = PyFloat.of_Z 100 /\
  Stats.total_amount s = PyFloat.of_Z 70500 /\
  Stats.avg_consumption s = PyFloat.of_Z 50 /\
  expected_monthly_cost s = PyFloat.of_Z 35250 /\
  Stats.first_invoice s = Some "2024-01" /\
  Stats.last_invoice s = Some "2024-02".
Proof. vm_compute. repeat split. Qed.

(** The average times the count is not the total in general: one unit over
    49 invoices. *)
Example average_rounds :
  PyFloat.mul (PyFloat.div (PyFloat.of_Z 1) (PyFloat.of_Z 49)) (PyFloat.of_Z 49)
  <> PyFloat.of_Z 1.
Proof. vm_compute. discriminate. Qed.

(** ** Backups, restart and the retention sweep *)

Lemma length_append (s t : string) :
  String.length (s ++ t) = (String.length s + String.length t)%nat.
Proof. induction s as [|c s IH]; simpl; [reflexivity | now rewrite IH]. Qed.

Lemma substring_whole (s : string) : substring 0 (String.length s) s = s.
Proof. induction s as [|c s IH]; simpl; [reflexivity | now rewrite IH]. Qed.

Lemma substring_append (s t : string) :
  substring (String.length s) (String.length t) (s ++ t) = t.
Proof.
  induction s as [|c s IH]; simpl; [apply substring_whole | exact IH].
Qed.

Lemma endswith_append (s p : string) : PyStr.endswith (s ++ p) p = true.
Proof.
  unfold PyStr.endswith. rewrite length_append.
  replace (String.length s + String.length p - String.length p)%nat
    with (String.length s) by lia.
  rewrite substring_append, String.eqb_refl, Bool.andb_true_r.
  apply Nat.leb_le. lia.
Qed.

Lemma backup_name_counts (backup_type : string) (now : Clock) :
  is_backup_name (backup_name backup_type now) = true.
Proof.
  unfold is_backup_name, backup_name. apply andb_true_intro. split.
  - apply prefix_append.
  - rewrite <- !append_assoc. apply endswith_append.
Qed.

Lemma swept_count (dir : PyDict.dict File) :
  PyDict.ok dir ->
  (List.length (filter is_backup_name
                       (PyDict.keys (remove_all (doomed 10 dir) dir))) <= 10)%nat.
Proof.
  intro O.
  set (sorted := map fst (oldest_first dir)).
  set (k := (List.length sorted - 10)%nat).
  assert (P : Permutation
                (filter is_backup_name
                        (PyDict.keys (remove_all (doomed 10 dir) dir)))
                (skipn k sorted)).
  { apply NoDup_Permutation.
    - apply NoDup_filter. now apply ok_remove_all.
    - assert (N : NoDup sorted).
      { eapply Permutation_NoDup; [symmetry; apply oldest_first_names|].
        now apply NoDup_filter. }
      rewrite <- (firstn_skipn k sorted) in N. exact (NoDup_app_remove_l _ _ N).
    - intro x. rewrite filter_In. now apply kept_after_sweep. }
  rewrite (Permutation_length P), length_skipn. lia.
Qed.

Lemma doomed_swept (dir : PyDict.dict File) :
  PyDict.ok dir -> doomed 10 (remove_all (doomed 10 dir) dir) = [].
Proof.
  intro O. assert (L := swept_count dir O). unfold doomed at 1.
  destruct (Z.ltb_spec 10
              (Z.of_nat (List.length
                           (filter is_backup_name
                                   (PyDict.keys (remove_all (doomed 10 dir) dir))))));
    [lia | reflexivity].
Qed.

Lemma world_eq (w w' : World) :
  outside_backups w' = outside_backups w ->
  backup_dir (disk w') = backup_dir (disk w) ->
  log w' = log w ->
  w' = w.
Proof.
  destruct w as [d [f r wr b bw] l], w' as [d' [f' r' wr' b' bw'] l'].
  unfold outside_backups. simpl. intros O B L. congruence.
Qed.

Section Restart.
Context {J : Json}.

(** X11: [create_backup] raises nothing and never touches the document,
    the data file or the permissions. It returns no name exactly when the
    backup directory is missing or refuses the file; then the failure, an
    error of the file system, is the one line added to the log. A name it
    returns is the one made of the type and the moment, and the retention
    sweep counts it as a backup whatever the type. *)
Theorem create_backup_outcome (backup_type : string) (now : Clock) (w : World) :
  exists result w',
    create_backup backup_type now w = (inr result, w') /\
    outside_backups w' = outside_backups w /\
    (result = None <->
     backup_dir (disk w) = None \/ backup_writable (disk w) = false) /\
    (result = None ->
     exists e, is_OSError e = true /\
               log w' = (log w ++ [(ERROR, BackupFailed e)])%list) /\
    (forall name, result = Some name ->
                  name = backup_name backup_type now /\
                  is_backup_name name = true).
Proof.
  assert (K := keeps_create_backup _ outside_backups outside_backups_log
                 outside_backups_backup_dir backup_type now w).
  destruct (backup_dir (disk w)) as [dir|] eqn:D.
  - destruct (backup_writable (disk w)) eqn:W.
    + assert (P := put_backup_run w dir (backup_name backup_type now)
                     (mkFile (json_dump (data w)) (ticks now)) D).
      rewrite W in P.
      set (wa := with_backup_dir _ w) in P.
      set (wb := with_log (log wa ++ [(INFO, BackupCreated
                                               (backup_name backup_type now))])
                          wa).
      destruct (never_raises_cleanup 10 wb) as [[] R].
      assert (E : create_backup backup_type now w
                  = (inr (Some (backup_name backup_type now)),
                     snd (cleanup_old_backups 10 wb))).
      { unfold create_backup, try_except, write_backup.
        unfold bind at 1. unfold get_data at 1.
        rewrite (bind_inr _ _ _ _ _ _ _ P).
        unfold bind at 1. unfold logger at 1.
        fold (with_log (log wa ++ [(INFO, BackupCreated
                                            (backup_name backup_type now))]) wa).
        fold wb. unfold bind.
        destruct (cleanup_old_backups 10 wb) as [[e|[]] w2];
          [discriminate R | reflexivity]. }
      rewrite E in K. eexists _, _. split; [exact E|]. split; [exact K|].
      split; [split; [discriminate | intros [N|N]; discriminate]|].
      split; [discriminate|].
      intros name N. injection N as <-.
      split; [reflexivity | apply backup_name_counts].
    + assert (E := create_backup_refused backup_type now w dir D W).
      eexists _, _. split; [exact E|]. split; [reflexivity|].
      split; [split; auto|]. split; [|discriminate].
      intros _. eexists. split; [|reflexivity]. reflexivity.
  - eexists _, _. split.
    { cbv [create_backup try_except write_backup put_backup bind get_data
           get_disk logger raise ret].
      rewrite D. reflexivity. }
    split; [reflexivity|]. split; [split; auto|]. split; [|discriminate].
    intros _. eexists. split; [|reflexivity]. reflexivity.
Qed.

Lemma ensure_directories_run (w : World) :
  ensure_directories w
  = (inr tt,
     match backup_dir (disk w) with
     | Some _ => w
     | None => with_backup_dir (Some (PyDict.empty File)) w
     end).
Proof.
  unfold ensure_directories, exists_backup_dir, makedirs_backup_dir, bind,
    get_disk, put_disk, ret.
  simpl. destruct (backup_dir (disk w)); reflexivity.
Qed.

Lemma load_data_parsed (now : Clock) (w : World) (f : File) (d : Document.t) :
  data_file (disk w) = Some f ->
  data_readable (disk w) = true ->
  json_load (bytes f) = Parsed d ->
  load_data now w = (inr d, with_log (log w ++ [(INFO, DataLoaded)]) w).
Proof.
  intros F R P.
  cbv [load_data read_data_file exists_data_file try_except bind get_disk
       logger raise ret].
  repeat (first [rewrite F | rewrite R | rewrite P]; cbv beta iota;
          cbn [data disk log data_file data_readable bytes]).
  reflexivity.
Qed.

Lemma load_data_keeps_directory (now : Clock) (w : World)
  (dir : PyDict.dict File) :
  backup_dir (disk w) = Some dir ->
  exists dir', backup_dir (disk (snd (load_data now w))) = Some dir'.
Proof.
  intro D.
  destruct (data_file (disk w)) as [f|] eqn:F.
  - destruct (data_readable (disk w)) eqn:R.
    + destruct (json_load (bytes f)) as [d| |] eqn:P.
      * rewrite (load_data_parsed now w f d F R P). now exists dir.
      * destruct (backup_writable (disk w)) eqn:W.
        -- rewrite (load_data_not_json now w f dir F R P D W). simpl.
           now eexists.
        -- rewrite (load_data_copy_refused now w f dir F R P D W).
           now exists dir.
      * exists dir.
        cbv [load_data read_data_file exists_data_file try_except bind get_disk
             logger raise ret].
        repeat (first [rewrite F | rewrite R | rewrite P]; cbv beta iota;
                cbn [data disk log data_file data_readable bytes]).
        exact D.
    + rewrite (load_data_unreadable now w f F R). now exists dir.
  - exists dir.
    cbv [load_data read_data_file exists_data_file try_except bind get_disk
         logger raise ret].
    repeat (first [rewrite F]; cbv beta iota;
            cbn [data disk log data_file data_readable bytes]).
    exact D.
Qed.

(** The world [init] leaves: the directory made if need be, then the
    document loaded. *)
Lemma init_run (now : Clock) (w : World) :
  exists w0 d,
    ensure_directories w = (inr tt, w0) /\
    fst (load_data now w0) = inr d /\
    init now w = (inr tt, with_data d (snd (load_data now w0))).
Proof.
  assert (E := ensure_directories_run w).
  set (w0 := match backup_dir (disk w) with Some _ => w | None => _ end) in E.
  exists w0. destruct (never_raises_load_data now w0) as [d L].
  exists d. split; [exact E|]. split; [exact L|].
  unfold init. rewrite (bind_inr _ _ _ _ _ _ _ E). unfold bind.
  destruct (load_data now w0) as [[e|d'] w1].
  - discriminate L.
  - simpl in L. injection L as ->. reflexivity.
Qed.

(** X12: [__init__] raises nothing and leaves a backup directory in place,
    so that a save which follows can only fail on the data file: it raises
    exactly when the data file may not be written, and then with that
    permission error. Without a data file the document is the fresh one,
    with no subscriber and no invoice. *)
Theorem init_then_save (now later : Clock) (w : World) :
  let w1 := snd (init now w) in
  fst (init now w) = inr tt /\
  backup_dir (disk w1) <> None /\
  data_writable (disk w1) = data_writable (disk w) /\
  (data_file (disk w) = None ->
   data w1 = initialize_data_structure now /\
   Document.users (data w1) = [] /\ Document.invoices (data w1) = Some []) /\
  ((exists e w', save_data later w1 = (inl e, w'))
   <-> data_writable (disk w) = false) /\
  (forall e w', save_data later w1 = (inl e, w') ->
                e = PermissionError DATA_FILE).
Proof.
  intro w1. subst w1.
  destruct (init_run now w) as (w0 & d & E & L & I). rewrite I.
  cbn [fst snd].
  rewrite ensure_directories_run in E. injection E as E.
  assert (D0 : exists dir0, backup_dir (disk w0) = Some dir0)
    by (subst w0; destruct (backup_dir (disk w)) eqn:B;
        [rewrite B | simpl]; now eexists).
  destruct D0 as [dir0 D0].
  destruct (load_data_keeps_directory now w0 dir0 D0) as [dir1 D1].
  assert (Wr : data_writable (disk (snd (load_data now w0)))
               = data_writable (disk w)).
  { rewrite (keeps_load_data _ (fun w => data_writable (disk w))
               (fun _ _ => eq_refl) (fun _ _ => eq_refl) now w0).
    subst w0. now destruct (backup_dir (disk w)). }
  set (wl := snd (load_data now w0)) in *.
  split; [reflexivity|]. split; [simpl; rewrite D1; discriminate|].
  split; [exact Wr|]. split; [|].
  - intro F.
    assert (F0 : data_file (disk w0) = None)
      by (subst w0; now destruct (backup_dir (disk w))).
    assert (d = initialize_data_structure now) as ->.
    { revert L.
      cbv [load_data read_data_file exists_data_file try_except bind get_disk
           logger raise ret].
      rewrite F0. cbn. now intros [= <-]. }
    now split.
  - assert (S := save_data_result later (with_data d wl)).
    change (disk (with_data d wl)) with (disk wl) in S.
    rewrite D1, Wr in S. destruct S as (w2 & _ & _ & S). rewrite S.
    destruct (data_writable (disk w)).
    + split; [split; [intros (e & w' & H); discriminate | discriminate]|].
      intros e w' H. discriminate.
    + split; [split; [reflexivity | intros _; eexists _, _; reflexivity]|].
      intros e w' H. now injection H as <- _.
Qed.

(** X13: what [save_data] writes, [load_data] reads back, and [__init__]
    starts from, whenever [json.load] undoes [json.dump] on the document
    and the data file may be read. *)
Theorem save_then_restart (now later : Clock) (w w' : World) :
  json_load (json_dump (data w)) = Parsed (data w) ->
  data_readable (disk w) = true ->
  save_data now w = (inr tt, w') ->
  load_data later w'
  = (inr (data w), with_log (log w' ++ [(INFO, DataLoaded)]) w') /\
  fst (init later w') = inr tt /\
  data (snd (init later w')) = data w.
Proof.
  intros C R S.
  assert (F : data_file (disk w')
              = Some (mkFile (json_dump (data w)) (ticks now)) /\
              data_readable (disk w') = true).
  { assert (SR := save_data_result now w).
    destruct (backup_dir (disk w)); [|rewrite SR in S; discriminate].
    destruct SR as (w1 & _ & O & SR). rewrite SR in S.
    unfold outside_backups in O.
    assert (data w1 = data w /\ data_readable (disk w1) = data_readable (disk w))
      as [Dw Rw] by (split; congruence).
    destruct (data_writable (disk w)); [|discriminate].
    injection S as <-. simpl. rewrite Dw, Rw. now split. }
  destruct F as [F R'].
  split; [exact (load_data_parsed later w' _ _ F R' C)|].
  destruct (init_run later w') as (w0 & d & E & L & I). rewrite I.
  split; [reflexivity|]. simpl.
  rewrite ensure_directories_run in E. injection E as E.
  assert (F0 : data_file (disk w0)
               = Some (mkFile (json_dump (data w)) (ticks now)) /\
               data_readable (disk w0) = true)
    by (subst w0; now destruct (backup_dir (disk w'))).
  destruct F0 as [F0 R0].
  rewrite (load_data_parsed later w0 _ _ F0 R0 C) in L. simpl in L.
  now injection L.
Qed.

(** X14: a second retention sweep right after the first finds nothing to
    remove and changes nothing, the log included. *)
Theorem cleanup_twice (w : World) (dir : PyDict.dict File) :
  backup_dir (disk w) = Some dir ->
  backup_writable (disk w) = true ->
  PyDict.ok dir ->
  let w' := snd (cleanup_old_backups 10 w) in
  cleanup_old_backups 10 w' = (inr tt, w').
Proof.
  intros D W O w'. subst w'.
  destruct (cleanup_run 10 w dir D W O) as (w' & R & D' & O' & _).
  rewrite R. cbn [snd].
  assert (W' : backup_writable (disk w') = true)
    by (unfold outside_backups in O'; congruence).
  destruct (cleanup_run 10 w' _ D' W' (ok_remove_all _ _ O))
    as (w2 & R2 & D2 & O2 & L2).
  rewrite R2. f_equal.
  rewrite (doomed_swept dir O) in D2, L2. simpl in D2, L2.
  apply world_eq; [exact O2 | congruence | now rewrite L2, app_nil_r].
Qed.

End Restart.

Lemma save_then_restart_witness :
  data (snd (init (J := Sample2.ledger_json) Sample2.april
               (snd (save_data (J := Sample2.ledger_json) Sample.march
                       Sample.world))))
  = Sample.ledger.
Proof.
  refine (proj2 (proj2 (save_then_restart (J := Sample2.ledger_json)
                          Sample.march Sample2.april Sample.world
                          (snd (save_data (J := Sample2.ledger_json)
                                  Sample.march Sample.world)) _ _ _)));
    reflexivity.
Defined.

Lemma cleanup_twice_witness :
  cleanup_old_backups 10 (snd (cleanup_old_backups 10 Sample.crowded_world))
  = (inr tt, snd (cleanup_old_backups 10 Sample.crowded_world)).
Proof.
  refine (cleanup_twice Sample.crowded_world Sample.crowded_dir _ _ _).
  - reflexivity.
  - reflexivity.
  - unfold PyDict.ok. simpl.
    repeat (constructor; [simpl; intuition discriminate|]). constructor.
Defined.

(** ** Reminders: who is written to, and the counters *)

Section FanOutFacts.
Variable delivers : string -> bool.
Variable message_of : string * User.t -> notice.
Variables ok failed : string -> level * reminder_event.
Variable log_success : bool.

Lemma fan_out_fold (users : list (string * User.t)) (init : FanOut) :
  let run :=
    fold_left
      (fun run kv => send_to delivers (message_of kv) ok failed run (fst kv)
                             log_success)
      users init in
  calls run
  = (calls init
     ++ map (fun kv => (fst kv, message_of kv, delivers (fst kv))) users)%list /\
  success_count run
  = (success_count init
     + List.length (filter (fun kv => delivers (fst kv)) users))%nat /\
  failed_count run
  = (failed_count init
     + List.length (filter (fun kv => negb (delivers (fst kv))) users))%nat /\
  reminder_log run
  = (reminder_log init
     ++ flat_map (fun kv => if delivers (fst kv)
                            then if log_success then [ok (fst kv)] else []
                            else [failed (fst kv)]) users)%list.
Proof.
  revert init. induction users as [|kv users IH]; intro init; cbn [fold_left].
  - cbn. rewrite ?app_nil_r, ?Nat.add_0_r. auto.
  - destruct (IH (send_to delivers (message_of kv) ok failed init (fst kv)
                          log_success)) as (C & S & F & L).
    cbv zeta. rewrite C, S, F, L. unfold send_to. cbn [map filter flat_map].
    destruct (delivers (fst kv)); cbn [calls success_count failed_count
                                       reminder_log negb List.length];
      rewrite <- ?app_assoc; repeat split; try lia;
      destruct log_success; rewrite <- ?app_assoc; reflexivity.
Qed.

End FanOutFacts.

Lemma filter_split_length (A : Type) (f : A -> bool) (l : list A) :
  (List.length (filter f l) + List.length (filter (fun x => negb (f x)) l)
   = List.length l)%nat.
Proof.
  induction l as [|x l IH]; simpl; [reflexivity|].
  destruct (f x); simpl; lia.
Qed.

Lemma delivered_count (l : list (string * User.t)) (delivers : string -> bool)
  (message_of : string * User.t -> notice) :
  List.length
    (filter (fun call : string * notice * bool => snd call)
            (map (fun kv => (fst kv, message_of kv, delivers (fst kv))) l))
  = List.length (filter (fun kv => delivers (fst kv)) l).
Proof.
  induction l as [|kv l IH]; simpl; [reflexivity|].
  destruct (delivers (fst kv)); simpl; now rewrite IH.
Qed.

Lemma flat_map_length_failures (l : list (string * User.t))
  (delivers : string -> bool) (failed : string -> level * reminder_event) :
  List.length (flat_map (fun kv => if delivers (fst kv) then []
                                   else [failed (fst kv)]) l)
  = List.length (filter (fun kv => negb (delivers (fst kv))) l).
Proof.
  induction l as [|kv l IH]; simpl; [reflexivity|].
  destruct (delivers (fst kv)); simpl; now rewrite IH.
Qed.

Lemma filter_keys (V : Type) (f : string -> bool) (l : list (string * V)) :
  map fst (filter (fun kv => f (fst kv)) l) = filter f (map fst l).
Proof.
  induction l as [|kv l IH]; simpl; [reflexivity|].
  destruct (f (fst kv)); simpl; now rewrite IH.
Qed.

Lemma last_month_date_valid (today : Clock) (y m : nat) :
  valid_date today ->
  last_month_date today = Some (y, m) ->
  (1 <= m <= 12)%nat /\
  ((month today = 1)%nat -> m = 12%nat /\ S y = year today) /\
  ((month today <> 1)%nat -> S m = month today /\ y = year today).
Proof.
  intros [Y M] H. unfold last_month_date in H.
  destruct (Nat.eqb_spec (month today) 1) as [E|E].
  - destruct (Nat.leb_spec (year today) 1); [discriminate|].
    injection H as <- <-. repeat split; try lia.
  - injection H as <- <-. repeat split; try lia.
Qed.

(** X15: [send_monthly_reminders] does nothing before the application
    exists. Otherwise it writes once to every subscriber whose reminders are
    not switched off, in the order of the document, and to nobody else; a
    delivery that fails does not stop the loop; the two counters add up to
    the number of those subscribers, the first counting the deliveries; the
    log has one line for each of them and the summary last. The month it
    names is the one before today, December of the year before in
    January. *)
Theorem send_monthly_reminders_counts (delivers : string -> bool)
  (d : Document.t) (today : Clock) (y m : nat) :
  valid_date today ->
  last_month_date today = Some (y, m) ->
  send_monthly_reminders delivers false d today = NotReady /\
  exists run,
    send_monthly_reminders delivers true d today = Finished run /\
    recipients run = map fst (get_all_users_for_reminder d) /\
    (forall user_id,
       In user_id (recipients run) <->
       exists u, In (user_id, u) (PyDict.items (Document.users d)) /\
                 User.reminder_enabled u <> Some false) /\
    Forall (fun call =>
              exists name,
                snd (fst call) = MonthlyReminder name (get_arabic_month m) y)
           (calls run) /\
    success_count run = List.length (delivered run) /\
    (success_count run + failed_count run
     = List.length (get_all_users_for_reminder d))%nat /\
    (exists entries,
       reminder_log run
       = (entries ++ [(INFO, RemindersSummary (success_count run)
                                              (failed_count run))])%list /\
       List.length entries = List.length (get_all_users_for_reminder d)) /\
    (1 <= m <= 12)%nat /\
    ((month today = 1)%nat -> m = 12%nat /\ S y = year today) /\
    ((month today <> 1)%nat -> S m = month today /\ y = year today).
Proof.
  intros V H. split; [reflexivity|].
  unfold send_monthly_reminders. rewrite H. cbn [negb].
  set (users := get_all_users_for_reminder d).
  destruct (fan_out_fold delivers
              (fun kv => MonthlyReminder (first_name_of (snd kv))
                                         (get_arabic_month m) y)
              (fun u => (INFO, ReminderSent u))
              (fun u => (ERROR, ReminderFailed u)) true users
              (mkFanOut [] 0 0 [])) as (C & S & F & L).
  cbv zeta in C, S, F, L. cbn [calls success_count failed_count reminder_log
                               app Nat.add] in C, S, F, L.
  eexists. split; [reflexivity|].
  unfold recipients, delivered.
  cbn [calls success_count failed_count reminder_log].
  rewrite C, S, F, L.
  split; [|split; [|split; [|split; [|split; [|split]]]]].
  - rewrite map_map. reflexivity.
  - intro user_id. rewrite map_map. cbn [fst]. split.
    + intro I. apply in_map_iff in I. destruct I as ([k u] & E & I).
      simpl in E. subst k. exists u. apply filter_In in I.
      destruct I as [I Fl]. split; [exact I|].
      unfold reminder_flag in Fl. simpl in Fl. intro N. rewrite N in Fl.
      discriminate.
    + intros (u & I & N). apply in_map_iff. exists (user_id, u).
      split; [reflexivity|]. apply filter_In. split; [exact I|].
      unfold reminder_flag. simpl.
      destruct (User.reminder_enabled u) as [[|]|]; congruence.
  - apply Forall_forall. intros call I. apply in_map_iff in I.
    destruct I as (kv & <- & _). now eexists.
  - now rewrite delivered_count.
  - apply filter_split_length.
  - eexists. split; [reflexivity|]. clear.
    induction users as [|kv users IH]; simpl; [reflexivity|].
    destruct (delivers (fst kv)); simpl; now rewrite IH.
  - exact (last_month_date_valid today y m V H).
Qed.

(** X16: [send_startup_notification] writes the same notice to the same
    subscribers; it counts the deliveries only, logs the failures and ends
    the log with the number delivered. *)
Theorem send_startup_notification_counts (delivers : string -> bool)
  (d : Document.t) :
  let run := send_startup_notification delivers d in
  recipients run = map fst (get_all_users_for_reminder d) /\
  Forall (fun call => snd (fst call) = StartupNotice) (calls run) /\
  (success_count run + failed_count run
   = List.length (get_all_users_for_reminder d))%nat /\
  exists failures,
    reminder_log run
    = (failures ++ [(INFO, StartupSummary (List.length (delivered run)))])%list /\
    List.length failures = failed_count run /\
    Forall (fun entry => fst entry = ERROR) failures.
Proof.
  intro run. subst run. unfold send_startup_notification.
  set (users := get_all_users_for_reminder d).
  destruct (fan_out_fold delivers (fun _ => StartupNotice)
              (fun u => (INFO, ReminderSent u))
              (fun u => (ERROR, StartupFailed u)) false users
              (mkFanOut [] 0 0 [])) as (C & S & F & L).
  cbv zeta in C, S, F, L. cbn [calls success_count failed_count reminder_log
                               app Nat.add] in C, S, F, L.
  unfold recipients, delivered.
  cbn [calls success_count failed_count reminder_log].
  rewrite C, S, F, L.
  split; [|split; [|split]].
  - rewrite map_map. reflexivity.
  - apply Forall_forall. intros call I. apply in_map_iff in I.
    now destruct I as (kv & <- & _).
  - apply filter_split_length.
  - eexists. split; [now rewrite delivered_count|].
    split; [exact (flat_map_length_failures users delivers
                     (fun u => (ERROR, StartupFailed u)))|].
    apply Forall_forall. intros entry I. apply in_flat_map in I.
    destruct I as (kv & _ & I).
    destruct (delivers (fst kv)); [contradiction|].
    now destruct I as [<-|[]].
Qed.

(** The loop of [force_reminders_command], turn by turn. *)
Lemma force_fold (delivers : string -> bool)
  (message_of : string * User.t -> notice) (users : list (string * User.t))
  (init : FanOut) :
  let run :=
    fold_left (fun run kv => force_to delivers (message_of kv) run (fst kv))
              users init in
  calls run
  = (calls init
     ++ map (fun kv => (fst kv, message_of kv, delivers (fst kv))) users)%list /\
  success_count run
  = (success_count init
     + List.length (filter (fun kv => delivers (fst kv)) users))%nat /\
  failed_count run = (failed_count init + List.length users)%nat /\
  reminder_log run
  = (reminder_log init
     ++ map (fun kv =>
               (ERROR,
                AdminReminderFailed (fst kv)
                  (if delivers (fst kv) then NameError_asyncio else SendError)))
            users)%list.
Proof.
  revert init. induction users as [|kv users IH]; intro init; cbn [fold_left].
  - cbn. rewrite ?app_nil_r, ?Nat.add_0_r. auto.
  - destruct (IH (force_to delivers (message_of kv) init (fst kv)))
      as (C & S & F & L).
    cbv zeta. rewrite C, S, F, L. unfold force_to. cbn [map filter List.length].
    destruct (delivers (fst kv));
      cbn [calls success_count failed_count reminder_log List.length];
      rewrite <- ?app_assoc; repeat split; lia.
Qed.

Lemma force_skip (delivers is_int : string -> bool)
  (message_of : string * User.t -> notice) (users : list (string * User.t))
  (init : FanOut) :
  fold_left
    (fun run kv =>
       if is_int (fst kv)
       then force_to delivers (message_of kv) run (fst kv)
       else run)
    users init
  = fold_left (fun run kv => force_to delivers (message_of kv) run (fst kv))
              (filter (fun kv => is_int (fst kv)) users) init.
Proof.
  revert init. induction users as [|kv users IH]; intro init; simpl;
    [reflexivity|].
  destruct (is_int (fst kv)); simpl; apply IH.
Qed.

(** X17: [force_reminders_command] writes to every subscriber of the
    document whose identifier reads as an integer, reminders switched off or
    not, and passes over the others without counting them. The counter of
    successes is the number of deliveries. The counter of failures is the
    number of subscribers written to, delivered or not: after a delivery
    the call to [asyncio.sleep] raises [NameError], since the module never
    imports [asyncio], and the handler of the loop counts and logs it as a
    failure. So the final reply reports a failure for every delivery, the
    log has one error line for every subscriber written to, and the two
    counters add up to the subscribers written to plus the deliveries. *)
Theorem force_reminders_reaches_everyone (delivers is_int : string -> bool)
  (d : Document.t) (today : Clock) (y m : nat) :
  last_month_date today = Some (y, m) ->
  exists run,
    force_reminders_command delivers is_int d today = Some run /\
    recipients run = filter is_int (PyDict.keys (Document.users d)) /\
    (forall user_id u,
       In (user_id, u) (PyDict.items (Document.users d)) ->
       is_int user_id = true -> In user_id (recipients run)) /\
    (forall user_id, In user_id (recipients run) -> is_int user_id = true) /\
    Forall (fun call =>
              exists name,
                snd (fst call) = AdminReminder name (get_arabic_month m) y)
           (calls run) /\
    success_count run = List.length (delivered run) /\
    failed_count run = List.length (recipients run) /\
    (success_count run + failed_count run
     = List.length (recipients run) + List.length (delivered run))%nat /\
    List.length (reminder_log run) = List.length (recipients run) /\
    (forall user_id,
       In (ERROR, AdminReminderFailed user_id NameError_asyncio)
          (reminder_log run) <->
       In user_id (recipients run) /\ delivers user_id = true).
Proof.
  intro H. unfold force_reminders_command. rewrite H.
  eexists. split; [reflexivity|].
  rewrite (force_skip delivers is_int
             (fun kv => AdminReminder (first_name_of (snd kv))
                                      (get_arabic_month m) y)).
  set (users := filter (fun kv => is_int (fst kv))
                       (PyDict.items (Document.users d))).
  destruct (force_fold delivers
              (fun kv => AdminReminder (first_name_of (snd kv))
                                       (get_arabic_month m) y)
              users (mkFanOut [] 0 0 [])) as (C & S & F & L).
  cbv zeta in C, S, F, L. cbn [calls success_count failed_count reminder_log
                               app Nat.add] in C, S, F, L.
  unfold recipients, delivered. rewrite C, S, F, L.
  assert (R : map (fun call : string * notice * bool => fst (fst call))
                  (map (fun kv => (fst kv,
                                   AdminReminder (first_name_of (snd kv))
                                                 (get_arabic_month m) y,
                                   delivers (fst kv))) users)
              = filter is_int (PyDict.keys (Document.users d))).
  { rewrite map_map. cbn [fst]. apply filter_keys. }
  assert (RL : List.length (filter is_int (PyDict.keys (Document.users d)))
               = List.length users)
    by (rewrite <- R, !length_map; reflexivity).
  assert (DC := delivered_count users delivers
                  (fun kv => AdminReminder (first_name_of (snd kv))
                                           (get_arabic_month m) y)).
  cbv beta in DC.
  rewrite R.
  split; [reflexivity|].
  split; [|split; [|split; [|split; [|split; [|split; [|split]]]]]].
  - intros user_id u I N. apply filter_In. split; [|exact N].
    apply in_map_iff. now exists (user_id, u).
  - intros user_id I. now apply filter_In in I.
  - apply Forall_forall. intros call I. apply in_map_iff in I.
    destruct I as (kv & <- & _). now eexists.
  - now rewrite DC.
  - now rewrite RL.
  - rewrite DC, RL. lia.
  - now rewrite length_map, RL.
  - intro user_id. rewrite <- R, map_map. cbn [fst]. rewrite !in_map_iff.
    split.
    + intros (kv & E & I). injection E as E1 E2. subst user_id.
      split; [now exists kv|].
      destruct (delivers (fst kv)); [reflexivity | discriminate E2].
    + intros [(kv & E & I) Dl]. subst user_id. exists kv.
      split; [now rewrite Dl | exact I].
Qed.

Lemma send_monthly_reminders_counts_witness :
  exists run,
    send_monthly_reminders Sample2.delivers true Sample.ledger Sample.march
    = Finished run /\
    recipients run = ["42"; "7"].
Proof.
  destruct (send_monthly_reminders_counts Sample2.delivers Sample.ledger
              Sample.march 2024 2) as (_ & run & E & R & _).
  - unfold valid_date. simpl. lia.
  - reflexivity.
  - exists run. split; [exact E | exact R].
Defined.

Lemma force_reminders_reaches_everyone_witness :
  exists run,
    force_reminders_command Sample2.delivers Sample2.is_int Sample.ledger
      Sample.march = Some run /\
    recipients run = ["42"; "7"; "9"].
Proof.
  destruct (force_reminders_reaches_everyone Sample2.delivers Sample2.is_int
              Sample.ledger Sample.march 2024 2) as (run & E & R & _).
  - reflexivity.
  - exists run. split; [exact E | exact R].
Defined.

Example reminders_ledger :
  match send_monthly_reminders Sample2.delivers true Sample.ledger
          Sample.march with
  | Finished run =>
      success_count run = 1%nat /\ failed_count run = 1%nat /\
      reminder_log run
      = [(INFO, ReminderSent "42"); (ERROR, ReminderFailed "7");
         (INFO, RemindersSummary 1 1)]
  | _ => False
  end.
Proof. vm_compute. repeat split. Qed.

(** ** The history keyboard and where its buttons lead *)

Lemma replace_absent (old new s : string) :
  PyStr.contains old s = false -> replace_from old new 0 s = s.
Proof.
  induction s as [|c s IH]; cbn [replace_from PyStr.contains];
    [reflexivity|].
  intro H. apply Bool.orb_false_elim in H. destruct H as [P C].
  rewrite P. now rewrite (IH C).
Qed.

Lemma replace_skip (old new t s : string) :
  replace_from old new (String.length t) (t ++ s) = replace_from old new 0 s.
Proof.
  induction t as [|c t IH]; [reflexivity|].
  change (String c t ++ s) with (String c (t ++ s)).
  cbn [replace_from String.length]. exact IH.
Qed.

Lemma replace_prefix (c : ascii) (old new s : string) :
  replace_from (String c old) new 0 (String c old ++ s)
  = new ++ replace_from (String c old) new 0 s.
Proof.
  change (String c old ++ s) with (String c (old ++ s)) at 1.
  cbn [replace_from].
  change (String c (old ++ s)) with (String c old ++ s).
  rewrite prefix_append. cbn [String.length]. rewrite Nat.sub_succ, Nat.sub_0_r.
  f_equal. apply replace_skip.
Qed.

Lemma route_invoice_detail_any (year_month : string) :
  button_handler ("invoice_detail_" ++ year_month)
  = ShowInvoiceDetail (replace_from "invoice_detail_" "" 0 year_month).
Proof.
  unfold button_handler.
  repeat match goal with
         | |- context [String.eqb ("invoice_detail_" ++ ?y) ?k] =>
             change (String.eqb ("invoice_detail_" ++ y) k) with false
         end.
  cbv iota. unfold PyStr.startswith. rewrite prefix_append.
  unfold str_replace. now rewrite replace_prefix.
Qed.

Lemma digit_not_i (n : nat) : "i"%char <> PyStr.digit n.
Proof.
  unfold PyStr.digit. intro E.
  assert (B : (n mod 10 < 10)%nat) by (apply Nat.mod_upper_bound; lia).
  assert (E' : nat_of_ascii "i"
               = nat_of_ascii (ascii_of_nat (48 + n mod 10)))
    by now rewrite <- E.
  rewrite nat_ascii_embedding in E' by lia.
  change (nat_of_ascii "i") with 105%nat in E'. lia.
Qed.

Lemma period_plain (c : Clock) :
  PyStr.contains "invoice_detail_" (strftime_Y_m c) = false.
Proof.
  unfold strftime_Y_m, PyStr.pad4, PyStr.pad2.
  cbn [String.append PyStr.contains String.prefix].
  repeat (match goal with
          | |- context [ascii_dec "i"%char (PyStr.digit ?n)] =>
              destruct (ascii_dec "i"%char (PyStr.digit n)) as [E|_];
              [exfalso; exact (digit_not_i n E)|]
          | |- context [ascii_dec "i"%char "-"%char] =>
              destruct (ascii_dec "i"%char "-"%char) as [E|_];
              [discriminate E|]
          end).
  reflexivity.
Qed.

Lemma listing_length (d : Document.t) (user_id : string) (limit : Z) :
  (0 <= limit)%Z ->
  (List.length (get_user_invoices d user_id limit) <= Z.to_nat limit)%nat.
Proof.
  intro L. unfold get_user_invoices. rewrite slice_to_nonneg by exact L.
  rewrite length_firstn. apply Nat.le_min_l.
Qed.

(** X18: the history keyboard has one row for each of the six latest
    invoices at most, each a single button that carries the period of its
    invoice, and a last row with the export and the way back: seven rows at
    most. The row that offers more invoices never appears, and no button of
    the keyboard leads to [show_all_invoices]. *)
Theorem history_keyboard_rows (history_label : Invoice.t -> string)
  (d : Document.t) (user_id : string) :
  let listing := get_user_invoices d user_id 6 in
  let keyboard := create_history_keyboard history_label d user_id in
  keyboard
  = (map (fun invoice =>
            [mkButton (history_label invoice)
                      ("invoice_detail_" ++ Invoice.year_month invoice)])
         listing
     ++ [[mkButton "📤 تصدير البيانات" "export_data";
          mkButton "🔙 الرئيسية" "back_to_main"]])%list /\
  List.length keyboard = S (List.length listing) /\
  (List.length keyboard <= 7)%nat /\
  Forall (Forall (fun button =>
                    callback_data button <> "more_invoices" /\
                    button_handler (callback_data button) <> ShowAllInvoices))
         keyboard.
Proof.
  intros listing keyboard.
  assert (Len := listing_length d user_id 6 ltac:(lia)). fold listing in Len.
  assert (E : keyboard
              = (map (fun invoice =>
                        [mkButton (history_label invoice)
                                  ("invoice_detail_"
                                   ++ Invoice.year_month invoice)])
                     listing
                 ++ [[mkButton "📤 تصدير البيانات" "export_data";
                      mkButton "🔙 الرئيسية" "back_to_main"]])%list).
  { subst keyboard. unfold create_history_keyboard. fold listing.
    destruct (Nat.ltb_spec 6 (List.length listing)); [|reflexivity].
    simpl in Len. lia. }
  split; [exact E|]. rewrite E.
  split; [rewrite length_app, length_map; simpl; lia|].
  split; [rewrite length_app, length_map; simpl in *; lia|].
  apply Forall_app. split.
  - apply Forall_forall. intros row I. apply in_map_iff in I.
    destruct I as (invoice & <- & _). constructor; [|constructor].
    cbn [callback_data]. split; [discriminate|].
    rewrite route_invoice_detail_any. discriminate.
  - repeat constructor; simpl; discriminate.
Qed.

(** X19: a button of the history keyboard leads back to its invoice.
    When every invoice sits under the key of its subscriber and period, the
    callback of a listed invoice whose period is one that [strftime] writes
    is routed to [show_invoice_detail] with that very period, and the
    invoice shown is the listed one, without the comparison line. *)
Theorem history_button_opens_invoice (d : Document.t) (user_id : string)
  (invoice : Invoice.t) (c : Clock) :
  invoices_keyed d ->
  In invoice (get_user_invoices d user_id 6) ->
  Invoice.year_month invoice = strftime_Y_m c ->
  let data := "invoice_detail_" ++ Invoice.year_month invoice in
  button_handler data = ShowInvoiceDetail (Invoice.year_month invoice) /\
  show_invoice_detail d user_id (Invoice.year_month invoice)
  = Some (format_invoice_message d invoice false) /\
  comparison (format_invoice_message d invoice false) = None.
Proof.
  intros [O K] I P data. subst data.
  split; [|split; [|reflexivity]].
  - rewrite route_invoice_detail_any. f_equal. apply replace_absent.
    rewrite P. apply period_plain.
  - apply get_user_invoices_In in I. destruct I as [I U].
    apply in_map_iff in I. destruct I as ([k v] & E & I). simpl in E. subst v.
    rewrite Forall_forall in K. assert (Ek := K _ I). simpl in Ek.
    rewrite U in Ek. subst k.
    unfold show_invoice_detail, get_invoice_by_month, get_invoice.
    now rewrite (PyDictFacts.In_get _ _ _ _ O I).
Qed.

Lemma history_button_opens_invoice_witness :
  button_handler "invoice_detail_2024-02" = ShowInvoiceDetail "2024-02" /\
  show_invoice_detail Sample.ledger "42" "2024-02"
  = Some (format_invoice_message Sample.ledger Sample.february_invoice false).
Proof.
  destruct (history_button_opens_invoice Sample.ledger "42"
              Sample.february_invoice (mkClock 2024 2 3 10 0 0 0 1706954400))
    as (R & S & _).
  - split.
    + repeat constructor; simpl; intuition discriminate.
    + repeat constructor.
  - left. reflexivity.
  - reflexivity.
  - split; [exact R | exact S].
Defined.

Example replace_takes_every_occurrence :
  str_replace "invoice_detail_invoice_detail_2024-02" "invoice_detail_" ""
  = "2024-02" /\
  button_handler "invoice_detail_" = ShowInvoiceDetail "" /\
  button_handler "more_invoices" = ShowAllInvoices /\
  button_handler "toggle_reminder" = ToggleReminder /\
  button_handler "unknown" = NoRoute.
Proof. repeat split. Qed.

(** ** What a caller finds after [create_backup] and [save_invoice] *)

Section Outcomes.
Context {J : Json}.

(** X20: when the backup directory can be written and every file in it is
    older than the moment of the call, the backup [create_backup] names is
    still there after the retention sweep that ends the call, so that
    [backup_command] can ask for its size: it holds the document as
    [json.dump] writes it, and ten backups at most remain. *)
Theorem create_backup_survives (backup_type : string) (now : Clock) (w : World)
  (dir : PyDict.dict File) :
  backup_dir (disk w) = Some dir ->
  backup_writable (disk w) = true ->
  PyDict.ok dir ->
  (forall other f, PyDict.get other dir = Some f -> (mtime f < ticks now)%Z) ->
  exists dir',
    fst (create_backup backup_type now w)
    = inr (Some (backup_name backup_type now)) /\
    backup_dir (disk (snd (create_backup backup_type now w))) = Some dir' /\
    PyDict.get (backup_name backup_type now) dir'
    = Some (mkFile (json_dump (data w)) (ticks now)) /\
    (List.length (filter is_backup_name (PyDict.keys dir')) <= 10)%nat.
Proof.
  intros D W O Older.
  destruct (create_backup_written backup_type now w dir D W O)
    as (w' & R & D' & _ & _).
  rewrite R. cbn [fst snd]. eexists. split; [reflexivity|].
  split; [exact D'|]. split.
  - rewrite get_remove_all; [apply PyDictFacts.get_set_same|].
    apply new_backup_survives;
      [exact O | apply backup_name_counts | exact Older].
  - apply swept_count. now apply PyDictFacts.ok_set.
Qed.

(** X21: [save_invoice] records the invoice in memory whatever becomes of
    the save. When the save can go through it returns the key made of the
    subscriber and the period, and the data file holds the document with
    the invoice; when it cannot, the error raised is the one of the file
    system, never a missing key, while the invoice is in memory. *)
Theorem save_invoice_outcome (invoice : Invoice.t) (now : Clock) (w : World) :
  let invoice_id :=
    invoice_id_of (Invoice.user_id invoice) (Invoice.year_month invoice) in
  let w' := snd (save_invoice invoice now w) in
  data w' = recorded invoice now (data w) /\
  get_invoice (data w') invoice_id = Some invoice /\
  (can_save w = true ->
   fst (save_invoice invoice now w) = inr invoice_id /\
   data_file (disk w') = Some (mkFile (json_dump (data w')) (ticks now))) /\
  (can_save w = false ->
   exists e, fst (save_invoice invoice now w) = inl e /\ is_OSError e = true).
Proof.
  intros invoice_id w'. subst w'.
  assert (D := save_invoice_data invoice now w).
  split; [exact D|]. split.
  { rewrite D. unfold get_invoice. simpl. apply PyDictFacts.get_set_same. }
  rewrite D. rewrite save_invoice_run. fold invoice_id.
  set (w5 := with_data (recorded invoice now (data w)) w).
  assert (S := save_data_can_save now w5).
  change (can_save w5) with (can_save w) in S.
  destruct (can_save w).
  - destruct S as (w' & S & _ & F). unfold bind. rewrite S.
    split; [|discriminate]. intros _. split; [reflexivity | exact F].
  - destruct S as (e & w' & S & OS & _ & F). unfold bind. rewrite S.
    split; [discriminate|]. intros _. now exists e.
Qed.

End Outcomes.

Lemma create_backup_survives_witness :
  exists dir',
    backup_dir (disk (snd (create_backup (J := Sample.toy_json) "manual"
                             Sample.march Sample.crowded_world)))
    = Some dir' /\
    PyDict.get "water_bill_backup_manual_20240305_093000.json" dir'
    = Some (mkFile "2024-01-01T00:00:00" 1709631000).
Proof.
  destruct (create_backup_survives (J := Sample.toy_json) "manual"
              Sample.march Sample.crowded_world Sample.crowded_dir)
    as (dir' & _ & D & G & _).
  - reflexivity.
  - reflexivity.
  - unfold PyDict.ok. simpl.
    repeat (constructor; [simpl; intuition discriminate|]). constructor.
  - intros other f G. apply PyDictFacts.get_In in G. simpl in G.
    repeat (destruct G as [G|G]; [injection G as _ <-; reflexivity|]).
    contradiction.
  - exists dir'. split; [exact D | exact G].
Defined.

(** ** The buttons of the invoice reply, and the history message *)

(** X22: of the buttons under the invoice that [handle_reading] replies
    with, the one that shares the invoice is routed nowhere by
    [button_handler], whatever the invoice; the one that saves it reaches
    [save_invoice_action] with the invoice identifier, provided the
    identifier does not itself contain the marker that [replace] removes;
    the last two lead to a new reading and to the history. *)
Theorem invoice_reply_buttons (invoice_id : string) :
  map (map (fun button => button_handler (callback_data button)))
      (invoice_keyboard invoice_id)
  = [ [SaveInvoiceAction (replace_from "save_invoice_" "" 0 invoice_id)];
      [NoRoute];
      [NewReadingPrompt; ShowUserHistory] ] /\
  (PyStr.contains "save_invoice_" invoice_id = false ->
   button_handler ("save_invoice_" ++ invoice_id)
   = SaveInvoiceAction invoice_id).
Proof.
  assert (Save : button_handler ("save_invoice_" ++ invoice_id)
                 = SaveInvoiceAction
                     (replace_from "save_invoice_" "" 0 invoice_id)).
  { unfold button_handler.
    repeat match goal with
           | |- context [String.eqb ("save_invoice_" ++ ?y) ?k] =>
               change (String.eqb ("save_invoice_" ++ y) k) with false
           end.
    change (PyStr.startswith ("save_invoice_" ++ invoice_id) "invoice_detail_")
      with false.
    cbv iota. unfold PyStr.startswith. rewrite prefix_append.
    unfold str_replace. now rewrite replace_prefix. }
  assert (Share : button_handler ("share_invoice_" ++ invoice_id) = NoRoute).
  { unfold button_handler.
    repeat match goal with
           | |- context [String.eqb ("share_invoice_" ++ ?y) ?k] =>
               change (String.eqb ("share_invoice_" ++ y) k) with false
           end.
    change (PyStr.startswith ("share_invoice_" ++ invoice_id) "invoice_detail_")
      with false.
    change (PyStr.startswith ("share_invoice_" ++ invoice_id) "save_invoice_")
      with false.
    reflexivity. }
  split.
  - unfold invoice_keyboard. cbn [map callback_data].
    now rewrite Save, Share.
  - intro C. rewrite Save. f_equal. now apply replace_absent.
Qed.



Example show_user_history_ledger :
  match show_user_history Sample2.label sum_left Sample.ledger "42" with
  | Some h =>
      history_lines h = [Sample.february_invoice; Sample.january_invoice] /\
      history_more h = None /\
      Stats.total_invoices (history_stats h) = 2%nat /\
      List.length (history_keyboard h) = 3%nat
  | None => False
  end.
Proof. vm_compute. repeat split. Qed.
